(** * Fire-weather calculators: EMC, time-lag moisture model and Rothermel spread

    A shallow embedding of [fuel-moisture-integration.js], of the time-lag
    step of the bundled fuel-moisture-calculator library and of
    [fire-behavior.js], together with the properties the specification
    states about them.

    Numbers.  A JavaScript number is embedded as an extended real: a real
    number of the Standard Library, one of the two infinities, or NaN.  The
    finite values are ideal reals, so the binary64 rounding error, overflow
    to an infinity and the sign of zero are outside the model; what the model
    keeps is the control flow that depends on numbers (comparisons that are
    false on NaN, truthiness, division by zero, [Math.max], [Math.round]).
    Where two results of the code are compared, the order is meant to
    survive the rounding: it is stated without strictness, or strictly for
    arguments that are a margin apart.  The composition of two steps is an
    equality of the ideal reals.

    Values.  The functions that test [typeof] receive dynamically typed
    values, so that the tests are part of the model.  Failures are thrown
    errors carrying their message. *)

From Stdlib Require Import Reals Machin Lra Lia ZArith List String Bool Sorted.
Import ListNotations.

Set Warnings "-register-all".

Open Scope R_scope.

(** ** Decisions on reals as booleans *)

Definition Rltb (x y : R) : bool := if Rlt_dec x y then true else false.
Definition Rleb (x y : R) : bool := if Rle_dec x y then true else false.
Definition Reqb (x y : R) : bool := if Req_dec_T x y then true else false.

(** ** JavaScript numbers *)

Module JsNumber.

Inductive number : Type :=
| Fin (r : R)
| PInf
| NInf
| NaN.

(** Unary minus. *)
Definition neg (a : number) : number :=
  match a with
  | Fin x => Fin (- x)
  | PInf => NInf
  | NInf => PInf
  | NaN => NaN
  end.

(** [a + b] *)
Definition add (a b : number) : number :=
  match a, b with
  | NaN, _ | _, NaN => NaN
  | Fin x, Fin y => Fin (x + y)
  | PInf, NInf | NInf, PInf => NaN
  | PInf, _ | _, PInf => PInf
  | NInf, _ | _, NInf => NInf
  end.

(** [a - b] *)
Definition sub (a b : number) : number := add a (neg b).

(** The infinity that has the sign of [x * s], for [s] the sign of the
    infinity [PInf] (true) or [NInf] (false); NaN when [x] is zero. *)
Definition scaled_infinity (x : R) (positive : bool) : number :=
  if Reqb x 0 then NaN
  else if Bool.eqb (Rltb 0 x) positive then PInf else NInf.

(** [a * b] *)
Definition mul (a b : number) : number :=
  match a, b with
  | NaN, _ | _, NaN => NaN
  | Fin x, Fin y => Fin (x * y)
  | Fin x, PInf | PInf, Fin x => scaled_infinity x true
  | Fin x, NInf | NInf, Fin x => scaled_infinity x false
  | PInf, PInf | NInf, NInf => PInf
  | PInf, NInf | NInf, PInf => NInf
  end.

(** [a / b].  A zero divisor is taken as [+0]. *)
Definition div (a b : number) : number :=
  match a, b with
  | NaN, _ | _, NaN => NaN
  | Fin x, Fin y =>
      if Reqb y 0 then scaled_infinity x true else Fin (x / y)
  | Fin _, (PInf | NInf) => Fin 0
  | PInf, Fin y => if Rltb y 0 then NInf else PInf
  | NInf, Fin y => if Rltb y 0 then PInf else NInf
  | (PInf | NInf), (PInf | NInf) => NaN
  end.

(** [a < b]; false as soon as one side is NaN. *)
Definition lt (a b : number) : bool :=
  match a, b with
  | NaN, _ | _, NaN => false
  | Fin x, Fin y => Rltb x y
  | _, NInf => false
  | NInf, _ => true
  | PInf, _ => false
  | Fin _, PInf => true
  end.

(** [a <= b]; false as soon as one side is NaN. *)
Definition le (a b : number) : bool :=
  match a, b with
  | NaN, _ | _, NaN => false
  | Fin x, Fin y => Rleb x y
  | NInf, _ => true
  | _, PInf => true
  | _, NInf => false
  | PInf, _ => false
  end.

(** [a > b] and [a >= b] *)
Definition gt (a b : number) : bool := lt b a.
Definition ge (a b : number) : bool := le b a.

(** ToBoolean on a number: zero and NaN are falsy. *)
Definition truthy (a : number) : bool :=
  match a with
  | Fin x => negb (Reqb x 0)
  | NaN => false
  | PInf | NInf => true
  end.

(** [Math.max(a, b)] and [Math.min(a, b)]: NaN is contagious. *)
Definition max (a b : number) : number :=
  match a, b with
  | NaN, _ | _, NaN => NaN
  | _, _ => if lt a b then b else a
  end.

Definition min (a b : number) : number :=
  match a, b with
  | NaN, _ | _, NaN => NaN
  | _, _ => if lt b a then b else a
  end.

(** [Math.round(a)]: the nearest integer, ties towards plus infinity. *)
Definition round (a : number) : number :=
  match a with
  | Fin x => Fin (IZR (Zfloor (x + 1 / 2)))
  | _ => a
  end.

(** [Math.exp(a)] *)
Definition exp (a : number) : number :=
  match a with
  | Fin x => Fin (Rtrigo_def.exp x)
  | PInf => PInf
  | NInf => Fin 0
  | NaN => NaN
  end.

(** [Math.sqrt(a)] *)
Definition sqrt (a : number) : number :=
  match a with
  | Fin x => if Rltb x 0 then NaN else Fin (R_sqrt.sqrt x)
  | PInf => PInf
  | NInf | NaN => NaN
  end.

(** [Math.tan(a)].  No binary64 argument is a pole of the tangent; at a
    pole the value is the one of the library's [tan]. *)
Definition tan (a : number) : number :=
  match a with
  | Fin x => Fin (Rtrigo1.tan x)
  | _ => NaN
  end.

(** [Math.PI] is the binary64 number nearest to pi, 884279719003555 / 2^48,
    which lies about 1.2e-16 below pi.  The difference is kept: with it
    [slope * Math.PI / 180] at 90 degrees is just short of the pole of the
    tangent, where the tangent is about 1.6e16, as in the code. *)
Definition Math_PI : R := 884279719003555 / 281474976710656.
Definition PI : number := Fin Math_PI.

(** Whether a real is an integer, and whether it is an odd one. *)
Definition is_integer (y : R) : bool := Reqb y (IZR (Zfloor y)).
Definition is_odd_integer (y : R) : bool := is_integer y && Z.odd (Zfloor y).

(** [Math.pow(a, b)], following Number::exponentiate. *)
Definition pow (a b : number) : number :=
  match b with
  | NaN => NaN
  | Fin y =>
      if Reqb y 0 then Fin 1
      else
        match a with
        | NaN => NaN
        | PInf => if Rltb 0 y then PInf else Fin 0
        | NInf =>
            if Rltb 0 y
            then (if is_odd_integer y then NInf else PInf)
            else Fin 0
        | Fin x =>
            if Reqb x 0 then (if Rltb 0 y then Fin 0 else PInf)
            else if Rltb 0 x then Fin (Rpower x y)
            else if is_integer y then Fin (powerRZ x (Zfloor y))
            else NaN
        end
  | PInf =>
      match a with
      | NaN => NaN
      | Fin x =>
          if Rltb 1 (Rabs x) then PInf
          else if Reqb (Rabs x) 1 then NaN else Fin 0
      | PInf | NInf => PInf
      end
  | NInf =>
      match a with
      | NaN => NaN
      | Fin x =>
          if Rltb 1 (Rabs x) then Fin 0
          else if Reqb (Rabs x) 1 then NaN else PInf
      | PInf | NInf => Fin 0
      end
  end.

End JsNumber.

Declare Scope js_scope.
Delimit Scope js_scope with js.
Bind Scope js_scope with JsNumber.number.
Infix "+" := JsNumber.add : js_scope.
Infix "-" := JsNumber.sub : js_scope.
Infix "*" := JsNumber.mul : js_scope.
Infix "/" := JsNumber.div : js_scope.
Notation "- a" := (JsNumber.neg a) : js_scope.
Infix "<?" := JsNumber.lt (at level 70, no associativity) : js_scope.
Infix "<=?" := JsNumber.le (at level 70, no associativity) : js_scope.
Infix ">?" := JsNumber.gt (at level 70, no associativity) : js_scope.
Infix ">=?" := JsNumber.ge (at level 70, no associativity) : js_scope.

(** ** JavaScript values, property lookup and thrown errors *)

Module Js.
Import JsNumber.

Inductive value : Type :=
| VUndefined
| VNull
| VBool (b : bool)
| VNum (n : number)
| VStr (s : string)
| VArr (items : list value)
| VObj (props : list (string * value)).

(** [typeof v === 'number'] *)
Definition is_number (v : value) : bool :=
  match v with VNum _ => true | _ => false end.

Fixpoint assoc {A : Type} (k : string) (props : list (string * A)) : option A :=
  match props with
  | [] => None
  | (k', v) :: rest => if String.eqb k k' then Some v else assoc k rest
  end.

(** [o.k] on an object built from a literal: the property, or undefined.
    Of the other values only objects are ever asked for the properties
    used here. *)
Definition get (o : value) (k : string) : value :=
  match o with
  | VObj props => match assoc k props with Some v => v | None => VUndefined end
  | _ => VUndefined
  end.

(** Whether the object carries property [k] (whatever its value). *)
Definition has (o : value) (k : string) : bool :=
  match o with
  | VObj props => match assoc k props with Some _ => true | None => false end
  | _ => false
  end.

(** A thrown [Error] with its message; [TypeError] is the engine's own
    fault (destructuring undefined or null), whose text depends on the
    engine. *)
Inductive error : Type :=
| Error (message : string)
| TypeError.

Inductive completion (A : Type) : Type :=
| Return (a : A)
| Throw (e : error).
Arguments Return {A} a.
Arguments Throw {A} e.

Definition bind {A B : Type} (c : completion A) (k : A -> completion B)
  : completion B :=
  match c with
  | Return a => k a
  | Throw e => Throw e
  end.

Definition throws {A : Type} (c : completion A) : Prop :=
  exists e, c = Throw e.

(** [Math.round(x * 10) / 10] and [Math.round(x * 100) / 100] *)
Definition round1 (x : number) : number := (round (x * Fin 10) / Fin 10)%js.
Definition round2 (x : number) : number := (round (x * Fin 100) / Fin 100)%js.

End Js.

Notation "x <- c ;; k" := (Js.bind c (fun x => k))
  (at level 61, c at next level, right associativity).
Notation "' pat <- c ;; k" :=
  (Js.bind c (fun x => match x with pat => k end))
  (at level 61, pat pattern, c at next level, right associativity).

(** ** fuel-moisture-integration.js *)

Module FuelMoistureIntegration.
Import JsNumber Js.
Local Open Scope string_scope.
Local Open Scope js_scope.

Definition computeEMC (tempF rh : value) : completion number :=
  match tempF, rh with
  | VNum tempF, VNum rh =>
      if (rh <? Fin 0) || (rh >? Fin 100)
      then Throw (Error "Relative humidity must be between 0 and 100")
      else
        let emc :=
          if rh <=? Fin 10 then
            let emc := Fin 0.03 + (Fin 0.2626 * rh) - (Fin 0.00104 * rh * tempF) in
            max (Fin 0.1) emc
          else if rh <=? Fin 50 then
            Fin 1.5 + (Fin 0.15 * rh) - (Fin 0.01 * tempF / Fin 10)
          else
            Fin 6 + (Fin 0.25 * (rh - Fin 50))
            + (Fin 0.02 * (Fin 100 - tempF) / Fin 10)
        in
        Return (max (Fin 0.1) (min (Fin 40) emc))
  | _, _ =>
      Throw (Error "Invalid input: temperature and humidity must be numbers")
  end.

Definition stepMoisture (currentMoisture emc hours timeLag : value)
  : completion number :=
  match currentMoisture, emc, hours, timeLag with
  | VNum currentMoisture, VNum emc, VNum hours, VNum timeLag =>
      let k := hours / timeLag in
      let newMoisture := emc + (currentMoisture - emc) * exp (- k) in
      Return (max (Fin 0) newMoisture)
  | _, _, _, _ =>
      Throw (Error "Invalid input: all parameters must be numbers")
  end.

(** [const { tempF, rh, hours } = step] *)
Definition destructure_step (step : value) : completion (value * value * value) :=
  match step with
  | VUndefined | VNull => Throw TypeError
  | _ => Return (get step "tempF", get step "rh", get step "hours")
  end.

(** The body of [for (const step of weatherSteps)], threading
    [currentMoisture], [cumulativeHours] and [results]. *)
Fixpoint runModel_loop (weatherSteps : list value) (timeLag : value)
    (currentMoisture : value) (cumulativeHours : number)
    (results : list value) : completion (list value) :=
  match weatherSteps with
  | [] => Return results
  | step :: rest =>
      '(tempF, rh, hours) <- destructure_step step ;;
      match tempF, rh, hours with
      | VNum _, VNum _, VNum h =>
          emc <- computeEMC tempF rh ;;
          currentMoisture <- stepMoisture currentMoisture (VNum emc) hours timeLag ;;
          let cumulativeHours := cumulativeHours + h in
          runModel_loop rest timeLag (VNum currentMoisture) cumulativeHours
            (results ++ [VObj [("hours", VNum cumulativeHours);
                               ("moisture", VNum (round1 currentMoisture));
                               ("emc", VNum (round1 emc));
                               ("tempF", tempF);
                               ("rh", rh)]])
      | _, _, _ =>
          Throw (Error "Invalid weather step: must contain tempF, rh, and hours")
      end
  end.

(** A default parameter value applies when the argument is undefined. *)
Definition default (v d : value) : value :=
  match v with VUndefined => d | _ => v end.

Definition runModel (initialMoisture weatherSteps timeLag : value)
  : completion (list value) :=
  let timeLag := default timeLag (VNum (Fin 1)) in
  match weatherSteps with
  | VArr steps =>
      runModel_loop steps timeLag initialMoisture (Fin 0)
        [VObj [("hours", VNum (Fin 0));
               ("moisture", initialMoisture);
               ("emc", VNull)]]
  | _ => Throw (Error "weatherSteps must be an array")
  end.

(** [calculateDryingPattern].  [duration] only enters arithmetic and is
    taken as a number.  The loop [for (hour = intervalHours; hour <=
    duration; hour += intervalHours)] need not end (an infinite [duration]
    keeps it running), so it carries a bound on the number of iterations and
    answers [None] when the bound is used up.  The template literal of
    [description] converts its holes with the engine's ToString, which is
    a parameter here. *)
Section DryingPattern.
Variable to_string : value -> string.

Fixpoint drying_loop (fuel : nat) (emc intervalHours duration : number)
    (timeLag : value) (hour : number) (currentMoisture : value)
    (steps : list value) : option (completion (list value)) :=
  if hour <=? duration then
    match fuel with
    | O => None
    | S fuel =>
        match stepMoisture currentMoisture (VNum emc) (VNum intervalHours) timeLag with
        | Throw e => Some (Throw e)
        | Return currentMoisture =>
            drying_loop fuel emc intervalHours duration timeLag
              (hour + intervalHours) (VNum currentMoisture)
              (steps ++ [VObj [("hours", VNum (round1 hour));
                               ("moisture", VNum (round1 currentMoisture))]])
        end
    end
  else Some (Return steps).

(** [steps[steps.length - 1].moisture] *)
Definition last_moisture (steps : list value) : value :=
  get (last steps VUndefined) "moisture".

Definition description (timeLag initialMoisture finalMoisture : value)
    (duration : number) : string :=
  (to_string timeLag ++ "-hour fuel drying from "
   ++ to_string initialMoisture ++ "% to "
   ++ to_string finalMoisture ++ "% over "
   ++ to_string (VNum duration) ++ " hours")%string.

Definition calculateDryingPattern (fuel : nat)
    (initialMoisture tempF rh : value) (duration : number) (timeLag : value)
  : option (completion value) :=
  let timeLag := default timeLag (VNum (Fin 1)) in
  match computeEMC tempF rh with
  | Throw e => Some (Throw e)
  | Return emc =>
      let intervalHours := max (Fin 1) (duration / Fin 24) in
      match drying_loop fuel emc intervalHours duration timeLag intervalHours
              initialMoisture
              [VObj [("hours", VNum (Fin 0)); ("moisture", initialMoisture)]]
      with
      | None => None
      | Some (Throw e) => Some (Throw e)
      | Some (Return steps) =>
          Some (Return (VObj
            [("emc", VNum (round1 emc));
             ("timeLag", timeLag);
             ("steps", VArr steps);
             ("finalMoisture", last_moisture steps);
             ("description",
              VStr (description timeLag initialMoisture
                      (last_moisture steps) duration))]))
      end
  end.
End DryingPattern.

End FuelMoistureIntegration.

(** ** The fuel-moisture-calculator library (browser build): time-lag step *)

Module FuelMoistureCalc.
Import JsNumber Js.
Local Open Scope string_scope.
Local Open Scope js_scope.

(** [parseFloat(x.toFixed(2))].  [toFixed] sets the sign aside and rounds
    the magnitude to the nearest multiple of 1/100, to the larger one on a
    tie, so that a negative tie goes away from zero; from 1e21 on it prints
    the number itself. *)
Definition toFixed2 (x : number) : number :=
  match x with
  | Fin r =>
      if Rleb 1e21 (Rabs r) then x
      else if Rltb r 0 then Fin (- (IZR (Zfloor (- r * 100 + 1 / 2)) / 100))
      else Fin (IZR (Zfloor (r * 100 + 1 / 2)) / 100)
  | _ => x
  end.

Definition stepMoisture (currentMoisture emc hours timelag : value)
  : completion number :=
  match currentMoisture, emc, hours, timelag with
  | VNum currentMoisture, VNum emc, VNum hours, VNum timelag =>
      if timelag <=? Fin 0
      then Throw (Error "Timelag must be greater than 0")
      else
        let k := Fin 1 / timelag in
        let difference := currentMoisture - emc in
        let newMoisture := emc + difference * exp (- k * hours) in
        Return (toFixed2 newMoisture)
  | _, _, _, _ =>
      Throw (Error "Invalid input: all parameters must be numbers")
  end.

(** ToBoolean on a value, for [!input]. *)
Definition truthy_value (v : value) : bool :=
  match v with
  | VUndefined | VNull => false
  | VBool b => b
  | VNum n => truthy n
  | VStr s => negb (String.eqb s "")
  | VArr _ | VObj _ => true
  end.

Definition calculateMoisture (input : value) : completion number :=
  if negb (truthy_value input) then
    Throw (Error "Invalid input for calculateMoisture")
  else
    match get input "temperature", get input "humidity" with
    | VNum temperature, VNum humidity =>
        Return (toFixed2 (humidity - temperature * Fin 0.1))
    | _, _ => Throw (Error "Invalid input for calculateMoisture")
    end.

Definition computeEMC (temperature humidity : value) : completion number :=
  match temperature, humidity with
  | VNum temperature, VNum humidity =>
      if (humidity <? Fin 0) || (humidity >? Fin 100)
      then Throw (Error "Humidity must be between 0 and 100")
      else
        let emc :=
          if humidity <? Fin 10 then
            Fin 0.03 + Fin 0.2626 * humidity + Fin 0.00104 * temperature
          else if humidity <=? Fin 50 then
            Fin 2.22 + Fin 0.160 * humidity + Fin 0.0140 * temperature
          else
            Fin 21.06 - Fin 0.4944 * humidity
            + Fin 0.005565 * pow humidity (Fin 2)
            + Fin 0.00063 * temperature
        in
        let emc := max (Fin 1) (min (Fin 35) emc) in
        Return (toFixed2 emc)
  | _, _ =>
      Throw (Error "Invalid input: temperature and humidity must be numbers")
  end.

(** A destructuring default: it replaces undefined only. *)
Definition or_default (v d : value) : value :=
  match v with VUndefined => d | _ => v end.

(** [o.k] where [o] may be anything: reading a property of undefined or
    null is a TypeError. *)
Definition member (o : value) (k : string) : completion value :=
  match o with
  | VUndefined | VNull => Throw TypeError
  | _ => Return (get o k)
  end.

Definition calculateAllFuelMoistures (params : value) : completion value :=
  match params with
  | VUndefined | VNull => Throw TypeError
  | _ =>
      let temperature := get params "temperature" in
      let humidity := get params "humidity" in
      let hours := or_default (get params "hours") (VNum (Fin 12)) in
      let initial :=
        or_default (get params "initial")
          (VObj [("hr1", VNum (Fin 10)); ("hr10", VNum (Fin 12));
                 ("hr100", VNum (Fin 14)); ("hr1000", VNum (Fin 16))]) in
      emc <- computeEMC temperature humidity ;;
      hr1 <- member initial "hr1" ;;
      oneHour <- stepMoisture hr1 (VNum emc) hours (VNum (Fin 1)) ;;
      hr10 <- member initial "hr10" ;;
      tenHour <- stepMoisture hr10 (VNum emc) hours (VNum (Fin 10)) ;;
      hr100 <- member initial "hr100" ;;
      hundredHour <- stepMoisture hr100 (VNum emc) hours (VNum (Fin 100)) ;;
      hr1000 <- member initial "hr1000" ;;
      thousandHour <- stepMoisture hr1000 (VNum emc) hours (VNum (Fin 1000)) ;;
      Return (VObj
        [("emc", VNum emc);
         ("oneHour", VNum oneHour);
         ("tenHour", VNum tenHour);
         ("hundredHour", VNum hundredHour);
         ("thousandHour", VNum thousandHour);
         ("conditions", VObj
            [("temperature", temperature);
             ("humidity", humidity);
             ("hours", hours)])])
  end.

End FuelMoistureCalc.

(** ** fire-behavior.js *)

Module FireBehavior.
Import JsNumber Js.
Local Open Scope string_scope.
Local Open Scope js_scope.

Record FuelModel : Type := {
  name : string;
  load : R;
  savRatio : R;
  depth : R;
  moistureExt : R;
  heatContent : R
}.

Definition FUEL_MODELS : list (string * FuelModel) :=
  [("1", {| name := "Short Grass (1 ft)"; load := 0.74; savRatio := 3500;
            depth := 1.0; moistureExt := 12; heatContent := 8000 |});
   ("2", {| name := "Timber Grass/Understory (1 ft)"; load := 2.0;
            savRatio := 3000; depth := 1.0; moistureExt := 15;
            heatContent := 8000 |});
   ("3", {| name := "Tall Grass (2.5 ft)"; load := 3.01; savRatio := 1500;
            depth := 2.5; moistureExt := 25; heatContent := 8000 |});
   ("4", {| name := "Chaparral (6 ft)"; load := 5.01; savRatio := 2000;
            depth := 6.0; moistureExt := 20; heatContent := 8000 |});
   ("5", {| name := "Brush (2 ft)"; load := 1.0; savRatio := 2000;
            depth := 2.0; moistureExt := 20; heatContent := 8000 |});
   ("6", {| name := "Dormant Brush/Hardwood Slash"; load := 1.5;
            savRatio := 1750; depth := 2.5; moistureExt := 25;
            heatContent := 8000 |});
   ("7", {| name := "Southern Rough"; load := 1.13; savRatio := 1550;
            depth := 2.5; moistureExt := 40; heatContent := 8000 |});
   ("8", {| name := "Closed Timber Litter"; load := 1.5; savRatio := 2000;
            depth := 0.2; moistureExt := 30; heatContent := 8000 |});
   ("9", {| name := "Hardwood Litter"; load := 2.92; savRatio := 2500;
            depth := 0.2; moistureExt := 25; heatContent := 8000 |});
   ("10", {| name := "Timber Litter/Understory"; load := 3.01;
             savRatio := 2000; depth := 1.0; moistureExt := 25;
             heatContent := 8000 |})].

(** [FUEL_MODELS] is an object literal, so [FUEL_MODELS[key]] also finds
    the members every object inherits from [Object.prototype].  These are
    functions (an object for [__proto__]): truthy, and without any of the
    fuel properties. *)
Definition Object_prototype : list string :=
  ["constructor"; "__defineGetter__"; "__defineSetter__"; "hasOwnProperty";
   "__lookupGetter__"; "__lookupSetter__"; "isPrototypeOf";
   "propertyIsEnumerable"; "toString"; "valueOf"; "__proto__";
   "toLocaleString"].

Inductive member : Type :=
| Own (fuel : FuelModel)
| Inherited (key : string).

(** [FUEL_MODELS[key]]; [None] is undefined. *)
Definition FUEL_MODELS_get (key : string) : option member :=
  match assoc key FUEL_MODELS with
  | Some fuel => Some (Own fuel)
  | None =>
      if existsb (String.eqb key) Object_prototype
      then Some (Inherited key) else None
  end.

(** [fuel.p] inside arithmetic or a comparison: an absent property reads
    as undefined, which these operators convert to NaN. *)
Definition num (p : FuelModel -> R) (fuel : member) : number :=
  match fuel with
  | Own f => Fin (p f)
  | Inherited _ => NaN
  end.

(** [fuel.p] passed as an argument: [None] is undefined. *)
Definition arg (p : FuelModel -> R) (fuel : member) : option number :=
  match fuel with
  | Own f => Some (Fin (p f))
  | Inherited _ => None
  end.

(** [fuel.name]: an inherited function has its own name as [name]
    ([Object] for the constructor); the prototype object has none. *)
Definition name_of (fuel : member) : value :=
  match fuel with
  | Own f => VStr (name f)
  | Inherited key =>
      if String.eqb key "__proto__" then VUndefined
      else if String.eqb key "constructor" then VStr "Object"
      else VStr key
  end.

Definition with_default {A : Type} (o : option A) (d : A) : A :=
  match o with Some a => a | None => d end.

(** The object [calculateRateOfSpread] returns; the first [return] leaves
    [rosFtPerMin] and [reactionIntensity] out. *)
Record SpreadResult : Type := {
  ros : number;
  rosMetric : number;
  rosFtPerMin : option number;
  canSpread : bool;
  reactionIntensity : option number
}.

Definition calculateRateOfSpread (windSpeed fuelMoisture slope : number)
    (fuelModel : option string) : completion SpreadResult :=
  let fuelModel := with_default fuelModel "2" in
  match FUEL_MODELS_get fuelModel with
  | None => Throw (Error "Invalid fuel model")
  | Some fuel =>
      if fuelMoisture >=? num moistureExt fuel then
        Return {| ros := Fin 0; rosMetric := Fin 0; rosFtPerMin := None;
                  canSpread := false; reactionIntensity := None |}
      else
        let moistureDamping :=
          Fin 1 - (Fin 2.59 * (fuelMoisture / num moistureExt fuel))
          + (Fin 5.11 * pow (fuelMoisture / num moistureExt fuel) (Fin 2))
          - (Fin 3.52 * pow (fuelMoisture / num moistureExt fuel) (Fin 3)) in
        let reactionIntensity :=
          (num load fuel * num heatContent fuel * moistureDamping) / Fin 60 in
        let sigma := num savRatio fuel in
        let propagatingFlux :=
          exp ((Fin 0.792 + Fin 0.681 * sqrt sigma) * (Fin 0.1 + num depth fuel)) in
        let windCoeff :=
          if windSpeed >? Fin 0
          then pow windSpeed (Fin 0.5) * pow sigma (Fin (-0.5)) * Fin 0.4
          else Fin 0 in
        let slopePercent := tan (slope * PI / Fin 180) * Fin 100 in
        let slopeCoeff :=
          if slopePercent >? Fin 0
          then Fin 5.275 * pow sigma (Fin (-0.3)) * pow (slopePercent / Fin 100) (Fin 2)
          else Fin 0 in
        let rosBase :=
          (reactionIntensity * propagatingFlux) / (num load fuel * Fin 0.01) in
        let rosFtPerMin := rosBase * (Fin 1 + windCoeff + slopeCoeff) in
        let rosChainsPerHour := (rosFtPerMin * Fin 60) / Fin 66 in
        let rosMetersPerMin := rosFtPerMin * Fin 0.3048 in
        Return {| ros := rosChainsPerHour; rosMetric := rosMetersPerMin;
                  rosFtPerMin := Some rosFtPerMin; canSpread := true;
                  reactionIntensity := Some reactionIntensity |}
  end.

Record FlameLength : Type := {
  flameLengthFt : number;
  flameLengthM : number
}.

Definition calculateFlameLength (intensity : number) : FlameLength :=
  let flameLengthFt := Fin 0.45 * pow intensity (Fin 0.46) in
  let flameLengthM := flameLengthFt * Fin 0.3048 in
  {| flameLengthFt := flameLengthFt; flameLengthM := flameLengthM |}.

Definition calculateFirelineIntensity (ros fuelLoad : number)
    (heatContent : option number) : number :=
  let heatContent := with_default heatContent (Fin 8000) in
  let fuelLoadLbPerFt2 := (fuelLoad * Fin 2000) / Fin 43560 in
  let intensity := (heatContent * fuelLoadLbPerFt2 * ros) / Fin 60 in
  intensity.

(** The [params] object; [None] is an absent (undefined) property. *)
Record Params : Type := {
  p_windSpeed : option number;
  p_fuelMoisture : option number;
  p_slope : option number;
  p_fuelModel : option string;
  p_temp : option number;
  p_rh : option number;
  p_useEMC : option bool
}.

(** An optional number read inside arithmetic: undefined becomes NaN. *)
Definition to_number (o : option number) : number := with_default o NaN.

(** [calculatedEMC] as a property value: [null] when it was not computed. *)
Definition or_null (o : option number) : value :=
  match o with Some n => VNum n | None => VNull end.

(** The EMC branch of [predictFireBehavior]: the computed EMC, if any, and
    the effective moisture.  [fuelMoistureCalc] is the [computeEMC] of the
    fuel-moisture module when that module could be loaded. *)
Definition effective_moisture
    (fuelMoistureCalc : option (value -> value -> completion number))
    (useEMC : bool) (temp rh fuelMoisture : number)
  : completion (option number * number) :=
  if useEMC && truthy temp && truthy rh then
    match fuelMoistureCalc with
    | Some computeEMC =>
        calculatedEMC <- computeEMC (VNum temp) (VNum rh) ;;
        Return (Some calculatedEMC, calculatedEMC)
    | None => Return (None, fuelMoisture)
    end
  else Return (None, fuelMoisture).

Definition predictFireBehavior
    (fuelMoistureCalc : option (value -> value -> completion number))
    (params : Params) : completion value :=
  let windSpeed := with_default (p_windSpeed params) (Fin 0) in
  let fuelMoisture := with_default (p_fuelMoisture params) (Fin 10) in
  let slope := with_default (p_slope params) (Fin 0) in
  let fuelModel := with_default (p_fuelModel params) "2" in
  let temp := with_default (p_temp params) (Fin 70) in
  let rh := with_default (p_rh params) (Fin 30) in
  let useEMC := with_default (p_useEMC params) false in
  match FUEL_MODELS_get fuelModel with
  | None => Return (VObj [("error", VStr "Invalid fuel model")])
  | Some fuel =>
      '(calculatedEMC, effectiveMoisture) <-
        effective_moisture fuelMoistureCalc useEMC temp rh fuelMoisture ;;
      spreadResult <-
        calculateRateOfSpread windSpeed effectiveMoisture slope (Some fuelModel) ;;
      if negb (canSpread spreadResult) then
        Return (VObj
          [("canSpread", VBool false);
           ("message",
            VStr "Fuel moisture exceeds extinction moisture. Fire will not spread.");
           ("fuelModel", name_of fuel);
           ("emc", or_null calculatedEMC)])
      else
        let intensity :=
          calculateFirelineIntensity (to_number (rosFtPerMin spreadResult))
            (num load fuel) (arg heatContent fuel) in
        let flameResult := calculateFlameLength intensity in
        let result :=
          [("canSpread", VBool true);
           ("fuelModel", name_of fuel);
           ("rateOfSpread", VObj
              [("chainsPerHour", VNum (round2 (ros spreadResult)));
               ("metersPerMin", VNum (round2 (rosMetric spreadResult)));
               ("feetPerMin", VNum (round2 (to_number (rosFtPerMin spreadResult))))]);
           ("flameLength", VObj
              [("feet", VNum (round1 (flameLengthFt flameResult)));
               ("meters", VNum (round1 (flameLengthM flameResult)))]);
           ("firelineIntensity", VNum (round intensity));
           ("conditions", VObj
              [("windSpeed", VNum windSpeed);
               ("fuelMoisture", VNum effectiveMoisture);
               ("slope", VNum slope);
               ("temp", VNum temp);
               ("rh", VNum rh)])] in
        match calculatedEMC with
        | Some emc => Return (VObj (result ++ [("emc", VNum (round1 emc))]))
        | None => Return (VObj result)
        end
  end.

End FireBehavior.

(** The [computeEMC] capability [fire-behavior.js] finds when the
    fuel-moisture module is loaded. *)
Definition FuelMoistureIntegration_loaded
  : option (Js.value -> Js.value -> Js.completion JsNumber.number) :=
  Some FuelMoistureIntegration.computeEMC.

(** * Properties *)

Import JsNumber Js.

(** ** Comparisons of reals *)

Lemma Rltb_true x y : x < y -> Rltb x y = true.
Proof. unfold Rltb; destruct (Rlt_dec x y); [reflexivity | contradiction]. Qed.

Lemma Rltb_false x y : y <= x -> Rltb x y = false.
Proof. unfold Rltb; destruct (Rlt_dec x y); [lra | reflexivity]. Qed.

Lemma Rleb_true x y : x <= y -> Rleb x y = true.
Proof. unfold Rleb; destruct (Rle_dec x y); [reflexivity | contradiction]. Qed.

Lemma Rleb_false x y : y < x -> Rleb x y = false.
Proof. unfold Rleb; destruct (Rle_dec x y); [lra | reflexivity]. Qed.

Lemma Reqb_true x y : x = y -> Reqb x y = true.
Proof. unfold Reqb; destruct (Req_dec_T x y); [reflexivity | contradiction]. Qed.

Lemma Reqb_false x y : x <> y -> Reqb x y = false.
Proof. unfold Reqb; destruct (Req_dec_T x y); [contradiction | reflexivity]. Qed.

(** ** Finite arithmetic *)

Lemma max_fin a b : max (Fin a) (Fin b) = Fin (Rmax a b).
Proof.
  unfold max, lt, Rltb, Rmax.
  destruct (Rlt_dec a b), (Rle_dec a b);
    first [reflexivity | f_equal; lra | exfalso; lra].
Qed.

Lemma min_fin a b : min (Fin a) (Fin b) = Fin (Rmin a b).
Proof.
  unfold min, lt, Rltb, Rmin.
  destruct (Rlt_dec b a), (Rle_dec a b);
    first [reflexivity | f_equal; lra | exfalso; lra].
Qed.

Lemma div_fin a b : b <> 0 -> (Fin a / Fin b)%js = Fin (a / b).
Proof. intros Hb; unfold div; now rewrite Reqb_false. Qed.

Lemma add_fin a b : (Fin a + Fin b)%js = Fin (a + b).
Proof. reflexivity. Qed.

Lemma sub_fin a b : (Fin a - Fin b)%js = Fin (a - b).
Proof. reflexivity. Qed.

Lemma mul_fin a b : (Fin a * Fin b)%js = Fin (a * b).
Proof. reflexivity. Qed.

Lemma neg_fin a : (- Fin a)%js = Fin (- a).
Proof. reflexivity. Qed.

Lemma exp_fin a : exp (Fin a) = Fin (Rtrigo_def.exp a).
Proof. reflexivity. Qed.

Lemma round_fin a : round (Fin a) = Fin (IZR (Zfloor (a + 1 / 2))).
Proof. reflexivity. Qed.

Lemma lt_fin a b : (Fin a <? Fin b)%js = Rltb a b.
Proof. reflexivity. Qed.

Lemma le_fin a b : (Fin a <=? Fin b)%js = Rleb a b.
Proof. reflexivity. Qed.

Lemma gt_fin a b : (Fin a >? Fin b)%js = Rltb b a.
Proof. reflexivity. Qed.

Lemma ge_fin a b : (Fin a >=? Fin b)%js = Rleb b a.
Proof. reflexivity. Qed.

Arguments add : simpl never.
Arguments sub : simpl never.
Arguments mul : simpl never.
Arguments div : simpl never.
Arguments neg : simpl never.
Arguments lt : simpl never.
Arguments le : simpl never.
Arguments gt : simpl never.
Arguments ge : simpl never.
Arguments max : simpl never.
Arguments min : simpl never.
Arguments round : simpl never.
Arguments exp : simpl never.
Arguments sqrt : simpl never.
Arguments tan : simpl never.
Arguments pow : simpl never.
Arguments round1 : simpl never.
Arguments round2 : simpl never.

(** Push the operations through finite operands. *)
Ltac fin :=
  repeat first
    [ rewrite add_fin | rewrite sub_fin | rewrite mul_fin | rewrite neg_fin
    | rewrite exp_fin | rewrite round_fin | rewrite max_fin | rewrite min_fin
    | rewrite lt_fin | rewrite le_fin | rewrite gt_fin | rewrite ge_fin
    | rewrite div_fin by lra ].

(** Settle the comparisons between reals that [lra] can decide. *)
Ltac rdec :=
  repeat match goal with
    | |- context [Rltb ?a ?b] =>
        first [rewrite (Rltb_true a b) by lra | rewrite (Rltb_false a b) by lra]
    | |- context [Rleb ?a ?b] =>
        first [rewrite (Rleb_true a b) by lra | rewrite (Rleb_false a b) by lra]
    | |- context [Reqb ?a ?b] =>
        first [rewrite (Reqb_true a b) by lra | rewrite (Reqb_false a b) by lra]
    end.

(** ** computeEMC *)

Section ComputeEMC.
Import FuelMoistureIntegration.

(** The value before the final clamp, on real arguments. *)
Definition emc_branch (tempF rh : R) : R :=
  if Rle_dec rh 10 then Rmax 0.1 (0.03 + 0.2626 * rh - 0.00104 * rh * tempF)
  else if Rle_dec rh 50 then 1.5 + 0.15 * rh - 0.01 * tempF / 10
  else 6 + 0.25 * (rh - 50) + 0.02 * (100 - tempF) / 10.

Lemma computeEMC_in_range (tempF rh : R) :
  0 <= rh <= 100 ->
  computeEMC (VNum (Fin tempF)) (VNum (Fin rh))
  = Return (Fin (Rmax 0.1 (Rmin 40 (emc_branch tempF rh)))).
Proof.
  intros Hrh. unfold computeEMC, emc_branch. fin.
  rewrite (Rltb_false rh 0), (Rltb_false 100 rh) by lra. cbn.
  unfold Rleb.
  destruct (Rle_dec rh 10); [| destruct (Rle_dec rh 50)]; fin; reflexivity.
Qed.

Lemma clamp_bounds (x : R) : 0.1 <= Rmax 0.1 (Rmin 40 x) <= 40.
Proof.
  split; [apply Rmax_l |].
  apply Rmax_lub; [lra | apply Rmin_l].
Qed.

Lemma computeEMC_finite (tempF rh : R) :
  0 <= rh <= 100 ->
  exists e, computeEMC (VNum (Fin tempF)) (VNum (Fin rh)) = Return (Fin e)
            /\ 0.1 <= e <= 40.
Proof.
  intros Hrh. eexists; split; [apply computeEMC_in_range; exact Hrh |].
  apply clamp_bounds.
Qed.

Lemma computeEMC_out_of_range (tempF rh : R) :
  rh < 0 \/ 100 < rh ->
  computeEMC (VNum (Fin tempF)) (VNum (Fin rh))
  = Throw (Error "Relative humidity must be between 0 and 100").
Proof.
  intros Hrh. unfold computeEMC. fin.
  destruct Hrh.
  - now rewrite (Rltb_true rh 0).
  - rewrite (Rltb_true 100 rh) by assumption. now rewrite orb_true_r.
Qed.

(** C2.  For every real [tempF] and every real [rh] in [0,100], [computeEMC]
    returns a number in the closed interval [0.1, 40]. *)
Theorem computeEMC_bounds (tempF rh : R) :
  0 <= rh <= 100 ->
  exists e : R,
    computeEMC (VNum (Fin tempF)) (VNum (Fin rh)) = Return (Fin e)
    /\ 0.1 <= e <= 40.
Proof. exact (computeEMC_finite tempF rh). Qed.

Lemma computeEMC_bounds_witness :
  exists e : R,
    computeEMC (VNum (Fin 85)) (VNum (Fin 25)) = Return (Fin e)
    /\ 0.1 <= e <= 40.
Proof. apply (computeEMC_bounds 85 25). lra. Defined.

(** C4.  For real [tempF] and real [rh] below 0 or above 100, [computeEMC]
    throws an error whose message is exactly "Relative humidity must be
    between 0 and 100"; for [rh] in [0,100] it throws nothing and returns a
    number. *)
Theorem computeEMC_humidity_range (tempF rh : R) :
  (rh < 0 \/ 100 < rh ->
   computeEMC (VNum (Fin tempF)) (VNum (Fin rh))
   = Throw (Error "Relative humidity must be between 0 and 100"))
  /\ (0 <= rh <= 100 ->
      ~ throws (computeEMC (VNum (Fin tempF)) (VNum (Fin rh)))
      /\ exists e, computeEMC (VNum (Fin tempF)) (VNum (Fin rh)) = Return e).
Proof.
  split.
  - apply computeEMC_out_of_range.
  - intros Hrh. rewrite (computeEMC_in_range tempF rh Hrh). split.
    + intros [e He]. discriminate He.
    + eexists; reflexivity.
Qed.

Lemma computeEMC_humidity_range_witness :
  computeEMC (VNum (Fin 70)) (VNum (Fin 150))
  = Throw (Error "Relative humidity must be between 0 and 100")
  /\ ~ throws (computeEMC (VNum (Fin 70)) (VNum (Fin 0))).
Proof.
  split.
  - apply (proj1 (computeEMC_humidity_range 70 150)). right. lra.
  - apply (proj2 (computeEMC_humidity_range 70 0)). lra.
Defined.

End ComputeEMC.

(** ** stepMoisture *)

Section StepMoisture.
Import FuelMoistureIntegration.

(** The relaxation on reals: [max(0, emc + (m - emc) * exp(-(h / tau)))]. *)
Definition relax (m emc h tau : R) : R :=
  Rmax 0 (emc + (m - emc) * Rtrigo_def.exp (- (h / tau))).

Lemma stepMoisture_fin (m emc h tau : R) :
  tau <> 0 ->
  stepMoisture (VNum (Fin m)) (VNum (Fin emc)) (VNum (Fin h)) (VNum (Fin tau))
  = Return (Fin (relax m emc h tau)).
Proof. intros Htau. unfold stepMoisture, relax. fin. reflexivity. Qed.

(** C3.  For real [currentMoisture], [emc], [elapsedHours] and real
    [timeLagHours > 0], [stepMoisture] returns
    [max(0, emc + (currentMoisture - emc) * exp(-elapsedHours / timeLagHours))]:
    exponential relaxation towards the equilibrium, clamped at zero. *)
Theorem stepMoisture_relaxation (currentMoisture emc elapsedHours timeLagHours : R) :
  0 < timeLagHours ->
  stepMoisture (VNum (Fin currentMoisture)) (VNum (Fin emc))
               (VNum (Fin elapsedHours)) (VNum (Fin timeLagHours))
  = Return (Fin (Rmax 0 (emc + (currentMoisture - emc)
                               * Rtrigo_def.exp (- elapsedHours / timeLagHours)))).
Proof.
  intros Htau. rewrite stepMoisture_fin by lra. unfold relax.
  replace (- elapsedHours / timeLagHours) with (- (elapsedHours / timeLagHours))
    by (field; lra).
  reflexivity.
Qed.

Lemma stepMoisture_relaxation_witness :
  stepMoisture (VNum (Fin 20)) (VNum (Fin 5)) (VNum (Fin 6)) (VNum (Fin 1))
  = Return (Fin (Rmax 0 (5 + (20 - 5) * Rtrigo_def.exp (- 6 / 1)))).
Proof. apply (stepMoisture_relaxation 20 5 6 1). lra. Defined.


(** C5.  The claim asks that [stepMoisture] fail when [timeLagHours <= 0].
    The integration module's [stepMoisture] has no such test: with a time
    lag of -1 it returns [5 + 15 * e], and with a time lag of 0 the quotient
    [1 / 0] is infinite and it returns the equilibrium value 5. *)
Theorem stepMoisture_nonpositive_timeLag_returns :
  stepMoisture (VNum (Fin 20)) (VNum (Fin 5)) (VNum (Fin 1)) (VNum (Fin (-1)))
  = Return (Fin (5 + 15 * Rtrigo_def.exp 1))
  /\ stepMoisture (VNum (Fin 20)) (VNum (Fin 5)) (VNum (Fin 1)) (VNum (Fin 0))
     = Return (Fin 5).
Proof.
  split.
  - rewrite stepMoisture_fin by lra. unfold relax.
    replace (- (1 / -1)) with 1 by (field; lra).
    pose proof (exp_pos 1) as He.
    rewrite Rmax_right by lra. do 2 f_equal. lra.
  - unfold stepMoisture, div, scaled_infinity. rdec. cbn.
    unfold neg, exp. fin. rewrite Rmax_right by lra.
    do 2 f_equal. lra.
Qed.

End StepMoisture.

(** ** The fuel table and the spread engine *)

Section SpreadEngine.
Import FireBehavior.
Local Open Scope string_scope.

Lemma own_entry (key : string) (f : FuelModel) :
  assoc key FUEL_MODELS = Some f -> FUEL_MODELS_get key = Some (Own f).
Proof. intros H. unfold FUEL_MODELS_get. now rewrite H. Qed.

(** Every entry of the table has positive physical properties. *)
Lemma FUEL_MODELS_positive (key : string) (f : FuelModel) :
  assoc key FUEL_MODELS = Some f ->
  0 < load f /\ 0 < savRatio f /\ 0 < depth f /\ 0 < moistureExt f
  /\ 0 < heatContent f.
Proof.
  unfold FUEL_MODELS. cbn [assoc].
  repeat match goal with
    | |- context [String.eqb key ?k] => destruct (String.eqb key k)
    end;
    intros H; inversion H; subst; cbn; lra.
Qed.

Lemma calculateRateOfSpread_too_wet (key : string) (f : FuelModel)
    (windSpeed fuelMoisture slope : number) :
  assoc key FUEL_MODELS = Some f ->
  (fuelMoisture >=? Fin (moistureExt f))%js = true ->
  calculateRateOfSpread windSpeed fuelMoisture slope (Some key)
  = Return {| ros := Fin 0; rosMetric := Fin 0; rosFtPerMin := None;
              canSpread := false; reactionIntensity := None |}.
Proof.
  intros Hkey Hwet. unfold calculateRateOfSpread. cbn [with_default].
  rewrite (own_entry key f Hkey). cbn [num]. now rewrite Hwet.
Qed.

(** What [predictFireBehavior] returns when the spread engine reports that
    the fire cannot spread. *)
Definition no_spread_result (f : FuelModel) (calculatedEMC : option number)
  : value :=
  VObj [("canSpread", VBool false);
        ("message",
         VStr "Fuel moisture exceeds extinction moisture. Fire will not spread.");
        ("fuelModel", VStr (name f));
        ("emc", or_null calculatedEMC)].

Lemma predictFireBehavior_too_wet lib (params : Params) (f : FuelModel)
    (calculatedEMC : option number) (effectiveMoisture : number) :
  assoc (with_default (p_fuelModel params) "2") FUEL_MODELS = Some f ->
  effective_moisture lib (with_default (p_useEMC params) false)
    (with_default (p_temp params) (Fin 70))
    (with_default (p_rh params) (Fin 30))
    (with_default (p_fuelMoisture params) (Fin 10))
  = Return (calculatedEMC, effectiveMoisture) ->
  (effectiveMoisture >=? Fin (moistureExt f))%js = true ->
  predictFireBehavior lib params = Return (no_spread_result f calculatedEMC).
Proof.
  intros Hkey Heff Hwet. unfold predictFireBehavior.
  rewrite (own_entry _ f Hkey), Heff. cbn [bind].
  rewrite (calculateRateOfSpread_too_wet _ f) by assumption.
  reflexivity.
Qed.

(** C1.  For a fuel model of the table and real wind speed, slope and fuel
    moisture at or above the model's moisture of extinction,
    [calculateRateOfSpread] returns [canSpread = false] with a rate of 0 in
    each unit it returns ([ros], [rosMetric]); and [predictFireBehavior],
    whose effective moisture is at or above the moisture of extinction,
    returns the [canSpread = false] record, which has no rate of spread,
    fireline intensity or flame length. *)
Theorem no_spread_at_extinction (key : string) (f : FuelModel)
    (windSpeed slopeDegrees fuelMoisturePct : R) :
  assoc key FUEL_MODELS = Some f ->
  moistureExt f <= fuelMoisturePct ->
  calculateRateOfSpread (Fin windSpeed) (Fin fuelMoisturePct)
                        (Fin slopeDegrees) (Some key)
  = Return {| ros := Fin 0; rosMetric := Fin 0; rosFtPerMin := None;
              canSpread := false; reactionIntensity := None |}
  /\ forall lib params calculatedEMC,
      with_default (p_fuelModel params) "2" = key ->
      effective_moisture lib (with_default (p_useEMC params) false)
        (with_default (p_temp params) (Fin 70))
        (with_default (p_rh params) (Fin 30))
        (with_default (p_fuelMoisture params) (Fin 10))
      = Return (calculatedEMC, Fin fuelMoisturePct) ->
      exists result,
        predictFireBehavior lib params = Return result
        /\ get result "canSpread" = VBool false
        /\ has result "rateOfSpread" = false
        /\ has result "firelineIntensity" = false
        /\ has result "flameLength" = false.
Proof.
  intros Hkey Hwet. split.
  - apply (calculateRateOfSpread_too_wet key f); [assumption |].
    fin. now apply Rleb_true.
  - intros lib params calculatedEMC Hmodel Heff. subst key.
    exists (no_spread_result f calculatedEMC). split.
    + apply predictFireBehavior_too_wet with (effectiveMoisture := Fin fuelMoisturePct);
        [assumption | assumption |].
      fin. now apply Rleb_true.
    + repeat split; reflexivity.
Qed.

Definition manual_params (fuelModel : string) (fuelMoisture : R) : Params :=
  {| p_windSpeed := Some (Fin 10); p_fuelMoisture := Some (Fin fuelMoisture);
     p_slope := Some (Fin 0); p_fuelModel := Some fuelModel;
     p_temp := Some (Fin 70); p_rh := Some (Fin 80); p_useEMC := None |}.

Lemma no_spread_at_extinction_witness :
  calculateRateOfSpread (Fin 10) (Fin 30) (Fin 0) (Some "2")
  = Return {| ros := Fin 0; rosMetric := Fin 0; rosFtPerMin := None;
              canSpread := false; reactionIntensity := None |}
  /\ exists result,
      predictFireBehavior FuelMoistureIntegration_loaded (manual_params "2" 30)
      = Return result
      /\ get result "canSpread" = VBool false
      /\ has result "rateOfSpread" = false
      /\ has result "firelineIntensity" = false
      /\ has result "flameLength" = false.
Proof.
  assert (Hkey : assoc "2" FUEL_MODELS
                 = Some {| name := "Timber Grass/Understory (1 ft)"; load := 2.0;
                           savRatio := 3000; depth := 1.0; moistureExt := 15;
                           heatContent := 8000 |}) by reflexivity.
  destruct (no_spread_at_extinction "2" _ 10 0 30 Hkey) as [Hros Hpredict].
  - simpl. lra.
  - split; [exact Hros |].
    apply (Hpredict FuelMoistureIntegration_loaded (manual_params "2" 30) None);
      reflexivity.
Defined.

End SpreadEngine.

(** ** Unknown fuel-model identifiers *)

Section UnknownFuelModel.
Import FireBehavior.
Local Open Scope string_scope.

Lemma mul_nan_l a : (NaN * a)%js = NaN.
Proof. now destruct a. Qed.

Lemma mul_nan_r a : (a * NaN)%js = NaN.
Proof. now destruct a. Qed.

Lemma div_nan_l a : (NaN / a)%js = NaN.
Proof. now destruct a. Qed.

Lemma div_nan_r a : (a / NaN)%js = NaN.
Proof. now destruct a. Qed.

Lemma ge_nan_r a : (a >=? NaN)%js = false.
Proof. now destruct a. Qed.

(** An identifier that [FUEL_MODELS[key]] does not find is rejected: the
    orchestration returns the error record, the spread engine throws. *)
Lemma unknown_key_rejected lib (params : Params) (windSpeed fuelMoisture slope : number) :
  FUEL_MODELS_get (with_default (p_fuelModel params) "2") = None ->
  predictFireBehavior lib params
  = Return (VObj [("error", VStr "Invalid fuel model")])
  /\ calculateRateOfSpread windSpeed fuelMoisture slope (p_fuelModel params)
     = Throw (Error "Invalid fuel model").
Proof.
  intros Hnone. unfold predictFireBehavior, calculateRateOfSpread.
  now rewrite Hnone.
Qed.

Lemma key_99_unknown : FUEL_MODELS_get "99" = None.
Proof. reflexivity. Qed.

(** On a key inherited from [Object.prototype] the spread engine reads
    undefined properties and computes with NaN throughout. *)
Lemma calculateRateOfSpread_inherited (key : string)
    (windSpeed fuelMoisture slope : number) :
  FUEL_MODELS_get key = Some (Inherited key) ->
  calculateRateOfSpread windSpeed fuelMoisture slope (Some key)
  = Return {| ros := NaN; rosMetric := NaN; rosFtPerMin := Some NaN;
              canSpread := true; reactionIntensity := Some NaN |}.
Proof.
  intros Hget. unfold calculateRateOfSpread. cbn [with_default].
  rewrite Hget. cbv zeta. cbn [num].
  rewrite ge_nan_r.
  repeat first [rewrite mul_nan_l | rewrite mul_nan_r
               | rewrite div_nan_l | rewrite div_nan_r].
  reflexivity.
Qed.

Definition toString_params : Params :=
  {| p_windSpeed := Some (Fin 10); p_fuelMoisture := Some (Fin 8);
     p_slope := Some (Fin 0); p_fuelModel := Some "toString";
     p_temp := Some (Fin 85); p_rh := Some (Fin 30); p_useEMC := None |}.

(** C7.  The claim asks that an identifier with no entry in the fuel table
    make [predictFireBehavior] return an error record and
    [calculateRateOfSpread] throw.  The identifier ['toString'] has no entry
    in the table, yet [FUEL_MODELS['toString']] is the inherited method, a
    truthy value: [predictFireBehavior] returns a [canSpread = true] result
    without an [error] field and [calculateRateOfSpread] returns a record
    of NaN instead of throwing. *)
Theorem inherited_key_not_rejected :
  assoc "toString" FUEL_MODELS = None
  /\ (exists result,
        predictFireBehavior FuelMoistureIntegration_loaded toString_params
        = Return result
        /\ has result "error" = false
        /\ get result "canSpread" = VBool true
        /\ get result "fuelModel" = VStr "toString")
  /\ calculateRateOfSpread (Fin 10) (Fin 8) (Fin 0) (Some "toString")
     = Return {| ros := NaN; rosMetric := NaN; rosFtPerMin := Some NaN;
                 canSpread := true; reactionIntensity := Some NaN |}.
Proof.
  split; [reflexivity |]. split.
  - unfold predictFireBehavior, toString_params.
    cbn [with_default p_windSpeed p_fuelMoisture p_slope p_fuelModel p_temp
           p_rh p_useEMC].
    change (FUEL_MODELS_get "toString") with (Some (Inherited "toString")).
    cbn [effective_moisture andb bind].
    rewrite calculateRateOfSpread_inherited by reflexivity.
    cbn [bind canSpread negb]. eexists. split; [reflexivity |].
    repeat split; reflexivity.
  - apply calculateRateOfSpread_inherited. reflexivity.
Qed.

End UnknownFuelModel.

(** ** The spread engine on finite inputs *)

Section FiniteSpread.
Import FireBehavior.
Local Open Scope string_scope.

Lemma pow_fin_pos (x y : R) :
  0 < x -> y <> 0 -> pow (Fin x) (Fin y) = Fin (Rpower x y).
Proof.
  intros Hx Hy. unfold pow.
  now rewrite (Reqb_false y 0), (Reqb_false x 0), (Rltb_true 0 x) by lra.
Qed.

Lemma is_integer_IZR (z : Z) : is_integer (IZR z) = true.
Proof. unfold is_integer. rewrite ZfloorZ. now apply Reqb_true. Qed.

(** An integer exponent [n >= 1] gives the ordinary power, whatever the
    sign of the base. *)
Lemma pow_fin_nat (x : R) (n : nat) :
  (0 < n)%nat -> pow (Fin x) (Fin (INR n)) = Fin (x ^ n).
Proof.
  intros Hn. unfold pow.
  assert (HINR : 0 < INR n) by now apply lt_0_INR.
  rewrite (Reqb_false (INR n) 0) by lra.
  destruct (Req_dec x 0) as [Hx0 | Hx0].
  - rewrite (Reqb_true x 0), (Rltb_true 0 (INR n)) by assumption.
    subst x. now rewrite pow_i.
  - rewrite (Reqb_false x 0) by assumption.
    destruct (Rlt_dec 0 x) as [Hpos | Hneg].
    + rewrite (Rltb_true 0 x) by assumption. now rewrite Rpower_pow.
    + rewrite (Rltb_false 0 x) by lra.
      rewrite INR_IZR_INZ, is_integer_IZR, ZfloorZ.
      now rewrite <- pow_powerRZ.
Qed.

Lemma pow_fin_two (x : R) : pow (Fin x) (Fin 2) = Fin (x ^ 2).
Proof. replace 2 with (INR 2) by (simpl; lra). apply pow_fin_nat. lia. Qed.

Lemma pow_fin_three (x : R) : pow (Fin x) (Fin 3) = Fin (x ^ 3).
Proof. replace 3 with (INR 3) by (simpl; lra). apply pow_fin_nat. lia. Qed.

Lemma sqrt_fin (x : R) : 0 <= x -> sqrt (Fin x) = Fin (R_sqrt.sqrt x).
Proof. intros Hx. unfold sqrt. now rewrite Rltb_false. Qed.

Lemma tan_fin (x : R) : tan (Fin x) = Fin (Rtrigo1.tan x).
Proof. reflexivity. Qed.

(** Below the moisture of extinction the engine returns [canSpread = true]
    with finite rates. *)
Lemma calculateRateOfSpread_spreads (key : string) (f : FuelModel)
    (windSpeed fuelMoisture slope : R) :
  assoc key FUEL_MODELS = Some f ->
  fuelMoisture < moistureExt f ->
  exists rosChains rosMeters rosFeet intensity : R,
    calculateRateOfSpread (Fin windSpeed) (Fin fuelMoisture) (Fin slope) (Some key)
    = Return {| ros := Fin rosChains; rosMetric := Fin rosMeters;
                rosFtPerMin := Some (Fin rosFeet); canSpread := true;
                reactionIntensity := Some (Fin intensity) |}.
Proof.
  intros Hkey Hdry.
  destruct (FUEL_MODELS_positive key f Hkey) as (Hload & Hsav & Hdepth & Hext & Hheat).
  unfold calculateRateOfSpread. cbn [with_default].
  rewrite (own_entry key f Hkey). cbv zeta. cbn [num].
  unfold PI. fin. rewrite (Rleb_false (moistureExt f) fuelMoisture) by assumption.
  rewrite pow_fin_two, pow_fin_three, tan_fin.
  rewrite sqrt_fin by lra.
  rewrite !(pow_fin_pos (savRatio f)) by lra.
  fin. rewrite pow_fin_two.
  unfold Rltb.
  destruct (Rlt_dec 0 windSpeed) as [Hwind | Hcalm];
    [rewrite (pow_fin_pos windSpeed) by lra |];
    destruct (Rlt_dec 0 (Rtrigo1.tan (slope * Math_PI / 180) * 100));
    fin; do 4 eexists; reflexivity.
Qed.

End FiniteSpread.

(** ** predictFireBehavior when the fire spreads *)

Section Orchestration.
Import FireBehavior.
Local Open Scope string_scope.

Definition emc_present (calculatedEMC : option number) : bool :=
  match calculatedEMC with Some _ => true | None => false end.

Lemma round2_fin (x : R) :
  round2 (Fin x) = Fin (IZR (Zfloor (x * 100 + 1 / 2)) / 100).
Proof. unfold round2. fin. reflexivity. Qed.

Lemma round1_fin (x : R) :
  round1 (Fin x) = Fin (IZR (Zfloor (x * 10 + 1 / 2)) / 10).
Proof. unfold round1. fin. reflexivity. Qed.

(** With a table entry, finite wind and slope, and an effective moisture
    below the moisture of extinction, the full result is returned: its
    chains-per-hour figure is the engine's [ros] rounded to two decimals,
    the effective moisture is echoed, and the [emc] field is there exactly
    when an EMC was computed. *)
Lemma predictFireBehavior_spreads lib (params : Params) (f : FuelModel)
    (calculatedEMC : option number) (windSpeed slope m : R) :
  assoc (with_default (p_fuelModel params) "2") FUEL_MODELS = Some f ->
  with_default (p_windSpeed params) (Fin 0) = Fin windSpeed ->
  with_default (p_slope params) (Fin 0) = Fin slope ->
  effective_moisture lib (with_default (p_useEMC params) false)
    (with_default (p_temp params) (Fin 70))
    (with_default (p_rh params) (Fin 30))
    (with_default (p_fuelMoisture params) (Fin 10))
  = Return (calculatedEMC, Fin m) ->
  m < moistureExt f ->
  exists (result : value) (spreadResult : SpreadResult) (rosChains : R),
    predictFireBehavior lib params = Return result
    /\ calculateRateOfSpread (Fin windSpeed) (Fin m) (Fin slope)
         (Some (with_default (p_fuelModel params) "2")) = Return spreadResult
    /\ ros spreadResult = Fin rosChains
    /\ get (get result "rateOfSpread") "chainsPerHour"
       = VNum (Fin (IZR (Zfloor (rosChains * 100 + 1 / 2)) / 100))
    /\ get result "canSpread" = VBool true
    /\ has result "emc" = emc_present calculatedEMC
    /\ get (get result "conditions") "fuelMoisture" = VNum (Fin m).
Proof.
  intros Hkey Hwind Hslope Heff Hdry.
  destruct (calculateRateOfSpread_spreads _ f windSpeed m slope Hkey Hdry)
    as (a & b & c & d & Hspread).
  unfold predictFireBehavior.
  rewrite (own_entry _ f Hkey), Heff, Hwind, Hslope. cbn [bind].
  rewrite Hspread. cbn [bind canSpread negb ros rosMetric rosFtPerMin].
  rewrite round2_fin.
  destruct calculatedEMC as [emc |]; eexists; eexists; exists a;
    (split; [reflexivity |]); (split; [reflexivity |]);
    repeat split; reflexivity.
Qed.

End Orchestration.

(** ** Manual and EMC-driven paths *)

Section EmcPaths.
Import FireBehavior.
Local Open Scope string_scope.

Lemma computeEMC_mid (tempF rh : R) :
  10 < rh <= 50 ->
  0.1 <= 1.5 + 0.15 * rh - 0.01 * tempF / 10 <= 40 ->
  FuelMoistureIntegration.computeEMC (VNum (Fin tempF)) (VNum (Fin rh))
  = Return (Fin (1.5 + 0.15 * rh - 0.01 * tempF / 10)).
Proof.
  intros Hrh Hemc. rewrite computeEMC_in_range by lra.
  unfold emc_branch.
  destruct (Rle_dec rh 10); [lra |]. destruct (Rle_dec rh 50); [| lra].
  rewrite Rmin_right, Rmax_right by lra. reflexivity.
Qed.

(** [{fuelModel: '2', fuelMoisture: e, temp: 85, rh: 25, useEMC: false}] *)
Definition manual_path (e : number) : Params :=
  {| p_windSpeed := None; p_fuelMoisture := Some e; p_slope := None;
     p_fuelModel := Some "2"; p_temp := Some (Fin 85); p_rh := Some (Fin 25);
     p_useEMC := Some false |}.

(** [{fuelModel: '2', temp: 85, rh: 25, useEMC: true}] *)
Definition emc_path : Params :=
  {| p_windSpeed := None; p_fuelMoisture := None; p_slope := None;
     p_fuelModel := Some "2"; p_temp := Some (Fin 85); p_rh := Some (Fin 25);
     p_useEMC := Some true |}.

Definition fuel_2 : FuelModel :=
  {| name := "Timber Grass/Understory (1 ft)"; load := 2.0; savRatio := 3000;
     depth := 1.0; moistureExt := 15; heatContent := 8000 |}.

(** C9.  With [e = computeEMC(85, 25)] computed on its own, the call with
    the manual moisture [e] and [useEMC: false] and the call with
    [useEMC: true] both return a [rateOfSpread.chainsPerHour] number, and
    the two differ by less than 0.1. *)
Theorem manual_and_emc_paths_agree :
  exists (e : R) (manualResult emcResult : value) (a b : R),
    FuelMoistureIntegration.computeEMC (VNum (Fin 85)) (VNum (Fin 25))
    = Return (Fin e)
    /\ predictFireBehavior FuelMoistureIntegration_loaded (manual_path (Fin e))
       = Return manualResult
    /\ predictFireBehavior FuelMoistureIntegration_loaded emc_path
       = Return emcResult
    /\ get (get manualResult "rateOfSpread") "chainsPerHour" = VNum (Fin a)
    /\ get (get emcResult "rateOfSpread") "chainsPerHour" = VNum (Fin b)
    /\ Rabs (a - b) < 0.1.
Proof.
  assert (Hemc : FuelMoistureIntegration.computeEMC (VNum (Fin 85)) (VNum (Fin 25))
                 = Return (Fin (1.5 + 0.15 * 25 - 0.01 * 85 / 10)))
    by (apply computeEMC_mid; lra).
  set (e := 1.5 + 0.15 * 25 - 0.01 * 85 / 10) in *.
  assert (Hdry : e < moistureExt fuel_2) by (unfold e; simpl; lra).
  destruct (predictFireBehavior_spreads FuelMoistureIntegration_loaded
              (manual_path (Fin e)) fuel_2 None 0 0 e)
    as (manualResult & sr1 & a & Hm & Hsr1 & Hros1 & Hchains1 & _);
    try reflexivity; try exact Hdry.
  destruct (predictFireBehavior_spreads FuelMoistureIntegration_loaded
              emc_path fuel_2 (Some (Fin e)) 0 0 e)
    as (emcResult & sr2 & b & He & Hsr2 & Hros2 & Hchains2 & _);
    try reflexivity; try exact Hdry.
  { unfold effective_moisture, emc_path, FuelMoistureIntegration_loaded.
    cbn [with_default p_useEMC p_temp p_rh p_fuelMoisture truthy].
    rdec. cbn [negb andb]. rewrite Hemc. reflexivity. }
  cbn [manual_path emc_path p_fuelModel with_default] in Hsr1, Hsr2.
  rewrite Hsr1 in Hsr2. injection Hsr2 as Hsame. subst sr2.
  rewrite Hros1 in Hros2. injection Hros2 as Hab. subst b.
  exists e, manualResult, emcResult.
  eexists; eexists.
  repeat split; try eassumption.
  replace (_ - _) with 0 by lra. rewrite Rabs_R0. lra.
Qed.

End EmcPaths.

(** ** The truthiness guard of the EMC branch *)

Section EmcGuard.
Import FireBehavior.
Local Open Scope string_scope.

(** [{rh: 25, useEMC: true}]: no [temp], so the default 70 applies. *)
Definition absent_temp : Params :=
  {| p_windSpeed := None; p_fuelMoisture := None; p_slope := None;
     p_fuelModel := None; p_temp := None; p_rh := Some (Fin 25);
     p_useEMC := Some true |}.

Lemma absent_temp_computes_emc :
  exists result,
    predictFireBehavior FuelMoistureIntegration_loaded absent_temp = Return result
    /\ has result "emc" = true
    /\ get (get result "conditions") "fuelMoisture"
       = VNum (Fin (1.5 + 0.15 * 25 - 0.01 * 70 / 10)).
Proof.
  assert (Hemc : FuelMoistureIntegration.computeEMC (VNum (Fin 70)) (VNum (Fin 25))
                 = Return (Fin (1.5 + 0.15 * 25 - 0.01 * 70 / 10)))
    by (apply computeEMC_mid; lra).
  set (e := 1.5 + 0.15 * 25 - 0.01 * 70 / 10) in *.
  destruct (predictFireBehavior_spreads FuelMoistureIntegration_loaded
              absent_temp fuel_2 (Some (Fin e)) 0 0 e)
    as (result & sr & a & Hres & _ & _ & _ & _ & Hhas & Hcond);
    try reflexivity.
  - unfold effective_moisture, absent_temp, FuelMoistureIntegration_loaded.
    cbn [with_default p_useEMC p_temp p_rh p_fuelMoisture truthy].
    rdec. cbn [negb andb]. rewrite Hemc. reflexivity.
  - unfold e; simpl; lra.
  - exists result. repeat split; assumption.
Qed.

(** C10, as stated, fails: with [useEMC = true] and [temp] absent the
    default temperature 70 is truthy, the EMC is computed and the result
    carries an [emc] field. *)
Lemma emc_guard_absent_fails :
  ~ (forall params : Params,
       p_useEMC params = Some true ->
       (p_temp params = Some (Fin 0) \/ p_rh params = Some (Fin 0)
        \/ p_temp params = None \/ p_rh params = None) ->
       forall result,
         predictFireBehavior FuelMoistureIntegration_loaded params = Return result ->
         has result "emc" = false).
Proof.
  intros Hclaim.
  destruct absent_temp_computes_emc as (result & Hres & Hhas & _).
  specialize (Hclaim absent_temp eq_refl (or_intror (or_intror (or_introl eq_refl)))
                result Hres).
  rewrite Hhas in Hclaim. discriminate Hclaim.
Qed.

Lemma effective_moisture_skipped lib (temp rh fuelMoisture : number) :
  truthy temp = false \/ truthy rh = false ->
  effective_moisture lib true temp rh fuelMoisture = Return (None, fuelMoisture).
Proof.
  intros [H | H]; unfold effective_moisture; rewrite H; cbn [andb];
    [reflexivity | now rewrite andb_false_r].
Qed.

(** C10, amended.  With [useEMC = true] and [temp] or [rh] passed as 0, the
    EMC branch is skipped: no EMC is computed and the supplied
    [fuelMoisture] (default 10) is the effective moisture.  For a fuel model
    of the table and finite wind, slope and moisture, the result has no
    [emc] field when the fire can spread, and echoes the supplied moisture;
    when the fire cannot spread the result carries [emc: null]. *)
Theorem emc_guard_zero lib (params : Params) (f : FuelModel)
    (windSpeed slope m : R) :
  p_useEMC params = Some true ->
  p_temp params = Some (Fin 0) \/ p_rh params = Some (Fin 0) ->
  assoc (with_default (p_fuelModel params) "2") FUEL_MODELS = Some f ->
  with_default (p_windSpeed params) (Fin 0) = Fin windSpeed ->
  with_default (p_slope params) (Fin 0) = Fin slope ->
  with_default (p_fuelMoisture params) (Fin 10) = Fin m ->
  effective_moisture lib true
    (with_default (p_temp params) (Fin 70))
    (with_default (p_rh params) (Fin 30))
    (with_default (p_fuelMoisture params) (Fin 10))
  = Return (None, Fin m)
  /\ exists result,
      predictFireBehavior lib params = Return result
      /\ (m < moistureExt f ->
          get result "canSpread" = VBool true
          /\ has result "emc" = false
          /\ get (get result "conditions") "fuelMoisture" = VNum (Fin m))
      /\ (moistureExt f <= m ->
          get result "canSpread" = VBool false
          /\ get result "emc" = VNull
          /\ has result "emc" = true).
Proof.
  intros Huse Hzero Hkey Hwind Hslope Hmoist.
  assert (Heff : effective_moisture lib true
                   (with_default (p_temp params) (Fin 70))
                   (with_default (p_rh params) (Fin 30))
                   (with_default (p_fuelMoisture params) (Fin 10))
                 = Return (None, Fin m)).
  { rewrite Hmoist. apply effective_moisture_skipped.
    destruct Hzero as [H | H]; rewrite H; [left | right];
      cbn [with_default truthy]; now rewrite Reqb_true. }
  split; [exact Heff |].
  destruct (Rlt_le_dec m (moistureExt f)) as [Hdry | Hwet].
  - destruct (predictFireBehavior_spreads lib params f None windSpeed slope m)
      as (result & sr & a & Hres & _ & _ & _ & Hcan & Hhas & Hcond);
      try assumption.
    { now rewrite Huse. }
    exists result. split; [exact Hres |]. split; [intros _ | intros Hle; lra].
    repeat split; assumption.
  - exists (no_spread_result f None). split.
    + apply predictFireBehavior_too_wet with (effectiveMoisture := Fin m);
        [assumption | now rewrite Huse |].
      fin. now apply Rleb_true.
    + split; [intros Hlt; lra | intros _]. repeat split; reflexivity.
Qed.

(** [{temp: 0, rh: 25, useEMC: true}] *)
Definition zero_temp : Params :=
  {| p_windSpeed := None; p_fuelMoisture := None; p_slope := None;
     p_fuelModel := None; p_temp := Some (Fin 0); p_rh := Some (Fin 25);
     p_useEMC := Some true |}.

Lemma emc_guard_zero_witness :
  effective_moisture FuelMoistureIntegration_loaded true (Fin 0) (Fin 25) (Fin 10)
  = Return (None, Fin 10)
  /\ exists result,
      predictFireBehavior FuelMoistureIntegration_loaded zero_temp = Return result
      /\ (10 < 15 ->
          get result "canSpread" = VBool true
          /\ has result "emc" = false
          /\ get (get result "conditions") "fuelMoisture" = VNum (Fin 10))
      /\ (15 <= 10 ->
          get result "canSpread" = VBool false
          /\ get result "emc" = VNull
          /\ has result "emc" = true).
Proof.
  apply (emc_guard_zero FuelMoistureIntegration_loaded zero_temp fuel_2 0 0 10);
    try reflexivity.
  left. reflexivity.
Defined.

End EmcGuard.

(** ** runModel *)

Section RunModel.
Import FuelMoistureIntegration.
Local Open Scope string_scope.
Local Open Scope list_scope.

(** A well-formed weather step: the three fields are real numbers and the
    humidity lies in [0,100]. *)
Definition well_formed (step : value) : Prop :=
  exists tempF rh hours : R,
    get step "tempF" = VNum (Fin tempF)
    /\ get step "rh" = VNum (Fin rh)
    /\ get step "hours" = VNum (Fin hours)
    /\ 0 <= rh <= 100.

(** A step with a missing or non-numeric [tempF], [rh] or [hours]. *)
Definition malformed (step : value) : Prop :=
  is_number (get step "tempF") && is_number (get step "rh")
  && is_number (get step "hours") = false.

Definition nullish (step : value) : bool :=
  match step with VUndefined | VNull => true | _ => false end.

Definition numeric_or_absent (timeLag : value) : Prop :=
  timeLag = VUndefined \/ exists n : number, timeLag = VNum n.

Definition hours_of (step : value) : R :=
  match get step "hours" with VNum (Fin h) => h | _ => 0 end.

Fixpoint sum_hours (steps : list value) : R :=
  match steps with
  | [] => 0
  | step :: rest => hours_of step + sum_hours rest
  end.

(** The specification's account of one step: compute the EMC of the step's
    weather, then advance the moisture over the step's hours. *)
Definition advance (timeLag : value) (current : completion number) (step : value)
  : completion number :=
  m <- current ;;
  emc <- computeEMC (get step "tempF") (get step "rh") ;;
  stepMoisture (VNum m) (VNum emc) (get step "hours") timeLag.

(** The moisture, not yet rounded, after a sequence of steps. *)
Definition unrounded (timeLag : value) (initialMoisture : number)
    (steps : list value) : completion number :=
  fold_left (advance timeLag) steps (Return initialMoisture).

(** The entry [runModel] pushes for a step. *)
Definition entry (cumulativeHours : R) (moisture emc : number) (step : value)
  : value :=
  VObj [("hours", VNum (Fin cumulativeHours));
        ("moisture", VNum (round1 moisture));
        ("emc", VNum (round1 emc));
        ("tempF", get step "tempF");
        ("rh", get step "rh")].

Lemma well_formed_not_nullish (step : value) :
  well_formed step -> nullish step = false.
Proof.
  intros (t & h & d & Ht & _). destruct step; try reflexivity; discriminate Ht.
Qed.

Lemma destructure_step_ok (step : value) :
  nullish step = false ->
  destructure_step step
  = Return (get step "tempF", get step "rh", get step "hours").
Proof. destruct step; intros H; try reflexivity; discriminate H. Qed.

Lemma runModel_loop_entries (timeLag : number) (steps : list value) :
  Forall well_formed steps ->
  forall (current : number) (cumulative : R) (results : list value),
  exists out : list value,
    runModel_loop steps (VNum timeLag) (VNum current) (Fin cumulative) results
    = Return (results ++ out)
    /\ List.length out = List.length steps
    /\ forall i, (i < List.length steps)%nat ->
         exists m e : number,
           unrounded (VNum timeLag) current (firstn (S i) steps) = Return m
           /\ computeEMC (get (nth i steps VUndefined) "tempF")
                         (get (nth i steps VUndefined) "rh") = Return e
           /\ nth i out VUndefined
              = entry (cumulative + sum_hours (firstn (S i) steps)) m e
                      (nth i steps VUndefined).
Proof.
  induction 1 as [| step rest Hstep Hrest IH]; intros current cumulative results.
  - exists []. rewrite app_nil_r. repeat split. intros i Hi. inversion Hi.
  - pose proof (well_formed_not_nullish step Hstep) as Hnn.
    destruct Hstep as (t & h & d & Ht & Hh & Hd & Hrange).
    destruct (computeEMC_finite t h Hrange) as (e & He & _).
    cbn [runModel_loop]. rewrite (destructure_step_ok step Hnn). cbn [bind].
    rewrite Ht, Hh, Hd, He. cbn [bind].
    set (m := max (Fin 0) (Fin e + (current - Fin e) * exp (- (Fin d / timeLag)))%js).
    change (stepMoisture (VNum current) (VNum (Fin e)) (VNum (Fin d)) (VNum timeLag))
      with (Return m).
    cbn [bind]. rewrite add_fin.
    destruct (IH m (cumulative + d) (results ++
                [VObj [("hours", VNum (Fin (cumulative + d)));
                       ("moisture", VNum (round1 m));
                       ("emc", VNum (round1 (Fin e)));
                       ("tempF", VNum (Fin t));
                       ("rh", VNum (Fin h))]]))
      as (out & Hloop & Hlen & Hnth).
    eexists (_ :: out). split; [| split].
    + rewrite Hloop, <- app_assoc. reflexivity.
    + cbn [List.length]. now rewrite Hlen.
    + assert (Hadv : advance (VNum timeLag) (Return current) step = Return m).
      { unfold advance. cbn [bind]. rewrite Ht, Hh, Hd, He. reflexivity. }
      assert (Hhours : hours_of step = d) by (unfold hours_of; now rewrite Hd).
      intros [| j] Hi.
      * exists m, (Fin e). cbn [firstn nth sum_hours].
        unfold unrounded. cbn [fold_left]. rewrite Hadv.
        rewrite Ht, Hh, He. repeat split.
        unfold entry. rewrite Ht, Hh, Hhours, Rplus_0_r. reflexivity.
      * cbn [List.length] in Hi. apply PeanoNat.lt_S_n in Hi.
        destruct (Hnth j Hi) as (mj & ej & Hmj & Hej & Hentry).
        exists mj, ej. cbn [nth]. split; [| split; [exact Hej |]].
        -- unfold unrounded in *. cbn [firstn fold_left] in *.
           now rewrite Hadv.
        -- rewrite Hentry. cbn [firstn sum_hours]. rewrite Hhours.
           f_equal. lra.
Qed.

Lemma runModel_loop_throws (steps : list value) :
  Exists malformed steps ->
  forall (timeLag currentMoisture : value) (cumulativeHours : number)
         (results : list value),
    throws (runModel_loop steps timeLag currentMoisture cumulativeHours results).
Proof.
  induction 1 as [step rest Hbad | step rest Hlater IH];
    intros timeLag currentMoisture cumulativeHours results;
    cbn [runModel_loop];
    (destruct (destructure_step step) as [[[tempF rh] hours] | err] eqn:Hd;
     cbn [bind]; [| eexists; reflexivity]).
  - assert (Hfields : tempF = get step "tempF" /\ rh = get step "rh"
                      /\ hours = get step "hours").
    { destruct step; cbn in Hd; try discriminate Hd;
        injection Hd as <- <- <-; repeat split. }
    destruct Hfields as (-> & -> & ->). unfold malformed in Hbad.
    destruct (get step "tempF"), (get step "rh"), (get step "hours");
      try (eexists; reflexivity); discriminate Hbad.
  - destruct tempF, rh, hours; try (eexists; reflexivity).
    destruct (computeEMC (VNum n) (VNum n0)) as [emc | err];
      cbn [bind]; [| eexists; reflexivity].
    destruct (stepMoisture currentMoisture (VNum emc) (VNum n1) timeLag)
      as [m | err]; cbn [bind]; [| eexists; reflexivity].
    apply IH.
Qed.

Lemma runModel_loop_invalid_step (timeLag : number) (pre post : list value)
    (bad : value) :
  Forall well_formed pre ->
  malformed bad ->
  nullish bad = false ->
  forall (current : number) (cumulative : R) (results : list value),
    runModel_loop (pre ++ bad :: post) (VNum timeLag) (VNum current)
                  (Fin cumulative) results
    = Throw (Error "Invalid weather step: must contain tempF, rh, and hours").
Proof.
  intros Hpre Hbad Hnn.
  induction Hpre as [| step rest Hstep Hrest IH]; intros current cumulative results.
  - cbn [app runModel_loop]. rewrite (destructure_step_ok bad Hnn). cbn [bind].
    unfold malformed in Hbad.
    destruct (get bad "tempF"), (get bad "rh"), (get bad "hours");
      try reflexivity; discriminate Hbad.
  - pose proof (well_formed_not_nullish step Hstep) as Hok.
    destruct Hstep as (t & h & d & Ht & Hh & Hd & Hrange).
    destruct (computeEMC_finite t h Hrange) as (e & He & _).
    cbn [app runModel_loop]. rewrite (destructure_step_ok step Hok). cbn [bind].
    rewrite Ht, Hh, Hd, He. cbn [bind stepMoisture]. rewrite add_fin.
    apply IH.
Qed.

(** With a time lag that is a non-zero real, the unrounded moisture stays
    a real number along well-formed steps. *)
Lemma unrounded_finite (tau : R) (steps : list value) :
  tau <> 0 ->
  Forall well_formed steps ->
  forall m : R, exists m' : R,
    unrounded (VNum (Fin tau)) (Fin m) steps = Return (Fin m').
Proof.
  intros Htau. induction 1 as [| step rest Hstep Hrest IH]; intros m.
  - exists m. reflexivity.
  - destruct Hstep as (t & h & d & Ht & Hh & Hd & Hrange).
    destruct (computeEMC_finite t h Hrange) as (e & He & _).
    destruct (IH (relax m e d tau)) as (m' & Hm').
    exists m'. unfold unrounded in *. cbn [fold_left].
    replace (advance (VNum (Fin tau)) (Return (Fin m)) step)
      with (Return (A := number) (Fin (relax m e d tau))); [exact Hm' |].
    unfold advance. cbn [bind]. rewrite Ht, Hh, Hd, He. cbn [bind].
    now rewrite stepMoisture_fin.
Qed.

(** A number with one decimal place: an integer number of tenths. *)
Definition one_decimal (v : value) : Prop :=
  exists z : Z, v = VNum (Fin (IZR z / 10)).

Lemma round1_one_decimal (x : R) : one_decimal (VNum (round1 (Fin x))).
Proof. rewrite round1_fin. eexists; reflexivity. Qed.

Lemma Forall_firstn_wf (n : nat) (steps : list value) :
  Forall well_formed steps -> Forall well_formed (firstn n steps).
Proof.
  intros H. revert n. induction H as [| s l Hs Hl IH]; intros [| n];
    cbn [firstn]; constructor; auto.
Qed.

Definition initial_entry (initialMoisture : value) : value :=
  VObj [("hours", VNum (Fin 0)); ("moisture", initialMoisture); ("emc", VNull)].

(** C6.  For a real [initialMoisture], a time lag that is a number or is
    absent, and an array of [n] well-formed steps, [runModel] returns [n+1]
    entries; entry 0 is [{hours: 0, moisture: initialMoisture, emc: null}];
    entry [i >= 1] has the cumulative hours of the first [i] steps, the
    moisture after [i] steps rounded by [Math.round(x * 10) / 10] and the
    EMC of step [i] rounded likewise (an integer number of tenths; so is the
    moisture when the time lag is absent or a non-zero real).  [runModel]
    throws "weatherSteps must be an array" when [weatherSteps] is not an
    array; it throws whenever some step has a missing or non-numeric
    [tempF], [rh] or [hours], and with the steps before that one
    well-formed the error is "Invalid weather step: must contain tempF, rh,
    and hours". *)
Theorem runModel_contract :
  (forall (initialMoisture : R) (timeLag : value) (steps : list value),
      numeric_or_absent timeLag ->
      Forall well_formed steps ->
      exists results : list value,
        runModel (VNum (Fin initialMoisture)) (VArr steps) timeLag = Return results
        /\ List.length results = S (List.length steps)
        /\ nth 0 results VUndefined = initial_entry (VNum (Fin initialMoisture))
        /\ forall i, (1 <= i <= List.length steps)%nat ->
             exists m e : number,
               unrounded (default timeLag (VNum (Fin 1))) (Fin initialMoisture)
                         (firstn i steps) = Return m
               /\ computeEMC (get (nth (pred i) steps VUndefined) "tempF")
                             (get (nth (pred i) steps VUndefined) "rh") = Return e
               /\ get (nth i results VUndefined) "hours"
                  = VNum (Fin (sum_hours (firstn i steps)))
               /\ get (nth i results VUndefined) "moisture" = VNum (round1 m)
               /\ get (nth i results VUndefined) "emc" = VNum (round1 e)
               /\ one_decimal (get (nth i results VUndefined) "emc")
               /\ (timeLag = VUndefined
                   \/ (exists tau : R, timeLag = VNum (Fin tau) /\ tau <> 0) ->
                   one_decimal (get (nth i results VUndefined) "moisture")))
  /\ (forall initialMoisture weatherSteps timeLag : value,
        (forall steps, weatherSteps <> VArr steps) ->
        runModel initialMoisture weatherSteps timeLag
        = Throw (Error "weatherSteps must be an array"))
  /\ (forall (initialMoisture timeLag : value) (steps : list value),
        Exists malformed steps ->
        throws (runModel initialMoisture (VArr steps) timeLag))
  /\ (forall (initialMoisture : R) (timeLag : value) (pre post : list value)
             (bad : value),
        numeric_or_absent timeLag ->
        Forall well_formed pre ->
        malformed bad ->
        nullish bad = false ->
        runModel (VNum (Fin initialMoisture)) (VArr (pre ++ bad :: post)) timeLag
        = Throw (Error "Invalid weather step: must contain tempF, rh, and hours")).
Proof.
  split; [| split; [| split]].
  - intros initialMoisture timeLag steps Hlag Hsteps.
    assert (Hdef : exists tl, default timeLag (VNum (Fin 1)) = VNum tl).
    { destruct Hlag as [-> | [n ->]]; eexists; reflexivity. }
    destruct Hdef as [tl Hdef]. unfold runModel. rewrite Hdef.
    destruct (runModel_loop_entries tl steps Hsteps (Fin initialMoisture) 0
                [initial_entry (VNum (Fin initialMoisture))])
      as (out & Hloop & Hlen & Hnth).
    exists (initial_entry (VNum (Fin initialMoisture)) :: out).
    split; [exact Hloop |]. split; [cbn [List.length]; now rewrite Hlen |].
    split; [reflexivity |].
    intros [| j] [Hlo Hhi]; [inversion Hlo |].
    destruct (Hnth j Hhi) as (m & e & Hm & He & Hentry).
    exists m, e. cbn [nth pred]. rewrite Hentry, Rplus_0_l.
    split; [exact Hm |]. split; [exact He |].
    split; [reflexivity |]. split; [reflexivity |]. split; [reflexivity |].
    split.
    + pose proof (proj1 (Forall_forall well_formed steps) Hsteps _
                    (nth_In steps VUndefined Hhi)) as Hwf.
      destruct Hwf as (t & h & d & Ht & Hh & _ & Hrange).
      rewrite Ht, Hh in He.
      destruct (computeEMC_finite t h Hrange) as (e' & He' & _).
      rewrite He' in He. injection He as <-.
      apply round1_one_decimal.
    + intros Hreal.
      assert (Htau : exists tau, tl = Fin tau /\ tau <> 0).
      { destruct Hreal as [-> | (tau & -> & Htau)].
        - exists 1. cbn in Hdef. injection Hdef as <-. split; [reflexivity | lra].
        - exists tau. cbn in Hdef. injection Hdef as <-. now split. }
      destruct Htau as (tau & -> & Htau).
      destruct (unrounded_finite tau (firstn (S j) steps) Htau
                  (Forall_firstn_wf (S j) steps Hsteps) initialMoisture)
        as (m' & Hm').
      rewrite Hm' in Hm. injection Hm as <-.
      apply round1_one_decimal.
  - intros initialMoisture weatherSteps timeLag Hnot. unfold runModel.
    destruct weatherSteps; try reflexivity. now destruct (Hnot items).
  - intros initialMoisture timeLag steps Hbad. unfold runModel.
    apply runModel_loop_throws. exact Hbad.
  - intros initialMoisture timeLag pre post bad Hlag Hpre Hbad Hnn.
    assert (Hdef : exists tl, default timeLag (VNum (Fin 1)) = VNum tl).
    { destruct Hlag as [-> | [n ->]]; eexists; reflexivity. }
    destruct Hdef as [tl Hdef]. unfold runModel. rewrite Hdef.
    now apply runModel_loop_invalid_step.
Qed.

End RunModel.

(** ** calculateDryingPattern *)

(** [Math.round(x * 10) / 10] on a real. *)
Definition round1R (x : R) : R := IZR (Zfloor (x * 10 + 1 / 2)) / 10.

Lemma round1R_monotone (x y : R) : x <= y -> round1R x <= round1R y.
Proof.
  intros Hxy. unfold round1R.
  assert (H : IZR (Zfloor (x * 10 + 1 / 2)) <= IZR (Zfloor (y * 10 + 1 / 2))).
  { apply IZR_le, Zfloor_le. lra. }
  lra.
Qed.

Section Trajectory.
Variables emc intervalHours timeLag : R.
Hypothesis emc_positive : 0 < emc.
Hypothesis interval_positive : 0 < intervalHours.
Hypothesis timeLag_positive : 0 < timeLag.

(** One relaxation step of the drying loop. *)
Definition next (m : R) : R := relax m emc intervalHours timeLag.

(** The unrounded moistures of [n] successive steps from [m]. *)
Fixpoint trajectory (n : nat) (m : R) : list R :=
  match n with
  | O => []
  | S n => next m :: trajectory n (next m)
  end.

Lemma decay_factor :
  0 < Rtrigo_def.exp (- (intervalHours / timeLag)) < 1.
Proof.
  split; [apply exp_pos |].
  rewrite <- exp_0. apply exp_increasing.
  assert (0 < intervalHours / timeLag) by now apply Rdiv_lt_0_compat.
  lra.
Qed.

Lemma next_above (m : R) : emc < m -> emc < next m < m.
Proof.
  intros Hm. unfold next, relax. destruct decay_factor as [Hk0 Hk1].
  set (k := Rtrigo_def.exp (- (intervalHours / timeLag))) in *.
  assert (0 < (m - emc) * k) by (apply Rmult_lt_0_compat; lra).
  assert ((m - emc) * k < (m - emc) * 1) by (apply Rmult_lt_compat_l; lra).
  rewrite Rmax_right by lra. lra.
Qed.

Lemma next_below (m : R) : m < emc -> m < next m < emc.
Proof.
  intros Hm. unfold next, relax. destruct decay_factor as [Hk0 Hk1].
  set (k := Rtrigo_def.exp (- (intervalHours / timeLag))) in *.
  assert (0 < (emc - m) * k) by (apply Rmult_lt_0_compat; lra).
  assert ((emc - m) * k < (emc - m) * 1) by (apply Rmult_lt_compat_l; lra).
  assert (Hx : m < emc + (m - emc) * k < emc) by lra.
  unfold Rmax. destruct (Rle_dec 0 (emc + (m - emc) * k)); lra.
Qed.

Lemma next_at_equilibrium : next emc = emc.
Proof.
  unfold next, relax. rewrite Rmax_right; lra.
Qed.

Lemma trajectory_length (n : nat) (m : R) : List.length (trajectory n m) = n.
Proof. revert m. induction n as [| n IH]; intros m; cbn; [| rewrite IH]; reflexivity. Qed.

Lemma trajectory_decreasing (n : nat) (m : R) :
  emc < m ->
  Sorted Rgt (m :: trajectory n m) /\ Forall (Rlt emc) (trajectory n m).
Proof.
  revert m. induction n as [| n IH]; intros m Hm; cbn [trajectory].
  - split; repeat constructor.
  - destruct (next_above m Hm) as [Hlow Hhigh].
    destruct (IH (next m) Hlow) as [Hsorted Hall].
    split; constructor; try assumption.
    constructor. unfold Rgt. exact Hhigh.
Qed.

Lemma trajectory_increasing (n : nat) (m : R) :
  m < emc ->
  Sorted Rlt (m :: trajectory n m) /\ Forall (fun x => x < emc) (trajectory n m).
Proof.
  revert m. induction n as [| n IH]; intros m Hm; cbn [trajectory].
  - split; repeat constructor.
  - destruct (next_below m Hm) as [Hlow Hhigh].
    destruct (IH (next m) Hhigh) as [Hsorted Hall].
    split; constructor; try assumption.
    constructor. exact Hlow.
Qed.

Lemma trajectory_constant (n : nat) :
  Forall (fun x => x = emc) (trajectory n emc).
Proof.
  induction n as [| n IH]; cbn [trajectory]; [constructor |].
  rewrite next_at_equilibrium. constructor; [reflexivity | exact IH].
Qed.

End Trajectory.

Lemma Sorted_weaken {A : Type} (P Q : A -> A -> Prop) (l : list A) :
  (forall a b, P a b -> Q a b) -> Sorted P l -> Sorted Q l.
Proof.
  intros HPQ. induction 1 as [| a l Hl IH Hhd]; constructor; [exact IH |].
  destruct Hhd; constructor. now apply HPQ.
Qed.

(** Rounding keeps the order, without the strictness. *)
Lemma Sorted_round1R_ge (l : list R) :
  Sorted Rgt l -> Sorted Rge (map round1R l).
Proof.
  induction 1 as [| a l Hl IH Hhd]; cbn [map]; constructor; [exact IH |].
  destruct Hhd as [| b l' Hab]; cbn [map]; constructor.
  apply Rle_ge, round1R_monotone. unfold Rgt in Hab. lra.
Qed.

Lemma Sorted_round1R_le (l : list R) :
  Sorted Rlt l -> Sorted Rle (map round1R l).
Proof.
  induction 1 as [| a l Hl IH Hhd]; cbn [map]; constructor; [exact IH |].
  destruct Hhd as [| b l' Hab]; cbn [map]; constructor.
  apply round1R_monotone. lra.
Qed.

Section DryingLoop.
Import FuelMoistureIntegration.
Local Open Scope string_scope.
Local Open Scope list_scope.

Variables emc intervalHours duration timeLag : R.
Hypothesis timeLag_nonzero : timeLag <> 0.

(** The samples pushed by [n] iterations that start at [hour] with
    moisture [m]. *)
Fixpoint pushed (n : nat) (hour m : R) : list value :=
  match n with
  | O => []
  | S n =>
      VObj [("hours", VNum (round1 (Fin hour)));
            ("moisture", VNum (round1 (Fin (next emc intervalHours timeLag m))))]
      :: pushed n (hour + intervalHours) (next emc intervalHours timeLag m)
  end.

Lemma pushed_moistures (n : nat) (hour m : R) :
  map (fun s => get s "moisture") (pushed n hour m)
  = map (fun x => VNum (Fin (round1R x))) (trajectory emc intervalHours timeLag n m).
Proof.
  revert hour m. induction n as [| n IH]; intros hour m; [reflexivity |].
  cbn [pushed trajectory map]. rewrite IH. f_equal.
  change (get _ "moisture")
    with (VNum (round1 (Fin (next emc intervalHours timeLag m)))).
  now rewrite round1_fin.
Qed.

(** The loop ends within [fuel] iterations once [hour + fuel * intervalHours]
    passes [duration]; it runs [n] times, the last at an hour within
    [duration]. *)
Lemma drying_loop_runs (fuel : nat) :
  forall (hour m : R) (steps : list value),
    duration < hour + INR fuel * intervalHours ->
    exists n : nat,
      (n <= fuel)%nat
      /\ (n = O \/ hour + INR (n - 1) * intervalHours <= duration)
      /\ (hour <= duration -> (1 <= n)%nat)
      /\ drying_loop fuel (Fin emc) (Fin intervalHours) (Fin duration)
           (VNum (Fin timeLag)) (Fin hour) (VNum (Fin m)) steps
         = Some (Return (steps ++ pushed n hour m)).
Proof.
  induction fuel as [| fuel IH]; intros hour m steps Hbound.
  - exists O. cbn [INR] in Hbound. cbn [drying_loop pushed].
    rewrite le_fin, Rleb_false, app_nil_r by lra.
    repeat split; [lia | now left | intros; lra].
  - rewrite S_INR in Hbound. cbn [drying_loop]. rewrite le_fin.
    destruct (Rle_dec hour duration) as [Hin | Hout].
    + rewrite Rleb_true, stepMoisture_fin by assumption.
      fold (next emc intervalHours timeLag m). rewrite add_fin.
      destruct (IH (hour + intervalHours) (next emc intervalHours timeLag m)
                  (steps ++
                     [VObj [("hours", VNum (round1 (Fin hour)));
                            ("moisture",
                             VNum (round1 (Fin (next emc intervalHours timeLag m))))]]))
        as (n & Hn & Hlast & _ & Hloop); [lra |].
      exists (S n). split; [lia |]. split; [| split; [intros _; lia |]].
      * right. replace (S n - 1)%nat with n by lia.
        destruct Hlast as [-> | Hlast]; [cbn [INR]; lra |].
        destruct n as [| n']; [cbn [INR]; lra |].
        replace (S n' - 1)%nat with n' in Hlast by lia.
        rewrite S_INR. lra.
      * rewrite Hloop, <- app_assoc. reflexivity.
    + exists O. rewrite Rleb_false by lra. cbn [pushed]. rewrite app_nil_r.
      repeat split; [lia | now left | intros; lra].
Qed.

End DryingLoop.

Section DryingPatternProperties.
Import FuelMoistureIntegration.
Local Open Scope string_scope.
Local Open Scope list_scope.

Variable to_string : value -> string.

(** The reported moistures of a list of samples. *)
Definition moistures (steps : list value) : list value :=
  map (fun s => get s "moisture") steps.

Definition reported (raw : list R) : list value :=
  map (fun x => VNum (Fin (round1R x))) raw.

(** On valid input 24 iterations are enough: the pattern is returned, with
    the initial moisture first and then the one-decimal roundings of the
    unrounded trajectory. *)
Lemma drying_pattern_shape (initialMoisture tempF rh duration timeLag : R)
    (extra : nat) :
  0 <= rh <= 100 -> 0 < timeLag -> 1 <= duration ->
  exists (emc : R) (n : nat) (result : value) (steps : list value),
    computeEMC (VNum (Fin tempF)) (VNum (Fin rh)) = Return (Fin emc)
    /\ 0.1 <= emc <= 40
    /\ (1 <= n <= 24)%nat
    /\ calculateDryingPattern to_string (24 + extra)
         (VNum (Fin initialMoisture)) (VNum (Fin tempF)) (VNum (Fin rh))
         (Fin duration) (VNum (Fin timeLag))
       = Some (Return result)
    /\ get result "steps" = VArr steps
    /\ moistures steps
       = VNum (Fin initialMoisture)
         :: reported (trajectory emc (Rmax 1 (duration / 24)) timeLag n
                        initialMoisture).
Proof.
  intros Hrh Hlag Hduration.
  destruct (computeEMC_finite tempF rh Hrh) as (emc & Hemc & Hbounds).
  set (iv := Rmax 1 (duration / 24)).
  assert (Hiv1 : 1 <= iv) by apply Rmax_l.
  assert (Hiv24 : duration / 24 <= iv) by apply Rmax_r.
  assert (Hivd : iv <= duration) by (apply Rmax_lub; lra).
  assert (Hfuel : duration < iv + INR (24 + extra) * iv).
  { rewrite plus_INR. replace (INR 24) with 24 by (simpl; lra).
    pose proof (pos_INR extra) as Hextra.
    assert (0 <= INR extra * iv) by (apply Rmult_le_pos; lra).
    lra. }
  assert (Hnz : timeLag <> 0) by lra.
  destruct (drying_loop_runs emc iv duration timeLag Hnz
              (24 + extra) iv initialMoisture
              [VObj [("hours", VNum (Fin 0));
                     ("moisture", VNum (Fin initialMoisture))]] Hfuel)
    as (n & _ & Hlast & Hfirst & Hloop).
  specialize (Hfirst Hivd).
  assert (Hn24 : (n <= 24)%nat).
  { destruct Hlast as [-> | Hlast]; [lia |].
    apply INR_le. replace (INR 24) with 24 by (simpl; lra).
    assert (HS : INR n = INR (n - 1) + 1).
    { destruct n as [| n']; [lia |].
      replace (S n' - 1)%nat with n' by lia. apply S_INR. }
    assert (Hmul : (INR (n - 1) + 1) * iv <= 24 * iv) by lra.
    apply Rmult_le_reg_r in Hmul; lra. }
  exists emc, n. eexists. eexists.
  split; [exact Hemc |]. split; [exact Hbounds |]. split; [lia |].
  unfold calculateDryingPattern. rewrite Hemc.
  cbn [default]. rewrite div_fin, max_fin by lra. fold iv.
  rewrite Hloop.
  split; [reflexivity |]. split; [reflexivity |].
  unfold moistures, reported. cbn [app map].
  now rewrite (pushed_moistures emc iv timeLag n iv initialMoisture).
Qed.

(** The moistures that [n] successive calls of [stepMoisture] return, each
    call starting from what the call before returned: the values that
    [currentMoisture] takes in the loop of [calculateDryingPattern]. *)
Fixpoint stepped (emc intervalHours : number) (timeLag : value) (n : nat)
    (currentMoisture : number) : completion (list number) :=
  match n with
  | O => Return []
  | S n =>
      m <- stepMoisture (VNum currentMoisture) (VNum emc) (VNum intervalHours)
             timeLag ;;
      rest <- stepped emc intervalHours timeLag n m ;;
      Return (m :: rest)
  end.

Lemma stepped_trajectory (emc intervalHours timeLag : R) (n : nat) :
  timeLag <> 0 ->
  forall m : R,
    stepped (Fin emc) (Fin intervalHours) (VNum (Fin timeLag)) n (Fin m)
    = Return (map Fin (trajectory emc intervalHours timeLag n m)).
Proof.
  intros Hlag. induction n as [| n IH]; intros m; [reflexivity |].
  cbn [stepped trajectory map]. rewrite stepMoisture_fin by exact Hlag.
  cbn [bind]. fold (next emc intervalHours timeLag m). rewrite IH. reflexivity.
Qed.

(** C8, amended.  On valid input (humidity in [0,100], time lag above 0 and
    up to 1e15 hours, duration of at least one hour) the pattern is returned,
    with 1 to 24 samples after the initial one.  The first moisture is the
    initial moisture as given; the following ones are the moistures that the
    successive calls of [stepMoisture] return, over the interval
    [max(1, duration / 24)], each rounded to one decimal.  The moistures that
    [stepMoisture] returns move towards the EMC and do not cross it: from
    above they never rise and never fall below it, from below they never
    fall and never rise above it, and from the EMC itself they stay on it.
    The rounded values that are reported after the first keep the
    direction.  (Beyond 1e15 hours the binary64 decay factor of a step is 1,
    and [emc + (m - emc)] need not give back [m] in the last bit.) *)
Theorem drying_pattern_monotone
    (initialMoisture tempF rh duration timeLag : R) (extra : nat) :
  0 <= rh <= 100 -> 0 < timeLag <= 1e15 -> 1 <= duration ->
  exists (emc : R) (result : value) (steps : list value) (raw : list R),
    computeEMC (VNum (Fin tempF)) (VNum (Fin rh)) = Return (Fin emc)
    /\ calculateDryingPattern to_string (24 + extra)
         (VNum (Fin initialMoisture)) (VNum (Fin tempF)) (VNum (Fin rh))
         (Fin duration) (VNum (Fin timeLag))
       = Some (Return result)
    /\ get result "steps" = VArr steps
    /\ (1 <= List.length raw <= 24)%nat
    /\ stepped (Fin emc) (JsNumber.max (Fin 1) (Fin duration / Fin 24)%js)
         (VNum (Fin timeLag)) (List.length raw) (Fin initialMoisture)
       = Return (map Fin raw)
    /\ moistures steps = VNum (Fin initialMoisture) :: reported raw
    /\ (emc < initialMoisture ->
        Sorted Rge (initialMoisture :: raw) /\ Forall (Rle emc) raw
        /\ Sorted Rge (map round1R raw))
    /\ (initialMoisture < emc ->
        Sorted Rle (initialMoisture :: raw) /\ Forall (fun x => x <= emc) raw
        /\ Sorted Rle (map round1R raw))
    /\ (initialMoisture = emc ->
        Forall (fun x => x = emc) raw
        /\ Forall (fun v => v = VNum (Fin (round1R emc))) (reported raw)).
Proof.
  intros Hrh [Hlag _] Hduration.
  destruct (drying_pattern_shape initialMoisture tempF rh duration timeLag extra
              Hrh Hlag Hduration)
    as (emc & n & result & steps & Hemc & Hbounds & Hn & Hrun & Hsteps & Hmoist).
  set (iv := Rmax 1 (duration / 24)) in *.
  assert (Hiv : 0 < iv) by (pose proof (Rmax_l 1 (duration / 24)) as H; fold iv in H; lra).
  assert (Hpos : 0 < emc) by lra.
  exists emc, result, steps, (trajectory emc iv timeLag n initialMoisture).
  rewrite trajectory_length.
  split; [exact Hemc |]. split; [exact Hrun |]. split; [exact Hsteps |].
  split; [lia |].
  split.
  { rewrite div_fin, max_fin by lra. fold iv. apply stepped_trajectory. lra. }
  split; [exact Hmoist |].
  split; [| split].
  - intros Habove.
    destruct (trajectory_decreasing emc iv timeLag Hpos Hiv Hlag n
                initialMoisture Habove) as [Hsorted Hall].
    split; [| split].
    + apply (Sorted_weaken Rgt Rge); [| exact Hsorted].
      intros a b Hab. unfold Rgt in Hab. apply Rle_ge. lra.
    + eapply Forall_impl; [| exact Hall]. intros a Ha. cbv beta in Ha. lra.
    + apply Sorted_round1R_ge. now apply Sorted_inv in Hsorted.
  - intros Hbelow.
    destruct (trajectory_increasing emc iv timeLag Hpos Hiv Hlag n
                initialMoisture Hbelow) as [Hsorted Hall].
    split; [| split].
    + apply (Sorted_weaken Rlt Rle); [| exact Hsorted].
      intros a b Hab. lra.
    + eapply Forall_impl; [| exact Hall]. intros a Ha. cbv beta in Ha. lra.
    + apply Sorted_round1R_le. now apply Sorted_inv in Hsorted.
  - intros ->.
    pose proof (trajectory_constant emc iv timeLag Hpos n) as Hconst.
    split; [exact Hconst |].
    unfold reported. apply Forall_map.
    eapply Forall_impl; [| exact Hconst]. cbn. now intros x ->.
Qed.

End DryingPatternProperties.

Section DryingPatternExamples.
Import FuelMoistureIntegration.
Local Open Scope string_scope.
Local Open Scope list_scope.

Lemma drying_pattern_monotone_witness :
  exists (emc : R) (result : value) (steps : list value) (raw : list R),
    computeEMC (VNum (Fin 85)) (VNum (Fin 25)) = Return (Fin emc)
    /\ calculateDryingPattern (fun _ => "") (24 + 0)
         (VNum (Fin 20)) (VNum (Fin 85)) (VNum (Fin 25)) (Fin 24) (VNum (Fin 1))
       = Some (Return result)
    /\ get result "steps" = VArr steps
    /\ (1 <= List.length raw <= 24)%nat
    /\ stepped (Fin emc) (JsNumber.max (Fin 1) (Fin 24 / Fin 24)%js)
         (VNum (Fin 1)) (List.length raw) (Fin 20)
       = Return (map Fin raw)
    /\ moistures steps = VNum (Fin 20) :: reported raw
    /\ (emc < 20 ->
        Sorted Rge (20 :: raw) /\ Forall (Rle emc) raw
        /\ Sorted Rge (map round1R raw))
    /\ (20 < emc ->
        Sorted Rle (20 :: raw) /\ Forall (fun x => x <= emc) raw
        /\ Sorted Rle (map round1R raw))
    /\ (20 = emc ->
        Forall (fun x => x = emc) raw
        /\ Forall (fun v => v = VNum (Fin (round1R emc))) (reported raw)).
Proof.
  apply (drying_pattern_monotone (fun _ => "") 20 85 25 24 1 0); lra.
Defined.

(** Two reported moistures, both real numbers, in relation [rel]. *)
Definition related (rel : R -> R -> Prop) (a b : value) : Prop :=
  exists x y : R, a = VNum (Fin x) /\ b = VNum (Fin y) /\ rel x y.

(** C8, as stated, fails: from 5.14 % towards an EMC of 5.145 % (105 F,
    25 % humidity) the moisture rises, but the sample after one hour is
    reported as 5.1, below the initial 5.14. *)
Lemma drying_pattern_not_strict :
  ~ (forall (to_string : value -> string) (fuel : nat)
            (initialMoisture tempF rh duration timeLag emc : R)
            (result : value) (steps : list value),
       0 <= rh <= 100 -> 0 < timeLag -> 1 <= duration ->
       computeEMC (VNum (Fin tempF)) (VNum (Fin rh)) = Return (Fin emc) ->
       calculateDryingPattern to_string fuel
         (VNum (Fin initialMoisture)) (VNum (Fin tempF)) (VNum (Fin rh))
         (Fin duration) (VNum (Fin timeLag))
       = Some (Return result) ->
       get result "steps" = VArr steps ->
       (emc < initialMoisture -> Sorted (related Rgt) (moistures steps))
       /\ (initialMoisture < emc -> Sorted (related Rlt) (moistures steps))
       /\ (initialMoisture = emc -> Sorted (related (@Logic.eq R)) (moistures steps))).
Proof.
  intros Hclaim.
  destruct (drying_pattern_shape (fun _ => "") 5.14 105 25 1 1 0)
    as (emc & n & result & steps & Hemc & _ & [Hn _] & Hrun & Hsteps & Hmoist);
    try lra.
  rewrite (computeEMC_mid 105 25) in Hemc by lra.
  injection Hemc as Hemc.
  destruct (Hclaim (fun _ => "") (24 + 0)%nat 5.14 105 25 1 1 emc result steps)
    as (_ & Hup & _); try lra; try assumption.
  { rewrite <- Hemc. apply computeEMC_mid; lra. }
  specialize (Hup ltac:(lra)). rewrite Hmoist in Hup.
  destruct n as [| n]; [lia |]. cbn [trajectory reported map] in Hup.
  apply Sorted_inv in Hup. destruct Hup as [_ Hhd].
  inversion Hhd as [| b l (x & y & Hx & Hy & Hxy) Heq]; subst.
  injection Hx as <-. injection Hy as <-.
  assert (Hiv : 0 < Rmax 1 (1 / 24)) by (pose proof (Rmax_l 1 (1 / 24)); lra).
  destruct (next_below (1.5 + 0.15 * 25 - 0.01 * 105 / 10) (Rmax 1 (1 / 24)) 1
              ltac:(lra) Hiv ltac:(lra) 5.14 ltac:(lra)) as [Hlow Hhigh].
  unfold round1R in Hxy. rewrite (Zfloor_eq 51) in Hxy by lra. lra.
Qed.

(** [{tempF: 85, rh: 25, hours: 6}] *)
Definition sample_step : value :=
  VObj [("tempF", VNum (Fin 85)); ("rh", VNum (Fin 25)); ("hours", VNum (Fin 6))].

Lemma sample_step_well_formed : well_formed sample_step.
Proof. exists 85, 25, 6. repeat split; lra. Qed.

Lemma runModel_contract_witness :
  exists results : list value,
    runModel (VNum (Fin 15)) (VArr [sample_step]) (VNum (Fin 1)) = Return results
    /\ List.length results = 2%nat
    /\ nth 0 results VUndefined = initial_entry (VNum (Fin 15))
    /\ get (nth 1 results VUndefined) "hours" = VNum (Fin (6 + 0)).
Proof.
  destruct (proj1 runModel_contract 15 (VNum (Fin 1)) [sample_step])
    as (results & Hrun & Hlen & Hfirst & Hentries).
  - right. eexists. reflexivity.
  - constructor; [exact sample_step_well_formed | constructor].
  - exists results. repeat split; try assumption.
    destruct (Hentries 1%nat) as (m & e & _ & _ & Hhours & _).
    + cbn. lia.
    + exact Hhours.
Defined.

End DryingPatternExamples.


(** * Further properties of the code *)

(** ** computeEMC: validation order and shape of the curve *)

Section ComputeEMCShape.
Import FuelMoistureIntegration.
Local Open Scope string_scope.

Lemma computeEMC_type_error (tempF rh : value) :
  is_number tempF && is_number rh = false ->
  computeEMC tempF rh
  = Throw (Error "Invalid input: temperature and humidity must be numbers").
Proof.
  intros Hnum. destruct tempF, rh; try reflexivity; discriminate Hnum.
Qed.

(** X1.  [computeEMC] tests the types first: with a temperature or a humidity
    that is not a number it throws "Invalid input: temperature and humidity
    must be numbers", whatever the other argument is, also a humidity out of
    range. *)
Theorem computeEMC_rejects_non_numbers (tempF rh : value) :
  is_number tempF && is_number rh = false ->
  computeEMC tempF rh
  = Throw (Error "Invalid input: temperature and humidity must be numbers").
Proof. exact (computeEMC_type_error tempF rh). Qed.

Lemma computeEMC_rejects_non_numbers_witness :
  computeEMC (VStr "invalid") (VNum (Fin 150))
  = Throw (Error "Invalid input: temperature and humidity must be numbers").
Proof. apply computeEMC_rejects_non_numbers. reflexivity. Defined.

Lemma clamp_monotone (x y : R) :
  x <= y -> Rmax 0.1 (Rmin 40 x) <= Rmax 0.1 (Rmin 40 y).
Proof.
  intros Hxy. unfold Rmax, Rmin.
  destruct (Rle_dec 40 x), (Rle_dec 40 y);
    repeat match goal with |- context [Rle_dec ?a ?b] => destruct (Rle_dec a b) end;
    lra.
Qed.

Lemma clamp_inactive (x : R) : 0.1 <= x <= 40 -> Rmax 0.1 (Rmin 40 x) = x.
Proof. intros Hx. rewrite Rmin_right, Rmax_right by lra. reflexivity. Qed.

(** X2.  At a fixed humidity in [0,100] the EMC never rises with the
    temperature. *)
Theorem computeEMC_antitone_in_temperature (rh cooler warmer : R) :
  0 <= rh <= 100 ->
  cooler <= warmer ->
  exists e_cool e_warm : R,
    computeEMC (VNum (Fin cooler)) (VNum (Fin rh)) = Return (Fin e_cool)
    /\ computeEMC (VNum (Fin warmer)) (VNum (Fin rh)) = Return (Fin e_warm)
    /\ e_warm <= e_cool.
Proof.
  intros Hrh Htemp. do 2 eexists.
  split; [apply computeEMC_in_range; exact Hrh |].
  split; [apply computeEMC_in_range; exact Hrh |].
  apply clamp_monotone. unfold emc_branch.
  destruct (Rle_dec rh 10); [| destruct (Rle_dec rh 50); lra].
  assert (Hmul : rh * cooler <= rh * warmer) by (apply Rmult_le_compat_l; lra).
  apply Rle_max_compat_l. lra.
Qed.

Lemma computeEMC_antitone_in_temperature_witness :
  exists e_cool e_warm : R,
    computeEMC (VNum (Fin 70)) (VNum (Fin 30)) = Return (Fin e_cool)
    /\ computeEMC (VNum (Fin 95)) (VNum (Fin 30)) = Return (Fin e_warm)
    /\ e_warm <= e_cool.
Proof. apply (computeEMC_antitone_in_temperature 30 70 95); lra. Defined.

(** X3.  Inside one humidity band the EMC never falls as the humidity
    rises: in the band from 10 to 50 and in the band above 50 at every
    temperature, and in the band up to 10 at temperatures of 0 F and below,
    where each term of the formula moves with the humidity. *)
Theorem computeEMC_monotone_within_band (tempF drier moister : R) :
  0 <= drier <= moister ->
  (moister <= 10 /\ tempF <= 0)
  \/ (10 < drier /\ moister <= 50)
  \/ (50 < drier /\ moister <= 100) ->
  exists e_dry e_moist : R,
    computeEMC (VNum (Fin tempF)) (VNum (Fin drier)) = Return (Fin e_dry)
    /\ computeEMC (VNum (Fin tempF)) (VNum (Fin moister)) = Return (Fin e_moist)
    /\ e_dry <= e_moist.
Proof.
  intros Horder Hband. do 2 eexists.
  split; [apply computeEMC_in_range; lra |].
  split; [apply computeEMC_in_range; lra |].
  apply clamp_monotone. unfold emc_branch.
  destruct Hband as [[Hlow Htemp] | [[Hlo Hhi] | [Hlo Hhi]]].
  - destruct (Rle_dec drier 10); [| lra]. destruct (Rle_dec moister 10); [| lra].
    apply Rle_max_compat_l.
    assert (Hmul : 0 <= (moister - drier) * (0.2626 - 0.00104 * tempF))
      by (apply Rmult_le_pos; lra).
    lra.
  - destruct (Rle_dec drier 10); [lra |]. destruct (Rle_dec moister 10); [lra |].
    destruct (Rle_dec drier 50); [| lra]. destruct (Rle_dec moister 50); [| lra].
    lra.
  - destruct (Rle_dec drier 10); [lra |]. destruct (Rle_dec moister 10); [lra |].
    destruct (Rle_dec drier 50); [lra |]. destruct (Rle_dec moister 50); [lra |].
    lra.
Qed.

Lemma computeEMC_monotone_within_band_witness :
  exists e_dry e_moist : R,
    computeEMC (VNum (Fin 85)) (VNum (Fin 15)) = Return (Fin e_dry)
    /\ computeEMC (VNum (Fin 85)) (VNum (Fin 40)) = Return (Fin e_moist)
    /\ e_dry <= e_moist.
Proof.
  apply (computeEMC_monotone_within_band 85 15 40); [lra |].
  right. left. lra.
Defined.

(** X4.  Across the band boundary at 50 the curve drops: for temperatures
    from 0 to 200 F, every humidity above 50 and up to 61 gives a lower EMC
    than the humidity 50 itself. *)
Theorem computeEMC_drops_after_50 (tempF rh : R) :
  0 <= tempF <= 200 ->
  50 < rh <= 61 ->
  exists e_50 e_rh : R,
    computeEMC (VNum (Fin tempF)) (VNum (Fin 50)) = Return (Fin e_50)
    /\ computeEMC (VNum (Fin tempF)) (VNum (Fin rh)) = Return (Fin e_rh)
    /\ e_rh < e_50.
Proof.
  intros Htemp Hrh. do 2 eexists.
  split; [apply computeEMC_in_range; lra |].
  split; [apply computeEMC_in_range; lra |].
  unfold emc_branch.
  destruct (Rle_dec 50 10); [lra |]. destruct (Rle_dec 50 50); [| lra].
  destruct (Rle_dec rh 10); [lra |]. destruct (Rle_dec rh 50); [lra |].
  rewrite !clamp_inactive by lra. lra.
Qed.

Lemma computeEMC_drops_after_50_witness :
  exists e_50 e_rh : R,
    computeEMC (VNum (Fin 70)) (VNum (Fin 50)) = Return (Fin e_50)
    /\ computeEMC (VNum (Fin 70)) (VNum (Fin 60)) = Return (Fin e_rh)
    /\ e_rh < e_50.
Proof. apply (computeEMC_drops_after_50 70 60); lra. Defined.

End ComputeEMCShape.

(** ** stepMoisture: validation, direction, composition *)

Section StepMoistureLaws.
Import FuelMoistureIntegration.
Local Open Scope string_scope.

Lemma stepMoisture_type_error (currentMoisture emc hours timeLag : value) :
  is_number currentMoisture && is_number emc && is_number hours
  && is_number timeLag = false ->
  stepMoisture currentMoisture emc hours timeLag
  = Throw (Error "Invalid input: all parameters must be numbers").
Proof.
  intros Hnum.
  destruct currentMoisture, emc, hours, timeLag; try reflexivity; discriminate Hnum.
Qed.

(** X5.  [stepMoisture] throws "Invalid input: all parameters must be
    numbers" as soon as one of its four arguments is not a number. *)
Theorem stepMoisture_rejects_non_numbers (currentMoisture emc hours timeLag : value) :
  is_number currentMoisture && is_number emc && is_number hours
  && is_number timeLag = false ->
  stepMoisture currentMoisture emc hours timeLag
  = Throw (Error "Invalid input: all parameters must be numbers").
Proof. exact (stepMoisture_type_error currentMoisture emc hours timeLag). Qed.

Lemma stepMoisture_rejects_non_numbers_witness :
  stepMoisture (VStr "invalid") (VNum (Fin 5)) (VNum (Fin 1)) (VNum (Fin 1))
  = Throw (Error "Invalid input: all parameters must be numbers").
Proof. apply stepMoisture_rejects_non_numbers. reflexivity. Defined.

Lemma decay_between (h tau : R) :
  0 < h -> 0 < tau -> 0 < Rtrigo_def.exp (- (h / tau)) < 1.
Proof.
  intros Hh Htau. split; [apply exp_pos |].
  rewrite <- exp_0. apply exp_increasing.
  assert (0 < h / tau) by now apply Rdiv_lt_0_compat.
  lra.
Qed.

Lemma decay_at_most_one (h tau : R) :
  0 <= h -> 0 < tau -> 0 < Rtrigo_def.exp (- (h / tau)) <= 1.
Proof.
  intros Hh Htau. split; [apply exp_pos |].
  destruct (Req_dec h 0) as [-> | Hne].
  - unfold Rdiv. rewrite Rmult_0_l, Ropp_0, exp_0. lra.
  - apply Rlt_le, decay_between; lra.
Qed.

(** Without the clamp: a non-negative moisture relaxing towards a
    non-negative equilibrium over a non-negative time stays non-negative. *)
Lemma relax_unclamped (m emc h tau : R) :
  0 <= m -> 0 <= emc -> 0 <= h -> 0 < tau ->
  relax m emc h tau = emc + (m - emc) * Rtrigo_def.exp (- (h / tau))
  /\ 0 <= relax m emc h tau.
Proof.
  intros Hm Hemc Hh Htau. unfold relax.
  destruct (decay_at_most_one h tau Hh Htau) as [Hk0 Hk1].
  set (k := Rtrigo_def.exp (- (h / tau))) in *.
  assert (Hnn : 0 <= emc + (m - emc) * k).
  { assert (0 <= emc * (1 - k)) by (apply Rmult_le_pos; lra).
    assert (0 <= m * k) by (apply Rmult_le_pos; lra).
    lra. }
  rewrite Rmax_right by exact Hnn. split; [reflexivity | exact Hnn].
Qed.

(** X6.  A step neither moves away from the equilibrium nor crosses it.
    With a positive time lag, a time of at least 1e-15 time lags and
    non-negative moistures, the returned moisture lies between the
    equilibrium and the current moisture, the two included: drying
    ([emc <= current]) ends in [emc, current], wetting ([current <= emc]) in
    [current, emc].  (Over a shorter time the binary64 decay factor is 1, and
    [emc + (current - emc)] need not give back [current] in the last bit.) *)
Theorem stepMoisture_moves_between (currentMoisture emc hours timeLag : R) :
  0 < timeLag -> timeLag <= 1e15 * hours ->
  0 <= currentMoisture -> 0 <= emc ->
  exists m : R,
    stepMoisture (VNum (Fin currentMoisture)) (VNum (Fin emc))
                 (VNum (Fin hours)) (VNum (Fin timeLag)) = Return (Fin m)
    /\ (emc <= currentMoisture -> emc <= m <= currentMoisture)
    /\ (currentMoisture <= emc -> currentMoisture <= m <= emc).
Proof.
  intros Htau Hguard _ Hemc.
  assert (Hh : 0 <= hours) by lra.
  eexists. split; [apply stepMoisture_fin; lra |].
  destruct (decay_at_most_one hours timeLag Hh Htau) as [Hk0 Hk1].
  unfold relax. set (k := Rtrigo_def.exp (- (hours / timeLag))) in *.
  split.
  - intros Hdry.
    assert (0 <= (currentMoisture - emc) * k) by (apply Rmult_le_pos; lra).
    assert ((currentMoisture - emc) * k <= (currentMoisture - emc) * 1)
      by (apply Rmult_le_compat_l; lra).
    rewrite Rmax_right by lra. lra.
  - intros Hwet.
    assert (0 <= (emc - currentMoisture) * k) by (apply Rmult_le_pos; lra).
    assert ((emc - currentMoisture) * k <= (emc - currentMoisture) * 1)
      by (apply Rmult_le_compat_l; lra).
    assert (Hx : currentMoisture <= emc + (currentMoisture - emc) * k <= emc) by lra.
    unfold Rmax. destruct (Rle_dec 0 (emc + (currentMoisture - emc) * k)); lra.
Qed.

Lemma stepMoisture_moves_between_witness :
  exists m : R,
    stepMoisture (VNum (Fin 15)) (VNum (Fin 5)) (VNum (Fin 1)) (VNum (Fin 1))
    = Return (Fin m)
    /\ (5 <= 15 -> 5 <= m <= 15)
    /\ (15 <= 5 -> 15 <= m <= 5).
Proof. apply (stepMoisture_moves_between 15 5 1 1); lra. Defined.

(** X7.  At equilibrium ([current = emc]) the step returns [max(0, emc)]
    for every elapsed time from 0 on and every positive time lag: a
    non-negative equilibrium is a fixed point, a negative one is replaced
    by 0. *)
Theorem stepMoisture_at_equilibrium (emc hours timeLag : R) :
  0 <= hours -> 0 < timeLag ->
  stepMoisture (VNum (Fin emc)) (VNum (Fin emc)) (VNum (Fin hours))
               (VNum (Fin timeLag))
  = Return (Fin (Rmax 0 emc))
  /\ (0 <= emc -> Rmax 0 emc = emc)
  /\ (emc < 0 -> Rmax 0 emc = 0).
Proof.
  intros _ Htau. split; [| split].
  - rewrite stepMoisture_fin by lra. unfold relax.
    do 3 f_equal. lra.
  - intros H. now apply Rmax_right.
  - intros H. apply Rmax_left. lra.
Qed.

Lemma stepMoisture_at_equilibrium_witness :
  stepMoisture (VNum (Fin 10)) (VNum (Fin 10)) (VNum (Fin 1)) (VNum (Fin 1))
  = Return (Fin (Rmax 0 10))
  /\ (0 <= 10 -> Rmax 0 10 = 10)
  /\ (10 < 0 -> Rmax 0 10 = 0).
Proof. apply (stepMoisture_at_equilibrium 10 1 1); lra. Defined.

(** X8.  Steps compose: with non-negative moisture and equilibrium, a
    positive time lag and non-negative times, a step over [h1] followed by a
    step over [h2] gives what one step over [h1 + h2] gives. *)
Theorem stepMoisture_composes (currentMoisture emc h1 h2 timeLag : R) :
  0 <= currentMoisture -> 0 <= emc -> 0 <= h1 -> 0 <= h2 -> 0 < timeLag ->
  (m <- stepMoisture (VNum (Fin currentMoisture)) (VNum (Fin emc))
                     (VNum (Fin h1)) (VNum (Fin timeLag)) ;;
   stepMoisture (VNum m) (VNum (Fin emc)) (VNum (Fin h2)) (VNum (Fin timeLag)))
  = stepMoisture (VNum (Fin currentMoisture)) (VNum (Fin emc))
                 (VNum (Fin (h1 + h2))) (VNum (Fin timeLag)).
Proof.
  intros Hm Hemc Hh1 Hh2 Htau.
  rewrite !stepMoisture_fin by lra. cbn [bind].
  rewrite stepMoisture_fin by lra. do 2 f_equal.
  destruct (relax_unclamped currentMoisture emc h1 timeLag Hm Hemc Hh1 Htau)
    as [Hfirst Hnn].
  destruct (relax_unclamped (relax currentMoisture emc h1 timeLag) emc h2 timeLag
              Hnn Hemc Hh2 Htau) as [Hsecond _].
  destruct (relax_unclamped currentMoisture emc (h1 + h2) timeLag Hm Hemc
              ltac:(lra) Htau) as [Hwhole _].
  rewrite Hsecond, Hwhole, Hfirst.
  replace (- ((h1 + h2) / timeLag)) with (- (h1 / timeLag) + - (h2 / timeLag))
    by (field; lra).
  rewrite exp_plus. ring.
Qed.

Lemma stepMoisture_composes_witness :
  (m <- stepMoisture (VNum (Fin 20)) (VNum (Fin 5)) (VNum (Fin 2)) (VNum (Fin 10)) ;;
   stepMoisture (VNum m) (VNum (Fin 5)) (VNum (Fin 4)) (VNum (Fin 10)))
  = stepMoisture (VNum (Fin 20)) (VNum (Fin 5)) (VNum (Fin (2 + 4))) (VNum (Fin 10)).
Proof. apply (stepMoisture_composes 20 5 2 4 10); lra. Defined.

Lemma decay_monotone (h fast slow : R) :
  0 <= h -> 0 < fast <= slow ->
  Rtrigo_def.exp (- (h / fast)) <= Rtrigo_def.exp (- (h / slow)).
Proof.
  intros Hh [Hfast Hslow].
  assert (Hinv : / slow <= / fast) by (apply Rinv_le_contravar; assumption).
  assert (Hq : h / slow <= h / fast)
    by (unfold Rdiv; apply Rmult_le_compat_l; assumption).
  destruct (Req_dec (h / slow) (h / fast)) as [-> | Hne]; [lra |].
  apply Rlt_le, exp_increasing. lra.
Qed.

(** X9.  A larger time lag does not respond faster: over the same time,
    from a moisture at or above a non-negative equilibrium, the step with
    the larger time lag ends at or above the step with the smaller one, and
    neither goes below the equilibrium. *)
Theorem stepMoisture_slower_with_larger_time_lag
    (currentMoisture emc hours fast slow : R) :
  0 <= hours -> 0 < fast <= slow -> 0 <= emc <= currentMoisture ->
  exists m_fast m_slow : R,
    stepMoisture (VNum (Fin currentMoisture)) (VNum (Fin emc))
                 (VNum (Fin hours)) (VNum (Fin fast)) = Return (Fin m_fast)
    /\ stepMoisture (VNum (Fin currentMoisture)) (VNum (Fin emc))
                    (VNum (Fin hours)) (VNum (Fin slow)) = Return (Fin m_slow)
    /\ emc <= m_fast <= m_slow.
Proof.
  intros Hh [Hfast Hslow] [Hemc Hdry]. do 2 eexists.
  split; [apply stepMoisture_fin; lra |].
  split; [apply stepMoisture_fin; lra |].
  destruct (relax_unclamped currentMoisture emc hours fast) as [-> _]; try lra.
  destruct (relax_unclamped currentMoisture emc hours slow) as [-> _]; try lra.
  destruct (decay_at_most_one hours fast Hh Hfast) as [Hk0 _].
  pose proof (decay_monotone hours fast slow Hh (conj Hfast Hslow)) as Hk.
  assert (0 <= (currentMoisture - emc) * Rtrigo_def.exp (- (hours / fast)))
    by (apply Rmult_le_pos; lra).
  assert ((currentMoisture - emc) * Rtrigo_def.exp (- (hours / fast))
          <= (currentMoisture - emc) * Rtrigo_def.exp (- (hours / slow)))
    by (apply Rmult_le_compat_l; lra).
  lra.
Qed.

Lemma stepMoisture_slower_with_larger_time_lag_witness :
  exists m_fast m_slow : R,
    stepMoisture (VNum (Fin 20)) (VNum (Fin 5)) (VNum (Fin 1)) (VNum (Fin 1))
    = Return (Fin m_fast)
    /\ stepMoisture (VNum (Fin 20)) (VNum (Fin 5)) (VNum (Fin 1)) (VNum (Fin 10))
       = Return (Fin m_slow)
    /\ 5 <= m_fast <= m_slow.
Proof. apply (stepMoisture_slower_with_larger_time_lag 20 5 1 1 10); lra. Defined.

End StepMoistureLaws.

(** ** runModel: prefixes, range errors, reported ranges *)

Section RunModelLaws.
Import FuelMoistureIntegration.
Local Open Scope string_scope.
Local Open Scope list_scope.

(** Take one iteration of the loop apart. *)
Ltac loop_step step currentMoisture timeLag :=
  cbn [runModel_loop];
  destruct (destructure_step step) as [[[?tempF ?rh] ?hours] | ?err];
  cbn [bind]; try discriminate;
  match goal with
  | |- context [match ?t with VNum _ => _ | _ => _ end] =>
      destruct t; try discriminate
  end;
  match goal with
  | |- context [match ?t with VNum _ => _ | _ => _ end] =>
      destruct t; try discriminate
  end;
  match goal with
  | |- context [match ?t with VNum _ => _ | _ => _ end] =>
      destruct t; try discriminate
  end;
  match goal with
  | |- context [computeEMC ?a ?b] =>
      destruct (computeEMC a b) as [?emc | ?err]; cbn [bind]; try discriminate
  end;
  match goal with
  | |- context [stepMoisture ?a ?b ?c ?d] =>
      destruct (stepMoisture a b c d) as [?m | ?err]; cbn [bind]; try discriminate
  end.

(** The loop only appends: what it returns starts with the entries it was
    given, followed by one entry per step. *)
Lemma runModel_loop_extends (steps : list value) :
  forall (timeLag currentMoisture : value) (cumulativeHours : number)
         (results returned : list value),
    runModel_loop steps timeLag currentMoisture cumulativeHours results
    = Return returned ->
    exists out, returned = results ++ out
                /\ List.length out = List.length steps.
Proof.
  induction steps as [| step rest IH];
    intros timeLag currentMoisture cumulativeHours results returned.
  - cbn [runModel_loop]. intros [= <-]. exists []. now rewrite app_nil_r.
  - loop_step step currentMoisture timeLag. intros Hrun.
    destruct (IH _ _ _ _ _ Hrun) as (out & -> & Hlen).
    eexists (_ :: out). rewrite <- app_assoc. cbn [app List.length].
    split; [reflexivity | now rewrite Hlen].
Qed.

Lemma runModel_loop_prefix (before after : list value) :
  forall (timeLag currentMoisture : value) (cumulativeHours : number)
         (results returned : list value),
    runModel_loop (before ++ after) timeLag currentMoisture cumulativeHours results
    = Return returned ->
    exists shorter out,
      runModel_loop before timeLag currentMoisture cumulativeHours results
      = Return shorter
      /\ returned = shorter ++ out
      /\ List.length out = List.length after.
Proof.
  induction before as [| step rest IH];
    intros timeLag currentMoisture cumulativeHours results returned.
  - cbn [app runModel_loop]. intros Hrun.
    destruct (runModel_loop_extends _ _ _ _ _ _ Hrun) as (out & -> & Hlen).
    exists results, out. repeat split; assumption.
  - cbn [app]. loop_step step currentMoisture timeLag. apply IH.
Qed.

(** X10.  Later steps never change earlier entries: when [runModel] returns
    for an array of steps, it also returns for every initial part of the
    array, and that result is the beginning of the longer one, which adds one
    entry per further step.  No assumption is made on the values. *)
Theorem runModel_prefix (initialMoisture timeLag : value)
    (before after returned : list value) :
  runModel initialMoisture (VArr (before ++ after)) timeLag = Return returned ->
  exists shorter out : list value,
    runModel initialMoisture (VArr before) timeLag = Return shorter
    /\ returned = shorter ++ out
    /\ List.length out = List.length after
    /\ List.length shorter = S (List.length before).
Proof.
  unfold runModel. intros Hrun.
  destruct (runModel_loop_prefix _ _ _ _ _ _ _ Hrun) as (shorter & out & Hshort & -> & Hlen).
  exists shorter, out. repeat split; try assumption.
  destruct (runModel_loop_extends _ _ _ _ _ _ Hshort) as (out' & -> & Hlen').
  rewrite length_app, Hlen'. cbn [List.length]. lia.
Qed.

Lemma runModel_loop_out_of_range (timeLag : number) (pre post : list value)
    (bad : value) (tempF rh : R) (hours : number) :
  Forall well_formed pre ->
  get bad "tempF" = VNum (Fin tempF) ->
  get bad "rh" = VNum (Fin rh) ->
  get bad "hours" = VNum hours ->
  rh < 0 \/ 100 < rh ->
  forall (current : number) (cumulative : R) (results : list value),
    runModel_loop (pre ++ bad :: post) (VNum timeLag) (VNum current)
                  (Fin cumulative) results
    = Throw (Error "Relative humidity must be between 0 and 100").
Proof.
  intros Hpre Ht Hh Hd Hrange.
  induction Hpre as [| step rest Hstep Hrest IH]; intros current cumulative results.
  - assert (Hnn : nullish bad = false)
      by (destruct bad; try reflexivity; discriminate Ht).
    cbn [app runModel_loop]. rewrite (destructure_step_ok bad Hnn). cbn [bind].
    rewrite Ht, Hh, Hd, (computeEMC_out_of_range tempF rh Hrange). reflexivity.
  - pose proof (well_formed_not_nullish step Hstep) as Hok.
    destruct Hstep as (t & h & d & Ht' & Hh' & Hd' & Hrange').
    destruct (computeEMC_finite t h Hrange') as (e & He & _).
    cbn [app runModel_loop]. rewrite (destructure_step_ok step Hok). cbn [bind].
    rewrite Ht', Hh', Hd', He. cbn [bind stepMoisture]. rewrite add_fin.
    apply IH.
Qed.

(** X11.  A step whose fields are numbers but whose humidity is outside
    [0,100] makes [runModel] throw "Relative humidity must be between 0 and
    100" (the error of [computeEMC], not caught), when the steps before it
    are well-formed; no partial result is returned. *)
Theorem runModel_humidity_out_of_range (initialMoisture : R) (timeLag : value)
    (pre post : list value) (bad : value) (tempF rh : R) (hours : number) :
  numeric_or_absent timeLag ->
  Forall well_formed pre ->
  get bad "tempF" = VNum (Fin tempF) ->
  get bad "rh" = VNum (Fin rh) ->
  get bad "hours" = VNum hours ->
  rh < 0 \/ 100 < rh ->
  runModel (VNum (Fin initialMoisture)) (VArr (pre ++ bad :: post)) timeLag
  = Throw (Error "Relative humidity must be between 0 and 100").
Proof.
  intros Hlag Hpre Ht Hh Hd Hrange.
  assert (Hdef : exists tl, default timeLag (VNum (Fin 1)) = VNum tl).
  { destruct Hlag as [-> | [n ->]]; eexists; reflexivity. }
  destruct Hdef as [tl Hdef]. unfold runModel. rewrite Hdef.
  now apply (runModel_loop_out_of_range tl pre post bad tempF rh hours).
Qed.

Definition humid_step : value :=
  VObj [("tempF", VNum (Fin 70)); ("rh", VNum (Fin 150)); ("hours", VNum (Fin 6))].

Lemma runModel_humidity_out_of_range_witness :
  runModel (VNum (Fin 15)) (VArr ([sample_step] ++ humid_step :: [])) (VNum (Fin 1))
  = Throw (Error "Relative humidity must be between 0 and 100").
Proof.
  apply (runModel_humidity_out_of_range 15 (VNum (Fin 1)) [sample_step] []
           humid_step 70 150 (Fin 6)); try reflexivity.
  - right. eexists. reflexivity.
  - constructor; [exact sample_step_well_formed | constructor].
  - right. lra.
Defined.

End RunModelLaws.

Section RunModelRanges.
Import FuelMoistureIntegration.
Local Open Scope string_scope.
Local Open Scope list_scope.

Lemma runModel_prefix_witness :
  exists returned shorter out : list value,
    runModel (VNum (Fin 15)) (VArr ([sample_step] ++ [sample_step])) (VNum (Fin 1))
    = Return returned
    /\ runModel (VNum (Fin 15)) (VArr [sample_step]) (VNum (Fin 1)) = Return shorter
    /\ returned = shorter ++ out
    /\ List.length out = 1%nat
    /\ List.length shorter = 2%nat.
Proof.
  assert (Hwf : Forall well_formed ([sample_step] ++ [sample_step]))
    by (repeat constructor; exact sample_step_well_formed).
  destruct (runModel_loop_entries (Fin 1) _ Hwf (Fin 15) 0
              [initial_entry (VNum (Fin 15))]) as (entries & Hrun & _).
  destruct (runModel_prefix (VNum (Fin 15)) (VNum (Fin 1)) [sample_step]
              [sample_step] _ Hrun) as (shorter & out & H1 & H2 & H3 & H4).
  exists (initial_entry (VNum (Fin 15)) :: entries), shorter, out.
  repeat split; assumption.
Defined.

Lemma round1R_nonneg (x : R) : 0 <= x -> 0 <= round1R x.
Proof.
  intros Hx. unfold round1R.
  assert (H : (0 <= Zfloor (x * 10 + 1 / 2))%Z) by (apply Zfloor_lub; simpl; lra).
  apply IZR_le in H. simpl in H. lra.
Qed.

Lemma round1R_emc_range (e : R) : 0.1 <= e <= 40 -> 0.1 <= round1R e <= 40.
Proof.
  intros [Hlo Hhi].
  assert (Hmin : round1R 0.1 = 0.1).
  { unfold round1R. rewrite (Zfloor_eq 1) by lra. lra. }
  assert (Hmax : round1R 40 = 40).
  { unfold round1R. rewrite (Zfloor_eq 400) by lra. lra. }
  pose proof (round1R_monotone 0.1 e Hlo). pose proof (round1R_monotone e 40 Hhi).
  lra.
Qed.

(** After at least one well-formed step, or from a non-negative start, the
    unrounded moisture is a non-negative real. *)
Lemma unrounded_nonneg (tau : R) (steps : list value) :
  tau <> 0 ->
  Forall well_formed steps ->
  forall m : R, 0 <= m \/ steps <> [] ->
    exists m' : R,
      unrounded (VNum (Fin tau)) (Fin m) steps = Return (Fin m') /\ 0 <= m'.
Proof.
  intros Htau. induction 1 as [| step rest Hstep Hrest IH]; intros m Hstart.
  - exists m. split; [reflexivity |]. destruct Hstart as [H | H]; [exact H | now destruct H].
  - destruct Hstep as (t & h & d & Ht & Hh & Hd & Hrange).
    destruct (computeEMC_finite t h Hrange) as (e & He & _).
    destruct (IH (relax m e d tau)) as (m' & Hm' & Hnn);
      [left; unfold relax; apply Rmax_l |].
    exists m'. split; [| exact Hnn]. unfold unrounded in *. cbn [fold_left].
    replace (advance (VNum (Fin tau)) (Return (Fin m)) step)
      with (Return (A := number) (Fin (relax m e d tau))); [exact Hm' |].
    unfold advance. cbn [bind]. rewrite Ht, Hh, Hd, He. cbn [bind].
    now rewrite stepMoisture_fin.
Qed.

(** X12.  With a real initial moisture, a time lag that is absent or a
    positive real, and well-formed steps none of which runs backwards in
    time ([hours >= 0]), every entry after the first reports a moisture for
    which [moisture >= 0] holds, so neither negative nor NaN, and an EMC
    between 0.1 and 40. *)
Theorem runModel_reported_ranges (initialMoisture : R) (timeLag : value)
    (steps : list value) :
  timeLag = VUndefined \/ (exists tau : R, timeLag = VNum (Fin tau) /\ 0 < tau) ->
  Forall well_formed steps ->
  Forall (fun step => 0 <= hours_of step) steps ->
  exists results : list value,
    runModel (VNum (Fin initialMoisture)) (VArr steps) timeLag = Return results
    /\ forall i, (1 <= i <= List.length steps)%nat ->
         exists (moisture : number) (emc : R),
           get (nth i results VUndefined) "moisture" = VNum moisture
           /\ (moisture >=? Fin 0)%js = true
           /\ get (nth i results VUndefined) "emc" = VNum (Fin emc)
           /\ 0.1 <= emc <= 40.
Proof.
  intros Hlag Hsteps _.
  assert (Hdef : exists tau, default timeLag (VNum (Fin 1)) = VNum (Fin tau) /\ tau <> 0).
  { destruct Hlag as [-> | (tau & -> & Htau)].
    - exists 1. split; [reflexivity | lra].
    - exists tau. split; [reflexivity | lra]. }
  destruct Hdef as (tau & Hdef & Htau). unfold runModel. rewrite Hdef.
  destruct (runModel_loop_entries (Fin tau) steps Hsteps (Fin initialMoisture) 0
              [initial_entry (VNum (Fin initialMoisture))])
    as (out & Hloop & Hlen & Hnth).
  exists (initial_entry (VNum (Fin initialMoisture)) :: out).
  split; [exact Hloop |].
  intros [| j] [Hlo Hhi]; [inversion Hlo |].
  destruct (Hnth j Hhi) as (m & e & Hm & He & Hentry).
  destruct (unrounded_nonneg tau (firstn (S j) steps) Htau
              (Forall_firstn_wf (S j) steps Hsteps) initialMoisture)
    as (m' & Hm' & Hnn).
  { right. destruct steps; [inversion Hhi | discriminate]. }
  rewrite Hm' in Hm. injection Hm as <-.
  pose proof (proj1 (Forall_forall well_formed steps) Hsteps _
                (nth_In steps VUndefined Hhi)) as (t & h & d & Ht & Hh & _ & Hrange).
  rewrite Ht, Hh in He.
  destruct (computeEMC_finite t h Hrange) as (e' & He' & Hbounds).
  rewrite He' in He. injection He as <-.
  exists (Fin (round1R m')), (round1R e'). cbn [nth]. rewrite Hentry.
  unfold entry. rewrite !round1_fin.
  split; [reflexivity |].
  split; [rewrite ge_fin; apply Rleb_true; now apply round1R_nonneg |].
  split; [reflexivity |]. now apply round1R_emc_range.
Qed.

Lemma sample_step_hours : 0 <= hours_of sample_step.
Proof. unfold hours_of, sample_step. cbn. lra. Qed.

Lemma runModel_reported_ranges_witness :
  exists results : list value,
    runModel (VNum (Fin (-3))) (VArr [sample_step]) VUndefined = Return results
    /\ forall i, (1 <= i <= 1)%nat ->
         exists (moisture : number) (emc : R),
           get (nth i results VUndefined) "moisture" = VNum moisture
           /\ (moisture >=? Fin 0)%js = true
           /\ get (nth i results VUndefined) "emc" = VNum (Fin emc)
           /\ 0.1 <= emc <= 40.
Proof.
  apply (runModel_reported_ranges (-3) VUndefined [sample_step]).
  - left. reflexivity.
  - constructor; [exact sample_step_well_formed | constructor].
  - constructor; [exact sample_step_hours | constructor].
Defined.

End RunModelRanges.

(** ** calculateDryingPattern: short durations, errors, hourly samples *)

Section DryingPatternLaws.
Import FuelMoistureIntegration.
Local Open Scope string_scope.
Local Open Scope list_scope.

Variable to_string : value -> string.

(** X13.  With a humidity in [0,100] and a duration below one hour the loop
    does not run: the pattern has the initial sample only, and
    [finalMoisture] is the initial moisture as given.  Neither the initial
    moisture nor the time lag is examined in that case; they may be any
    value. *)
Theorem calculateDryingPattern_short_duration (fuel : nat)
    (initialMoisture timeLag : value) (tempF rh duration : R) :
  0 <= rh <= 100 ->
  duration < 1 ->
  exists result : value,
    calculateDryingPattern to_string fuel initialMoisture
      (VNum (Fin tempF)) (VNum (Fin rh)) (Fin duration) timeLag
    = Some (Return result)
    /\ get result "steps"
       = VArr [VObj [("hours", VNum (Fin 0)); ("moisture", initialMoisture)]]
    /\ get result "finalMoisture" = initialMoisture
    /\ get result "timeLag" = default timeLag (VNum (Fin 1)).
Proof.
  intros Hrh Hshort.
  destruct (computeEMC_finite tempF rh Hrh) as (emc & Hemc & _).
  unfold calculateDryingPattern. rewrite Hemc.
  rewrite div_fin, max_fin by lra.
  rewrite Rmax_left by lra.
  assert (Hloop : forall steps,
             drying_loop fuel (Fin emc) (Fin 1) (Fin duration)
               (default timeLag (VNum (Fin 1))) (Fin 1) initialMoisture steps
             = Some (Return steps)).
  { intros steps. destruct fuel; cbn [drying_loop];
      now rewrite le_fin, Rleb_false by lra. }
  rewrite Hloop. eexists. split; [reflexivity |].
  repeat split; reflexivity.
Qed.

(** X14.  The errors of [calculateDryingPattern] are those of the functions
    it calls.  A temperature or humidity that is not a number, or a humidity
    outside [0,100], throws the error of [computeEMC] before anything else,
    whatever the other arguments.  With valid weather and a duration of at
    least one hour, an initial moisture or a time lag that is not a number
    throws "Invalid input: all parameters must be numbers" at the first
    step. *)
Theorem calculateDryingPattern_errors :
  (forall (fuel : nat) (initialMoisture tempF rh timeLag : value) (duration : number),
      is_number tempF && is_number rh = false ->
      calculateDryingPattern to_string fuel initialMoisture tempF rh duration timeLag
      = Some (Throw (Error "Invalid input: temperature and humidity must be numbers")))
  /\ (forall (fuel : nat) (initialMoisture timeLag : value) (duration : number)
             (tempF rh : R),
        rh < 0 \/ 100 < rh ->
        calculateDryingPattern to_string fuel initialMoisture
          (VNum (Fin tempF)) (VNum (Fin rh)) duration timeLag
        = Some (Throw (Error "Relative humidity must be between 0 and 100")))
  /\ (forall (fuel : nat) (initialMoisture timeLag : value) (tempF rh duration : R),
        0 <= rh <= 100 ->
        1 <= duration ->
        is_number initialMoisture && is_number (default timeLag (VNum (Fin 1))) = false ->
        calculateDryingPattern to_string (S fuel) initialMoisture
          (VNum (Fin tempF)) (VNum (Fin rh)) (Fin duration) timeLag
        = Some (Throw (Error "Invalid input: all parameters must be numbers"))).
Proof.
  split; [| split].
  - intros fuel initialMoisture tempF rh timeLag duration Hnum.
    unfold calculateDryingPattern.
    now rewrite (computeEMC_type_error tempF rh Hnum).
  - intros fuel initialMoisture timeLag duration tempF rh Hrange.
    unfold calculateDryingPattern.
    now rewrite (computeEMC_out_of_range tempF rh Hrange).
  - intros fuel initialMoisture timeLag tempF rh duration Hrh Hlong Hnum.
    destruct (computeEMC_finite tempF rh Hrh) as (emc & Hemc & _).
    unfold calculateDryingPattern. rewrite Hemc.
    rewrite div_fin, max_fin by lra. cbn [drying_loop].
    assert (Hiv : Rmax 1 (duration / 24) <= duration) by (apply Rmax_lub; lra).
    rewrite le_fin, Rleb_true by exact Hiv.
    rewrite stepMoisture_type_error; [reflexivity |].
    cbn [is_number]. rewrite andb_true_r.
    destruct (is_number initialMoisture); [| reflexivity].
    cbn [andb] in *. exact Hnum.
Qed.

End DryingPatternLaws.

Section DryingPatternLawsExamples.
Import FuelMoistureIntegration.
Local Open Scope string_scope.
Local Open Scope list_scope.

Lemma calculateDryingPattern_short_duration_witness :
  exists result : value,
    calculateDryingPattern (fun _ => "") 0 (VStr "wet") (VNum (Fin 85)) (VNum (Fin 25))
      (Fin 0.5) VNull
    = Some (Return result)
    /\ get result "steps"
       = VArr [VObj [("hours", VNum (Fin 0)); ("moisture", VStr "wet")]]
    /\ get result "finalMoisture" = VStr "wet"
    /\ get result "timeLag" = default VNull (VNum (Fin 1)).
Proof.
  apply (calculateDryingPattern_short_duration (fun _ => "") 0 (VStr "wet") VNull 85 25 0.5); lra.
Defined.

Lemma calculateDryingPattern_errors_witness :
  calculateDryingPattern (fun _ => "") 0 (VNum (Fin 20)) (VNum (Fin 85))
    (VNum (Fin 150)) (Fin 24) (VNum (Fin 1))
  = Some (Throw (Error "Relative humidity must be between 0 and 100"))
  /\ calculateDryingPattern (fun _ => "") 1 (VStr "wet") (VNum (Fin 85))
       (VNum (Fin 25)) (Fin 24) (VNum (Fin 1))
     = Some (Throw (Error "Invalid input: all parameters must be numbers")).
Proof.
  split.
  - apply (proj1 (proj2 (calculateDryingPattern_errors (fun _ => "")))). right. lra.
  - apply (proj2 (proj2 (calculateDryingPattern_errors (fun _ => ""))) 0%nat (VStr "wet")
             (VNum (Fin 1)) 85 25 24); try lra. reflexivity.
Defined.

End DryingPatternLawsExamples.


Section HourlySamples.
Import FuelMoistureIntegration.
Local Open Scope string_scope.
Local Open Scope list_scope.

Variable to_string : value -> string.

Lemma relax_composes (m emc h1 h2 tau : R) :
  0 <= m -> 0 <= emc -> 0 <= h1 -> 0 <= h2 -> 0 < tau ->
  relax (relax m emc h1 tau) emc h2 tau = relax m emc (h1 + h2) tau.
Proof.
  intros Hm Hemc Hh1 Hh2 Htau.
  destruct (relax_unclamped m emc h1 tau Hm Hemc Hh1 Htau) as [Hfirst Hnn].
  destruct (relax_unclamped (relax m emc h1 tau) emc h2 tau Hnn Hemc Hh2 Htau)
    as [Hsecond _].
  destruct (relax_unclamped m emc (h1 + h2) tau Hm Hemc ltac:(lra) Htau)
    as [Hwhole _].
  rewrite Hsecond, Hwhole, Hfirst.
  replace (- ((h1 + h2) / tau)) with (- (h1 / tau) + - (h2 / tau)) by (field; lra).
  rewrite exp_plus. ring.
Qed.

(** The loop runs exactly [n] times when the [n] hours it visits lie within
    [duration] and the next one lies beyond. *)
Lemma drying_loop_exact (emc intervalHours duration timeLag : R) (n : nat) :
  timeLag <> 0 ->
  forall (fuel : nat) (hour m : R) (steps : list value),
    (n <= fuel)%nat ->
    (forall j, (j < n)%nat -> hour + INR j * intervalHours <= duration) ->
    duration < hour + INR n * intervalHours ->
    drying_loop fuel (Fin emc) (Fin intervalHours) (Fin duration)
      (VNum (Fin timeLag)) (Fin hour) (VNum (Fin m)) steps
    = Some (Return (steps ++ pushed emc intervalHours timeLag n hour m)).
Proof.
  intros Htau. induction n as [| n IH]; intros fuel hour m steps Hfuel Hin Hout.
  - cbn [INR] in Hout. cbn [pushed]. rewrite app_nil_r.
    destruct fuel; cbn [drying_loop]; now rewrite le_fin, Rleb_false by lra.
  - destruct fuel as [| fuel]; [lia |]. cbn [drying_loop].
    assert (H0 : hour <= duration).
    { specialize (Hin O ltac:(lia)). cbn [INR] in Hin. lra. }
    rewrite le_fin, Rleb_true, stepMoisture_fin by assumption.
    fold (next emc intervalHours timeLag m). rewrite add_fin.
    rewrite IH.
    + cbn [pushed]. now rewrite <- app_assoc.
    + lia.
    + intros j Hj. specialize (Hin (S j) ltac:(lia)). rewrite S_INR in Hin. lra.
    + rewrite S_INR in Hout. lra.
Qed.

Lemma round1R_INR (k : nat) : round1R (INR k) = INR k.
Proof.
  unfold round1R. rewrite INR_IZR_INZ.
  rewrite (Zfloor_eq (Z.of_nat k * 10)).
  - rewrite mult_IZR. field.
  - rewrite mult_IZR. lra.
Qed.

(** The sample of hour [k]: the moisture relaxed over [k] hours, rounded. *)
Definition hourly_sample (emc initialMoisture timeLag : R) (k : nat) : value :=
  VObj [("hours", VNum (Fin (INR k)));
        ("moisture",
         VNum (Fin (round1R (emc + (initialMoisture - emc)
                                   * Rtrigo_def.exp (- (INR k / timeLag))))))].

Lemma pushed_hourly (emc initialMoisture timeLag : R) :
  0 <= initialMoisture -> 0 <= emc -> 0 < timeLag ->
  forall (n k : nat),
    pushed emc 1 timeLag n (INR (S k)) (relax initialMoisture emc (INR k) timeLag)
    = map (hourly_sample emc initialMoisture timeLag) (seq (S k) n).
Proof.
  intros Hm Hemc Htau. induction n as [| n IH]; intros k; [reflexivity |].
  cbn [pushed seq map]. unfold next.
  rewrite (relax_composes initialMoisture emc (INR k) 1 timeLag)
    by (try assumption; try lra; apply pos_INR).
  rewrite <- !S_INR. rewrite IH. f_equal.
  unfold hourly_sample. rewrite !round1_fin. fold (round1R (INR (S k))).
  rewrite round1R_INR.
  destruct (relax_unclamped initialMoisture emc (INR (S k)) timeLag)
    as [-> _]; try assumption; [apply pos_INR |].
  reflexivity.
Qed.

(** On ideal reals the hourly relaxation steps compose exactly, and the
    sample of hour [k] is the rounding of the closed form. *)
Lemma hourly_samples
    (initialMoisture tempF rh duration timeLag : R) (extra : nat) :
  0 <= initialMoisture -> 0 <= rh <= 100 -> 0 < timeLag -> 1 <= duration < 24 ->
  exists (emc : R) (result : value),
    computeEMC (VNum (Fin tempF)) (VNum (Fin rh)) = Return (Fin emc)
    /\ calculateDryingPattern to_string (24 + extra)
         (VNum (Fin initialMoisture)) (VNum (Fin tempF)) (VNum (Fin rh))
         (Fin duration) (VNum (Fin timeLag))
       = Some (Return result)
    /\ get result "steps"
       = VArr (VObj [("hours", VNum (Fin 0));
                     ("moisture", VNum (Fin initialMoisture))]
               :: map (hourly_sample emc initialMoisture timeLag)
                      (seq 1 (Z.to_nat (Zfloor duration))))
    /\ get result "finalMoisture"
       = get (hourly_sample emc initialMoisture timeLag
                (Z.to_nat (Zfloor duration))) "moisture".
Proof.
  intros Hm Hrh Htau [Hlo Hhi].
  destruct (computeEMC_finite tempF rh Hrh) as (emc & Hemc & Hbounds).
  set (n := Z.to_nat (Zfloor duration)).
  assert (Hz : (1 <= Zfloor duration)%Z) by (apply Zfloor_lub; simpl; lra).
  assert (HINR : INR n = IZR (Zfloor duration)).
  { unfold n. rewrite INR_IZR_INZ, Z2Nat.id by lia. reflexivity. }
  destruct (Zfloor_bound duration) as [Hfloor_lo Hfloor_hi].
  assert (Hn24 : (n < 24)%nat).
  { apply INR_lt. replace (INR 24) with 24 by (simpl; lra). lra. }
  assert (Hn1 : (1 <= n)%nat).
  { apply INR_le. cbn [INR]. rewrite HINR. apply IZR_le in Hz. lra. }
  exists emc. eexists. split; [exact Hemc |].
  unfold calculateDryingPattern. rewrite Hemc. cbn [default].
  rewrite div_fin, max_fin by lra. rewrite Rmax_left by lra.
  rewrite (drying_loop_exact emc 1 duration timeLag n ltac:(lra) (24 + extra) 1
             initialMoisture).
  - assert (Hstart : relax initialMoisture emc (INR 0) timeLag = initialMoisture).
    { destruct (relax_unclamped initialMoisture emc (INR 0) timeLag) as [-> _];
        try assumption; try lra; [cbn [INR]; lra |].
      cbn [INR]. unfold Rdiv. rewrite Rmult_0_l, Ropp_0, exp_0. ring. }
    pose proof (pushed_hourly emc initialMoisture timeLag Hm ltac:(lra) Htau n 0)
      as Hpushed.
    rewrite Hstart in Hpushed. cbn [INR] in Hpushed. rewrite Hpushed.
    split; [reflexivity |]. split; [reflexivity |].
    cbn [get assoc String.eqb Ascii.eqb Bool.eqb]. unfold last_moisture.
    cbn [app].
    destruct n as [| n']; [lia |].
    rewrite seq_S, map_app. cbn [map].
    change (?a :: ?l ++ [?b]) with ((a :: l) ++ [b]).
    now rewrite last_last.
  - lia.
  - intros j Hj. assert (HS : (S j <= n)%nat) by lia.
    apply le_INR in HS. rewrite S_INR, HINR in HS. lra.
  - rewrite HINR. lra.
Qed.

Lemma round1R_near (x : R) : Rabs (round1R x - x) <= 0.05.
Proof.
  unfold round1R. destruct (Zfloor_bound (x * 10 + 1 / 2)) as [Hlo Hhi].
  apply Rabs_le. lra.
Qed.

(** The moisture after [k] hours in closed form. *)
Definition relaxed_after (emc initialMoisture timeLag : R) (k : nat) : R :=
  emc + (initialMoisture - emc) * Rtrigo_def.exp (- (INR k / timeLag)).

(** X15.  For a duration from 1 up to (not including) 24 hours the samples
    are hourly.  With an initial moisture from 0 to 1000, a humidity in
    [0,100] and a positive time lag, the pattern has one sample per whole
    hour [k] from 0 to the integer part of the duration; the sample of hour
    [k >= 1] has [hours = k] and reports a moisture within 0.06 of
    [emc + (initialMoisture - emc) * exp(-k / timeLag)], the solution of the
    relaxation after [k] hours (0.05 is the rounding to one decimal, the rest
    leaves room for the rounding errors of the hourly steps); and
    [finalMoisture] is the moisture of the last sample. *)
Theorem calculateDryingPattern_hourly
    (initialMoisture tempF rh duration timeLag : R) (extra : nat) :
  0 <= initialMoisture <= 1000 -> 0 <= rh <= 100 -> 0 < timeLag ->
  1 <= duration < 24 ->
  exists (emc : R) (result : value) (steps : list value),
    computeEMC (VNum (Fin tempF)) (VNum (Fin rh)) = Return (Fin emc)
    /\ calculateDryingPattern to_string (24 + extra)
         (VNum (Fin initialMoisture)) (VNum (Fin tempF)) (VNum (Fin rh))
         (Fin duration) (VNum (Fin timeLag))
       = Some (Return result)
    /\ get result "steps" = VArr steps
    /\ List.length steps = S (Z.to_nat (Zfloor duration))
    /\ nth 0 steps VUndefined
       = VObj [("hours", VNum (Fin 0)); ("moisture", VNum (Fin initialMoisture))]
    /\ (forall k : nat, (1 <= k <= Z.to_nat (Zfloor duration))%nat ->
        exists m : R,
          nth k steps VUndefined
          = VObj [("hours", VNum (Fin (INR k))); ("moisture", VNum (Fin m))]
          /\ Rabs (m - relaxed_after emc initialMoisture timeLag k) <= 0.06)
    /\ get result "finalMoisture"
       = get (nth (Z.to_nat (Zfloor duration)) steps VUndefined) "moisture".
Proof.
  intros [Hm _] Hrh Htau Hduration.
  destruct (hourly_samples initialMoisture tempF rh duration timeLag extra
              Hm Hrh Htau Hduration) as (emc & result & Hemc & Hrun & Hsteps & Hfinal).
  set (n := Z.to_nat (Zfloor duration)) in *.
  assert (Hnth : forall k, (1 <= k <= n)%nat ->
            nth k (VObj [("hours", VNum (Fin 0));
                         ("moisture", VNum (Fin initialMoisture))]
                   :: map (hourly_sample emc initialMoisture timeLag) (seq 1 n))
              VUndefined
            = hourly_sample emc initialMoisture timeLag k).
  { intros [| j] [Hlo Hhi]; [lia |]. cbn [nth].
    rewrite (nth_indep _ VUndefined (hourly_sample emc initialMoisture timeLag O))
      by (rewrite length_map, length_seq; lia).
    rewrite map_nth, seq_nth by lia. reflexivity. }
  exists emc, result. eexists.
  split; [exact Hemc |]. split; [exact Hrun |]. split; [exact Hsteps |].
  split; [cbn [List.length]; now rewrite length_map, length_seq |].
  split; [reflexivity |].
  split.
  - intros k Hk. rewrite (Hnth k Hk). unfold hourly_sample. eexists.
    split; [reflexivity |].
    fold (relaxed_after emc initialMoisture timeLag k).
    pose proof (round1R_near (relaxed_after emc initialMoisture timeLag k)) as Hnear.
    lra.
  - rewrite Hfinal. assert (Hn : (1 <= n <= n)%nat).
    { split; [| lia]. unfold n.
      assert (Hz : (1 <= Zfloor duration)%Z) by (apply Zfloor_lub; simpl; lra).
      lia. }
    now rewrite (Hnth n Hn).
Qed.

End HourlySamples.

Section HourlySamplesExamples.
Import FuelMoistureIntegration.
Local Open Scope string_scope.
Local Open Scope list_scope.

Lemma calculateDryingPattern_hourly_witness :
  exists (emc : R) (result : value) (steps : list value),
    computeEMC (VNum (Fin 90)) (VNum (Fin 20)) = Return (Fin emc)
    /\ calculateDryingPattern (fun _ => "") (24 + 0)
         (VNum (Fin 15)) (VNum (Fin 90)) (VNum (Fin 20)) (Fin 12) (VNum (Fin 1))
       = Some (Return result)
    /\ get result "steps" = VArr steps
    /\ List.length steps = S (Z.to_nat (Zfloor 12))
    /\ nth 0 steps VUndefined
       = VObj [("hours", VNum (Fin 0)); ("moisture", VNum (Fin 15))]
    /\ (forall k : nat, (1 <= k <= Z.to_nat (Zfloor 12))%nat ->
        exists m : R,
          nth k steps VUndefined
          = VObj [("hours", VNum (Fin (INR k))); ("moisture", VNum (Fin m))]
          /\ Rabs (m - relaxed_after emc 15 1 k) <= 0.06)
    /\ get result "finalMoisture"
       = get (nth (Z.to_nat (Zfloor 12)) steps VUndefined) "moisture".
Proof. apply (calculateDryingPattern_hourly (fun _ => "") 15 90 20 12 1 0); lra. Defined.

End HourlySamplesExamples.


(** ** The Rothermel formula on reals *)

Section RothermelFormula.
Import FireBehavior.
Local Open Scope string_scope.

(** The quantities of [calculateRateOfSpread], written on reals in the order
    of the code. *)
Definition moisture_damping (ratio : R) : R :=
  1 - 2.59 * ratio + 5.11 * ratio ^ 2 - 3.52 * ratio ^ 3.

Definition reaction_intensity (f : FuelModel) (fuelMoisture : R) : R :=
  load f * heatContent f * moisture_damping (fuelMoisture / moistureExt f) / 60.

Definition propagating_flux (f : FuelModel) : R :=
  Rtrigo_def.exp ((0.792 + 0.681 * R_sqrt.sqrt (savRatio f)) * (0.1 + depth f)).

Definition wind_coefficient (f : FuelModel) (windSpeed : R) : R :=
  if Rlt_dec 0 windSpeed
  then Rpower windSpeed 0.5 * Rpower (savRatio f) (-0.5) * 0.4
  else 0.

Definition slope_percent (slope : R) : R :=
  Rtrigo1.tan (slope * Math_PI / 180) * 100.

Definition slope_coefficient (f : FuelModel) (slope : R) : R :=
  if Rlt_dec 0 (slope_percent slope)
  then 5.275 * Rpower (savRatio f) (-0.3) * (slope_percent slope / 100) ^ 2
  else 0.

Definition ros_base (f : FuelModel) (fuelMoisture : R) : R :=
  reaction_intensity f fuelMoisture * propagating_flux f / (load f * 0.01).

Definition ros_feet (f : FuelModel) (windSpeed fuelMoisture slope : R) : R :=
  ros_base f fuelMoisture
  * (1 + wind_coefficient f windSpeed + slope_coefficient f slope).

(** Below the moisture of extinction the engine returns these quantities. *)
Lemma calculateRateOfSpread_value (key : string) (f : FuelModel)
    (windSpeed fuelMoisture slope : R) :
  assoc key FUEL_MODELS = Some f ->
  fuelMoisture < moistureExt f ->
  calculateRateOfSpread (Fin windSpeed) (Fin fuelMoisture) (Fin slope) (Some key)
  = Return {| ros := Fin (ros_feet f windSpeed fuelMoisture slope * 60 / 66);
              rosMetric := Fin (ros_feet f windSpeed fuelMoisture slope * 0.3048);
              rosFtPerMin := Some (Fin (ros_feet f windSpeed fuelMoisture slope));
              canSpread := true;
              reactionIntensity := Some (Fin (reaction_intensity f fuelMoisture)) |}.
Proof.
  intros Hkey Hdry.
  destruct (FUEL_MODELS_positive key f Hkey) as (Hload & Hsav & Hdepth & Hext & Hheat).
  unfold calculateRateOfSpread. cbn [with_default].
  rewrite (own_entry key f Hkey). cbv zeta. cbn [num].
  unfold PI. fin. rewrite (Rleb_false (moistureExt f) fuelMoisture) by assumption.
  rewrite pow_fin_two, pow_fin_three, tan_fin.
  rewrite sqrt_fin by lra.
  rewrite !(pow_fin_pos (savRatio f)) by lra.
  fin. rewrite pow_fin_two.
  unfold ros_feet, ros_base, reaction_intensity, propagating_flux, moisture_damping,
    wind_coefficient, slope_coefficient, slope_percent, Rltb.
  destruct (Rlt_dec 0 windSpeed) as [Hwind | Hcalm];
    [rewrite (pow_fin_pos windSpeed) by lra |];
    destruct (Rlt_dec 0 (Rtrigo1.tan (slope * Math_PI / 180) * 100));
    fin; reflexivity.
Qed.

Lemma moisture_damping_factored (r : R) :
  moisture_damping r = (1 - r) * (3.52 * r ^ 2 - 1.59 * r + 1).
Proof. unfold moisture_damping. nra. Qed.

Lemma moisture_damping_positive (r : R) : r < 1 -> 0 < moisture_damping r.
Proof.
  intros Hr. rewrite moisture_damping_factored.
  apply Rmult_lt_0_compat; [lra | nra].
Qed.

Lemma moisture_damping_decreasing (r1 r2 : R) :
  r1 < r2 -> moisture_damping r2 < moisture_damping r1.
Proof.
  intros Hr.
  assert (Hdiff : moisture_damping r1 - moisture_damping r2
                  = (r2 - r1) * (2.59 - 5.11 * (r1 + r2)
                                 + 3.52 * (r1 ^ 2 + r1 * r2 + r2 ^ 2)))
    by (unfold moisture_damping; nra).
  assert (Hq : 0 < 2.59 - 5.11 * (r1 + r2) + 3.52 * (r1 ^ 2 + r1 * r2 + r2 ^ 2)).
  { pose proof (pow2_ge_0 (r1 - r2)). pose proof (pow2_ge_0 (r1 + r2 - 1)).
    nra. }
  assert (0 < (r2 - r1) * (2.59 - 5.11 * (r1 + r2)
                           + 3.52 * (r1 ^ 2 + r1 * r2 + r2 ^ 2)))
    by (apply Rmult_lt_0_compat; lra).
  lra.
Qed.

Lemma ratio_below_one (m ext : R) : 0 < ext -> m < ext -> m / ext < 1.
Proof.
  intros Hext Hm. unfold Rdiv.
  replace 1 with (ext * / ext) by (field; lra).
  apply Rmult_lt_compat_r; [now apply Rinv_0_lt_compat | exact Hm].
Qed.

Lemma Rpower_positive (x y : R) : 0 < Rpower x y.
Proof. unfold Rpower. apply exp_pos. Qed.

Lemma wind_coefficient_nonneg (f : FuelModel) (w : R) : 0 <= wind_coefficient f w.
Proof.
  unfold wind_coefficient. destruct (Rlt_dec 0 w); [| lra].
  pose proof (Rpower_positive w 0.5). pose proof (Rpower_positive (savRatio f) (-0.5)).
  assert (0 < Rpower w 0.5 * Rpower (savRatio f) (-0.5)) by now apply Rmult_lt_0_compat.
  lra.
Qed.

Lemma slope_coefficient_nonneg (f : FuelModel) (s : R) : 0 <= slope_coefficient f s.
Proof.
  unfold slope_coefficient. destruct (Rlt_dec 0 (slope_percent s)); [| lra].
  pose proof (Rpower_positive (savRatio f) (-0.3)).
  pose proof (pow2_ge_0 (slope_percent s / 100)).
  assert (0 <= Rpower (savRatio f) (-0.3) * (slope_percent s / 100) ^ 2)
    by (apply Rmult_le_pos; lra).
  lra.
Qed.

Section TableEntry.
Variables (key : string) (f : FuelModel).
Hypothesis in_table : assoc key FUEL_MODELS = Some f.


(** The factor of [ros_base] that does not depend on the moisture. *)
Lemma ros_base_factor (m : R) :
  ros_base f m
  = moisture_damping (m / moistureExt f)
    * (heatContent f * propagating_flux f / 0.6).
Proof.
  destruct (FUEL_MODELS_positive key f in_table) as (Hload & _).
  unfold ros_base, reaction_intensity.
  replace 0.01 with (1 / 100) by lra. replace 0.6 with (6 / 10) by lra.
  field. lra.
Qed.

Lemma ros_scale_positive : 0 < heatContent f * propagating_flux f / 0.6.
Proof.
  destruct (FUEL_MODELS_positive key f in_table) as (_ & _ & _ & _ & Hheat).
  assert (0 < propagating_flux f) by (unfold propagating_flux; apply exp_pos).
  assert (0 < heatContent f * propagating_flux f) by now apply Rmult_lt_0_compat.
  lra.
Qed.

Lemma ros_base_positive (m : R) : m < moistureExt f -> 0 < ros_base f m.
Proof.
  intros Hdry.
  destruct (FUEL_MODELS_positive key f in_table) as (_ & _ & _ & Hext & _).
  rewrite ros_base_factor.
  apply Rmult_lt_0_compat; [| exact ros_scale_positive].
  apply moisture_damping_positive, ratio_below_one; assumption.
Qed.

Lemma ros_feet_positive (w m s : R) : m < moistureExt f -> 0 < ros_feet f w m s.
Proof.
  intros Hdry. unfold ros_feet.
  pose proof (ros_base_positive m Hdry).
  pose proof (wind_coefficient_nonneg f w). pose proof (slope_coefficient_nonneg f s).
  apply Rmult_lt_0_compat; lra.
Qed.

End TableEntry.

End RothermelFormula.

(** ** calculateRateOfSpread: threshold, wind, moisture, calm and downhill *)

Section SpreadLaws.
Import FireBehavior.
Local Open Scope string_scope.



Lemma wind_coefficient_monotone (f : FuelModel) (w1 w2 : R) :
  w1 <= w2 -> wind_coefficient f w1 <= wind_coefficient f w2.
Proof.
  intros Hw. unfold wind_coefficient.
  pose proof (Rpower_positive (savRatio f) (-0.5)) as Hsav.
  destruct (Rlt_dec 0 w1) as [Hpos | Hcalm].
  - destruct (Rlt_dec 0 w2) as [_ | Hno]; [| lra].
    assert (Hp : Rpower w1 0.5 <= Rpower w2 0.5).
    { destruct (Req_dec w1 w2) as [-> | Hne]; [lra |].
      apply Rlt_le, Rlt_Rpower_l; lra. }
    assert (Rpower w1 0.5 * Rpower (savRatio f) (-0.5)
            <= Rpower w2 0.5 * Rpower (savRatio f) (-0.5))
      by (apply Rmult_le_compat_r; lra).
    lra.
  - destruct (Rlt_dec 0 w2) as [_ | _]; [| lra].
    pose proof (Rpower_positive w2 0.5).
    assert (0 < Rpower w2 0.5 * Rpower (savRatio f) (-0.5))
      by now apply Rmult_lt_0_compat.
    lra.
Qed.

(** X17.  More wind never slows the fire: for a fuel model of the table, a
    moisture from 0 up to (not including) the moisture of extinction and
    wind speeds [lighter <= stronger], the rate of spread at the stronger
    wind is at least the one at the lighter wind, in feet per minute, chains
    per hour and meters per minute, all else equal.  A wind speed of zero or
    less counts as calm in this order. *)
Theorem calculateRateOfSpread_monotone_in_wind (key : string) (f : FuelModel)
    (lighter stronger fuelMoisture slope : R) :
  assoc key FUEL_MODELS = Some f ->
  0 <= fuelMoisture < moistureExt f ->
  lighter <= stronger ->
  exists (r1 r2 : SpreadResult) (feet1 feet2 : R),
    calculateRateOfSpread (Fin lighter) (Fin fuelMoisture) (Fin slope) (Some key)
    = Return r1
    /\ calculateRateOfSpread (Fin stronger) (Fin fuelMoisture) (Fin slope) (Some key)
       = Return r2
    /\ rosFtPerMin r1 = Some (Fin feet1) /\ rosFtPerMin r2 = Some (Fin feet2)
    /\ ros r1 = Fin (feet1 * 60 / 66) /\ ros r2 = Fin (feet2 * 60 / 66)
    /\ rosMetric r1 = Fin (feet1 * 0.3048) /\ rosMetric r2 = Fin (feet2 * 0.3048)
    /\ feet1 <= feet2.
Proof.
  intros Hkey [_ Hdry] Hwind. do 4 eexists.
  split; [apply (calculateRateOfSpread_value key f); assumption |].
  split; [apply (calculateRateOfSpread_value key f); assumption |].
  cbn [ros rosMetric rosFtPerMin]. repeat (split; [reflexivity |]).
  unfold ros_feet.
  pose proof (ros_base_positive key f Hkey fuelMoisture Hdry) as Hbase.
  pose proof (wind_coefficient_monotone f lighter stronger Hwind) as Hcoef.
  apply Rmult_le_compat_l; lra.
Qed.

Lemma calculateRateOfSpread_monotone_in_wind_witness :
  exists (r1 r2 : SpreadResult) (feet1 feet2 : R),
    calculateRateOfSpread (Fin 0) (Fin 8) (Fin 0) (Some "2") = Return r1
    /\ calculateRateOfSpread (Fin 10) (Fin 8) (Fin 0) (Some "2") = Return r2
    /\ rosFtPerMin r1 = Some (Fin feet1) /\ rosFtPerMin r2 = Some (Fin feet2)
    /\ ros r1 = Fin (feet1 * 60 / 66) /\ ros r2 = Fin (feet2 * 60 / 66)
    /\ rosMetric r1 = Fin (feet1 * 0.3048) /\ rosMetric r2 = Fin (feet2 * 0.3048)
    /\ feet1 <= feet2.
Proof.
  apply (calculateRateOfSpread_monotone_in_wind "2" fuel_2 0 10 8 0);
    [reflexivity | simpl; lra | lra].
Defined.

(** X18.  Wetter fuel, slower spread: for a fuel model of the table and two
    moistures from 0 up to (not including) the moisture of extinction, the
    wetter one at least 0.001 above the drier one, the rate of spread at the
    wetter one is strictly smaller, all else equal.  (Moistures closer than
    a rounding error apart are not ordered by the binary64 polynomial.) *)
Theorem calculateRateOfSpread_decreases_with_moisture (key : string) (f : FuelModel)
    (windSpeed drier wetter slope : R) :
  assoc key FUEL_MODELS = Some f ->
  0 <= drier ->
  drier + 0.001 <= wetter ->
  wetter < moistureExt f ->
  exists (r1 r2 : SpreadResult) (ros1 ros2 : R),
    calculateRateOfSpread (Fin windSpeed) (Fin drier) (Fin slope) (Some key)
    = Return r1
    /\ calculateRateOfSpread (Fin windSpeed) (Fin wetter) (Fin slope) (Some key)
       = Return r2
    /\ ros r1 = Fin ros1 /\ ros r2 = Fin ros2
    /\ ros2 < ros1.
Proof.
  intros Hkey _ Hgap Hdry.
  assert (Horder : drier < wetter) by lra.
  do 4 eexists.
  split; [apply (calculateRateOfSpread_value key f); [assumption | lra] |].
  split; [apply (calculateRateOfSpread_value key f); assumption |].
  cbn [ros]. split; [reflexivity |]. split; [reflexivity |].
  destruct (FUEL_MODELS_positive key f Hkey) as (_ & _ & _ & Hext & _).
  unfold ros_feet. rewrite !(ros_base_factor key f Hkey).
  pose proof (ros_scale_positive key f Hkey) as Hscale.
  pose proof (wind_coefficient_nonneg f windSpeed).
  pose proof (slope_coefficient_nonneg f slope).
  assert (Hratio : drier / moistureExt f < wetter / moistureExt f).
  { unfold Rdiv. apply Rmult_lt_compat_r; [now apply Rinv_0_lt_compat | exact Horder]. }
  pose proof (moisture_damping_decreasing _ _ Hratio) as Hdamp.
  assert (Hc : 0 < 1 + wind_coefficient f windSpeed + slope_coefficient f slope)
    by lra.
  set (c := 1 + wind_coefficient f windSpeed + slope_coefficient f slope) in *.
  set (k := heatContent f * propagating_flux f / 0.6) in *.
  assert (moisture_damping (wetter / moistureExt f) * k
          < moisture_damping (drier / moistureExt f) * k)
    by (apply Rmult_lt_compat_r; assumption).
  assert (moisture_damping (wetter / moistureExt f) * k * c
          < moisture_damping (drier / moistureExt f) * k * c)
    by (apply Rmult_lt_compat_r; lra).
  lra.
Qed.

Lemma calculateRateOfSpread_decreases_with_moisture_witness :
  exists (r1 r2 : SpreadResult) (ros1 ros2 : R),
    calculateRateOfSpread (Fin 10) (Fin 4) (Fin 0) (Some "2") = Return r1
    /\ calculateRateOfSpread (Fin 10) (Fin 8) (Fin 0) (Some "2") = Return r2
    /\ ros r1 = Fin ros1 /\ ros r2 = Fin ros2
    /\ ros2 < ros1.
Proof.
  apply (calculateRateOfSpread_decreases_with_moisture "2" fuel_2 10 4 8 0);
    [reflexivity | lra | lra | simpl; lra].
Defined.

End SpreadLaws.

Section CalmAndDownhill.
Import FireBehavior.
Local Open Scope string_scope.

(** [Math.PI] lies below pi: sixteen terms of Machin's series for
    [2 * atan (1/3) + atan (1/7)] bound pi / 4 from below closely enough. *)
Lemma Math_PI_below_pi : 0 < Math_PI < Rtrigo1.PI.
Proof.
  unfold Math_PI. split; [lra |].
  pose proof (PI_2_3_7_ineq 7) as [Hlow _].
  unfold PI_2_3_7_tg, tg_alt, Ratan_seq in Hlow.
  cbn [sum_f_R0 Nat.mul Nat.add Rpow_def.pow INR] in Hlow.
  lra.
Qed.

(** So a slope of 90 degrees is short of the pole and counts as uphill. *)
Lemma vertical_slope_percent : 0 < slope_percent 90.
Proof.
  unfold slope_percent. destruct Math_PI_below_pi as [Hpos Hpi].
  assert (Htan : 0 < Rtrigo1.tan (90 * Math_PI / 180)) by (apply tan_gt_0; lra).
  lra.
Qed.

Lemma downhill_slope_percent (slope : R) :
  -90 < slope <= 0 -> slope_percent slope <= 0.
Proof.
  intros [Hlo Hhi]. unfold slope_percent.
  destruct Math_PI_below_pi as [Hpos Hpi].
  destruct (Req_dec slope 0) as [-> | Hne].
  - replace (0 * Math_PI / 180) with 0 by lra. rewrite tan_0. lra.
  - assert (Htan : Rtrigo1.tan (slope * Math_PI / 180) < 0).
    { apply tan_lt_0; nra. }
    lra.
Qed.

(** X19.  A wind speed that is zero or negative counts as calm, and a slope
    from just above -90 degrees up to 0 counts as flat: the engine returns
    exactly what it returns for a wind speed of 0, respectively a slope of 0,
    whatever the other arguments are. *)
Theorem calculateRateOfSpread_calm_and_downhill
    (windSpeed fuelMoisture slope : number) (fuelModel : option string) :
  (forall w : R, w <= 0 ->
     calculateRateOfSpread (Fin w) fuelMoisture slope fuelModel
     = calculateRateOfSpread (Fin 0) fuelMoisture slope fuelModel)
  /\ (forall s : R, -90 < s <= 0 ->
        calculateRateOfSpread windSpeed fuelMoisture (Fin s) fuelModel
        = calculateRateOfSpread windSpeed fuelMoisture (Fin 0) fuelModel).
Proof.
  split.
  - intros w Hw. unfold calculateRateOfSpread.
    rewrite !gt_fin, (Rltb_false 0 w), (Rltb_false 0 0) by lra. reflexivity.
  - intros s Hs. unfold calculateRateOfSpread, PI.
    fin. rewrite !tan_fin. fin.
    pose proof (downhill_slope_percent s Hs) as Hdown.
    pose proof (downhill_slope_percent 0 ltac:(lra)) as Hflat.
    unfold slope_percent in Hdown, Hflat.
    rewrite (Rltb_false 0 (Rtrigo1.tan (s * Math_PI / 180) * 100)) by exact Hdown.
    rewrite (Rltb_false 0 (Rtrigo1.tan (0 * Math_PI / 180) * 100)) by exact Hflat.
    reflexivity.
Qed.

Lemma calculateRateOfSpread_calm_and_downhill_witness :
  calculateRateOfSpread (Fin (-5)) (Fin 8) (Fin 0) (Some "2")
  = calculateRateOfSpread (Fin 0) (Fin 8) (Fin 0) (Some "2")
  /\ calculateRateOfSpread (Fin 10) (Fin 8) (Fin (-20)) (Some "2")
     = calculateRateOfSpread (Fin 10) (Fin 8) (Fin 0) (Some "2").
Proof.
  split.
  - apply (proj1 (calculateRateOfSpread_calm_and_downhill
                    (Fin 0) (Fin 8) (Fin 0) (Some "2"))). lra.
  - apply (proj2 (calculateRateOfSpread_calm_and_downhill
                    (Fin 10) (Fin 8) (Fin 0) (Some "2"))). lra.
Defined.

End CalmAndDownhill.

(** ** calculateFlameLength and calculateFirelineIntensity *)

Section FlameLength.
Import FireBehavior.
Local Open Scope string_scope.

Lemma not_integer_046 : is_integer 0.46 = false.
Proof.
  unfold is_integer. rewrite (Zfloor_eq 0) by lra. apply Reqb_false. lra.
Qed.

Lemma flame_length_of_positive (intensity : R) :
  0 < intensity ->
  flameLengthFt (calculateFlameLength (Fin intensity))
  = Fin (0.45 * Rpower intensity 0.46)
  /\ flameLengthM (calculateFlameLength (Fin intensity))
     = Fin (0.45 * Rpower intensity 0.46 * 0.3048).
Proof.
  intros Hpos. unfold calculateFlameLength. cbn [flameLengthFt flameLengthM].
  rewrite pow_fin_pos by lra. fin. split; reflexivity.
Qed.

(** X20.  Byram's flame length by the sign of the intensity: a positive
    intensity gives [0.45 * intensity^0.46] feet, strictly positive, and that
    times 0.3048 in meters; an intensity of 0 gives 0; a negative intensity
    gives NaN in both units, since the power of a negative base with a
    fractional exponent is NaN, and nothing is thrown. *)
Theorem calculateFlameLength_by_sign (intensity : R) :
  (0 < intensity ->
   flameLengthFt (calculateFlameLength (Fin intensity))
   = Fin (0.45 * Rpower intensity 0.46)
   /\ flameLengthM (calculateFlameLength (Fin intensity))
      = Fin (0.45 * Rpower intensity 0.46 * 0.3048)
   /\ 0 < 0.45 * Rpower intensity 0.46)
  /\ (intensity = 0 ->
      exists feet meters : R,
        flameLengthFt (calculateFlameLength (Fin intensity)) = Fin feet
        /\ flameLengthM (calculateFlameLength (Fin intensity)) = Fin meters
        /\ feet = 0 /\ meters = 0)
  /\ (intensity < 0 ->
      flameLengthFt (calculateFlameLength (Fin intensity)) = NaN
      /\ flameLengthM (calculateFlameLength (Fin intensity)) = NaN).
Proof.
  split; [| split].
  - intros Hpos. destruct (flame_length_of_positive intensity Hpos) as [Hft Hm].
    pose proof (Rpower_positive intensity 0.46).
    repeat split; [exact Hft | exact Hm | lra].
  - unfold calculateFlameLength. cbn [flameLengthFt flameLengthM]. intros ->. unfold pow. rewrite (Reqb_false 0.46 0), (Reqb_true 0 0),
      (Rltb_true 0 0.46) by lra. fin.
    do 2 eexists. split; [reflexivity |]. split; [reflexivity |]. lra.
  - unfold calculateFlameLength. cbn [flameLengthFt flameLengthM].
    intros Hneg. unfold pow.
    rewrite (Reqb_false 0.46 0), (Reqb_false intensity 0),
      (Rltb_false 0 intensity), not_integer_046 by lra.
    split; reflexivity.
Qed.

Lemma calculateFlameLength_by_sign_witness :
  flameLengthFt (calculateFlameLength (Fin 100)) = Fin (0.45 * Rpower 100 0.46)
  /\ flameLengthFt (calculateFlameLength (Fin (-1))) = NaN.
Proof.
  split.
  - apply (proj1 (calculateFlameLength_by_sign 100)). lra.
  - apply (proj2 (proj2 (calculateFlameLength_by_sign (-1)))). lra.
Defined.

(** X21.  The flame length never falls as the intensity rises: for positive
    intensities [lower <= higher] both lengths are real numbers and the one
    of the higher intensity is at least the other, in feet and in meters. *)
Theorem calculateFlameLength_monotone (lower higher : R) :
  0 < lower <= higher ->
  exists ft1 ft2 m1 m2 : R,
    flameLengthFt (calculateFlameLength (Fin lower)) = Fin ft1
    /\ flameLengthFt (calculateFlameLength (Fin higher)) = Fin ft2
    /\ flameLengthM (calculateFlameLength (Fin lower)) = Fin m1
    /\ flameLengthM (calculateFlameLength (Fin higher)) = Fin m2
    /\ ft1 <= ft2 /\ m1 <= m2.
Proof.
  intros [Hlow Hhigh].
  assert (Hpos : 0 < higher) by lra.
  destruct (flame_length_of_positive lower Hlow) as (Hft1 & Hm1).
  destruct (flame_length_of_positive higher Hpos) as (Hft2 & Hm2).
  assert (Hpow : Rpower lower 0.46 <= Rpower higher 0.46).
  { destruct (Req_dec lower higher) as [-> | Hne]; [lra |].
    apply Rlt_le, Rlt_Rpower_l; lra. }
  do 4 eexists. repeat split; try eassumption; lra.
Qed.

Lemma calculateFlameLength_monotone_witness :
  exists ft1 ft2 m1 m2 : R,
    flameLengthFt (calculateFlameLength (Fin 50)) = Fin ft1
    /\ flameLengthFt (calculateFlameLength (Fin 100)) = Fin ft2
    /\ flameLengthM (calculateFlameLength (Fin 50)) = Fin m1
    /\ flameLengthM (calculateFlameLength (Fin 100)) = Fin m2
    /\ ft1 <= ft2 /\ m1 <= m2.
Proof. apply (calculateFlameLength_monotone 50 100). lra. Defined.

End FlameLength.

(** ** predictFireBehavior: the pipeline, the EMC branch and its errors *)

Section PredictLaws.
Import FireBehavior.
Local Open Scope string_scope.

(** [Math.round(x * 100) / 100] on a real. *)
Definition round2R (x : R) : R := IZR (Zfloor (x * 100 + 1 / 2)) / 100.

(** Byram's intensity from the rate of spread in feet per minute. *)
Definition fireline_intensity (f : FuelModel) (feet : R) : R :=
  heatContent f * (load f * 2000 / 43560) * feet / 60.

Lemma fireline_intensity_positive (key : string) (f : FuelModel) (feet : R) :
  assoc key FUEL_MODELS = Some f -> 0 < feet -> 0 < fireline_intensity f feet.
Proof.
  intros Hkey Hfeet.
  destruct (FUEL_MODELS_positive key f Hkey) as (Hload & _ & _ & _ & Hheat).
  unfold fireline_intensity.
  assert (0 < heatContent f * load f) by now apply Rmult_lt_0_compat.
  assert (0 < heatContent f * load f * feet) by now apply Rmult_lt_0_compat.
  lra.
Qed.

(** The full result on the spreading path, field by field. *)
Lemma predictFireBehavior_fields lib (params : Params) (f : FuelModel)
    (calculatedEMC : option number) (windSpeed slope m : R) :
  assoc (with_default (p_fuelModel params) "2") FUEL_MODELS = Some f ->
  with_default (p_windSpeed params) (Fin 0) = Fin windSpeed ->
  with_default (p_slope params) (Fin 0) = Fin slope ->
  effective_moisture lib (with_default (p_useEMC params) false)
    (with_default (p_temp params) (Fin 70))
    (with_default (p_rh params) (Fin 30))
    (with_default (p_fuelMoisture params) (Fin 10))
  = Return (calculatedEMC, Fin m) ->
  m < moistureExt f ->
  let feet := ros_feet f windSpeed m slope in
  let intensity := fireline_intensity f feet in
  exists result : value,
    predictFireBehavior lib params = Return result
    /\ get result "canSpread" = VBool true
    /\ get result "fuelModel" = VStr (name f)
    /\ get (get result "rateOfSpread") "feetPerMin" = VNum (Fin (round2R feet))
    /\ get (get result "rateOfSpread") "chainsPerHour"
       = VNum (Fin (round2R (feet * 60 / 66)))
    /\ get (get result "rateOfSpread") "metersPerMin"
       = VNum (Fin (round2R (feet * 0.3048)))
    /\ get result "firelineIntensity" = VNum (Fin (IZR (Zfloor (intensity + 1 / 2))))
    /\ get (get result "flameLength") "feet"
       = VNum (Fin (round1R (0.45 * Rpower intensity 0.46)))
    /\ get (get result "flameLength") "meters"
       = VNum (Fin (round1R (0.45 * Rpower intensity 0.46 * 0.3048)))
    /\ get (get result "conditions") "fuelMoisture" = VNum (Fin m)
    /\ get result "emc"
       = match calculatedEMC with
         | Some emc => VNum (round1 emc)
         | None => VUndefined
         end
    /\ has result "emc" = emc_present calculatedEMC.
Proof.
  intros Hkey Hwind Hslope Heff Hdry feet intensity.
  assert (Hfeet : 0 < feet) by now apply (ros_feet_positive _ f Hkey).
  pose proof (fireline_intensity_positive _ f feet Hkey Hfeet) as Hint.
  destruct (FUEL_MODELS_positive _ f Hkey) as (Hload & _ & _ & _ & Hheat).
  unfold predictFireBehavior.
  rewrite (own_entry _ f Hkey), Heff, Hwind, Hslope. cbn [bind].
  rewrite (calculateRateOfSpread_value _ f windSpeed m slope Hkey Hdry).
  fold feet.
  cbn [bind canSpread negb ros rosMetric rosFtPerMin to_number with_default
         num arg name_of].
  unfold calculateFirelineIntensity. cbn [with_default]. fin.
  fold (fireline_intensity f feet). fold intensity.
  destruct (flame_length_of_positive intensity Hint) as [Hft Hmeters].
  rewrite Hft, Hmeters. rewrite !round1_fin, !round2_fin.
  destruct calculatedEMC as [emc |]; eexists;
    (split; [reflexivity |]); repeat split; reflexivity.
Qed.




End PredictLaws.

Section EmcBranchLaws.
Import FireBehavior.
Local Open Scope string_scope.

(** The EMC branch when it is taken. *)
Lemma effective_moisture_taken (temp rh fuelMoisture : number) (t h : R) :
  temp = Fin t -> t <> 0 -> rh = Fin h -> h <> 0 ->
  effective_moisture FuelMoistureIntegration_loaded true temp rh fuelMoisture
  = (calculatedEMC <- FuelMoistureIntegration.computeEMC (VNum temp) (VNum rh) ;;
     Return (Some calculatedEMC, calculatedEMC)).
Proof.
  intros -> Ht -> Hh. unfold effective_moisture, FuelMoistureIntegration_loaded.
  cbn [truthy]. rewrite !Reqb_false by assumption. reflexivity.
Qed.

(** X23.  With [useEMC] on, a known fuel model, a non-zero temperature and a
    humidity below 0 or above 100, [predictFireBehavior] does not return an
    error record: the error "Relative humidity must be between 0 and 100" of
    [computeEMC] is thrown through it.  With an unknown fuel model the error
    record is returned before the humidity is looked at. *)
Theorem predictFireBehavior_humidity_error (params : Params) (t h : R) :
  p_useEMC params = Some true ->
  with_default (p_temp params) (Fin 70) = Fin t -> t <> 0 ->
  with_default (p_rh params) (Fin 30) = Fin h ->
  h < 0 \/ 100 < h ->
  (forall fuel, FUEL_MODELS_get (with_default (p_fuelModel params) "2") = Some fuel ->
     predictFireBehavior FuelMoistureIntegration_loaded params
     = Throw (Error "Relative humidity must be between 0 and 100"))
  /\ (FUEL_MODELS_get (with_default (p_fuelModel params) "2") = None ->
      predictFireBehavior FuelMoistureIntegration_loaded params
      = Return (VObj [("error", VStr "Invalid fuel model")])).
Proof.
  intros Huse Htemp Ht Hrh Hrange. split.
  - intros fuel Hfuel. unfold predictFireBehavior.
    rewrite Hfuel, Huse. cbn [with_default].
    rewrite (effective_moisture_taken _ _ _ t h Htemp Ht Hrh ltac:(lra)).
    rewrite Htemp, Hrh.
    now rewrite (computeEMC_out_of_range t h Hrange).
  - intros Hnone. unfold predictFireBehavior. now rewrite Hnone.
Qed.

Definition humid_params (fuelModel : string) : Params :=
  {| p_windSpeed := None; p_fuelMoisture := None; p_slope := None;
     p_fuelModel := Some fuelModel; p_temp := Some (Fin 70);
     p_rh := Some (Fin 150); p_useEMC := Some true |}.

Lemma predictFireBehavior_humidity_error_witness :
  predictFireBehavior FuelMoistureIntegration_loaded (humid_params "2")
  = Throw (Error "Relative humidity must be between 0 and 100")
  /\ predictFireBehavior FuelMoistureIntegration_loaded (humid_params "99")
     = Return (VObj [("error", VStr "Invalid fuel model")]).
Proof.
  split.
  - apply (proj1 (predictFireBehavior_humidity_error (humid_params "2") 70 150
                    eq_refl eq_refl ltac:(lra) eq_refl ltac:(lra)) (Own fuel_2)).
    reflexivity.
  - apply (proj2 (predictFireBehavior_humidity_error (humid_params "99") 70 150
                    eq_refl eq_refl ltac:(lra) eq_refl ltac:(lra))).
    reflexivity.
Defined.

(** [params] with the [useEMC] property replaced. *)
Definition with_useEMC (params : Params) (useEMC : option bool) : Params :=
  {| p_windSpeed := p_windSpeed params; p_fuelMoisture := p_fuelMoisture params;
     p_slope := p_slope params; p_fuelModel := p_fuelModel params;
     p_temp := p_temp params; p_rh := p_rh params; p_useEMC := useEMC |}.

(** X24.  When the fuel-moisture module could not be loaded the [useEMC]
    flag is ignored without any notice: the call returns what it returns
    with [useEMC] off, for every [params]. *)
Theorem predictFireBehavior_without_module (params : Params) (useEMC : option bool) :
  predictFireBehavior None (with_useEMC params useEMC)
  = predictFireBehavior None (with_useEMC params (Some false)).
Proof.
  unfold predictFireBehavior, with_useEMC.
  cbn [p_windSpeed p_fuelMoisture p_slope p_fuelModel p_temp p_rh p_useEMC].
  assert (Heff : forall u t r m,
             effective_moisture None u t r m = Return (None, m)).
  { intros u t r m. unfold effective_moisture.
    destruct (u && truthy t && truthy r); reflexivity. }
  now rewrite !Heff.
Qed.

(** X25.  The EMC branch, when taken ([useEMC] on, module loaded, non-zero
    temperature, humidity in (0,100]), replaces the supplied [fuelMoisture],
    whatever it is, by the EMC of [computeEMC].  For a fuel model of the table
    and real wind and slope: below the moisture of extinction the result
    echoes the unrounded EMC as [conditions.fuelMoisture] and reports [emc]
    rounded to one decimal; at or above it the cannot-spread result reports
    [emc] unrounded. *)
Theorem predictFireBehavior_uses_emc (params : Params) (f : FuelModel)
    (windSpeed slope t h : R) :
  p_useEMC params = Some true ->
  assoc (with_default (p_fuelModel params) "2") FUEL_MODELS = Some f ->
  with_default (p_windSpeed params) (Fin 0) = Fin windSpeed ->
  with_default (p_slope params) (Fin 0) = Fin slope ->
  with_default (p_temp params) (Fin 70) = Fin t -> t <> 0 ->
  with_default (p_rh params) (Fin 30) = Fin h -> 0 < h <= 100 ->
  exists (emc : R) (result : value),
    FuelMoistureIntegration.computeEMC (VNum (Fin t)) (VNum (Fin h))
    = Return (Fin emc)
    /\ predictFireBehavior FuelMoistureIntegration_loaded params = Return result
    /\ (emc < moistureExt f ->
        get result "canSpread" = VBool true
        /\ get (get result "conditions") "fuelMoisture" = VNum (Fin emc)
        /\ get result "emc" = VNum (Fin (round1R emc)))
    /\ (moistureExt f <= emc ->
        get result "canSpread" = VBool false
        /\ get result "emc" = VNum (Fin emc)).
Proof.
  intros Huse Hkey Hwind Hslope Htemp Ht Hrh Hrange.
  destruct (computeEMC_finite t h ltac:(lra)) as (emc & Hemc & _).
  assert (Heff : effective_moisture FuelMoistureIntegration_loaded
                   (with_default (p_useEMC params) false)
                   (with_default (p_temp params) (Fin 70))
                   (with_default (p_rh params) (Fin 30))
                   (with_default (p_fuelMoisture params) (Fin 10))
                 = Return (Some (Fin emc), Fin emc)).
  { rewrite Huse. cbn [with_default].
    rewrite (effective_moisture_taken _ _ _ t h Htemp Ht Hrh ltac:(lra)).
    rewrite Htemp, Hrh, Hemc. reflexivity. }
  exists emc.
  destruct (Rlt_le_dec emc (moistureExt f)) as [Hdry | Hwet].
  - destruct (predictFireBehavior_fields FuelMoistureIntegration_loaded params f
                (Some (Fin emc)) windSpeed slope emc Hkey Hwind Hslope Heff Hdry)
      as (result & Hres & Hcan & _ & _ & _ & _ & _ & _ & _ & Hcond & Hemcfield & _).
    exists result. split; [exact Hemc |]. split; [exact Hres |].
    split; [intros _ | intros Hle; lra].
    rewrite round1_fin in Hemcfield. repeat split; assumption.
  - exists (no_spread_result f (Some (Fin emc))).
    split; [exact Hemc |]. split.
    + apply predictFireBehavior_too_wet with (effectiveMoisture := Fin emc);
        [assumption | exact Heff |].
      fin. now apply Rleb_true.
    + split; [intros Hlt; lra | intros _]. split; reflexivity.
Qed.

Definition emc_params (fuelMoisture : R) : Params :=
  {| p_windSpeed := Some (Fin 10); p_fuelMoisture := Some (Fin fuelMoisture);
     p_slope := Some (Fin 0); p_fuelModel := Some "2";
     p_temp := Some (Fin 85); p_rh := Some (Fin 25); p_useEMC := Some true |}.

Lemma predictFireBehavior_uses_emc_witness :
  exists (emc : R) (result : value),
    FuelMoistureIntegration.computeEMC (VNum (Fin 85)) (VNum (Fin 25))
    = Return (Fin emc)
    /\ predictFireBehavior FuelMoistureIntegration_loaded (emc_params 30)
       = Return result
    /\ (emc < 15 ->
        get result "canSpread" = VBool true
        /\ get (get result "conditions") "fuelMoisture" = VNum (Fin emc)
        /\ get result "emc" = VNum (Fin (round1R emc)))
    /\ (15 <= emc ->
        get result "canSpread" = VBool false
        /\ get result "emc" = VNum (Fin emc)).
Proof.
  apply (predictFireBehavior_uses_emc (emc_params 30) fuel_2 10 0 85 25);
    try reflexivity; lra.
Defined.

End EmcBranchLaws.

(** ** The fuel-moisture-calculator library *)

Section LibraryLaws.
Import FuelMoistureCalc.
Local Open Scope string_scope.

Lemma round2R_monotone (x y : R) : x <= y -> round2R x <= round2R y.
Proof.
  intros Hxy. unfold round2R.
  assert (H : IZR (Zfloor (x * 100 + 1 / 2)) <= IZR (Zfloor (y * 100 + 1 / 2))).
  { apply IZR_le, Zfloor_le. lra. }
  lra.
Qed.

Lemma round2R_near (x : R) : Rabs (round2R x - x) <= 0.005.
Proof.
  unfold round2R. destruct (Zfloor_bound (x * 100 + 1 / 2)) as [Hlo Hhi].
  apply Rabs_le. lra.
Qed.

(** A number of hundredths is not changed by the rounding. *)
Lemma round2R_hundredths (z : Z) : round2R (IZR z / 100) = IZR z / 100.
Proof.
  unfold round2R. rewrite (Zfloor_eq z); [reflexivity |]. lra.
Qed.

Lemma round2R_is_hundredths (x : R) : exists z : Z, round2R x = IZR z / 100.
Proof. eexists. reflexivity. Qed.

(** [x.toFixed(2)] on a real below 1e21 in magnitude: the magnitude is
    rounded and the sign put back. *)
Definition toFixed2R (x : R) : R :=
  if Rlt_dec x 0 then - round2R (- x) else round2R x.

Lemma toFixed2_fin (x : R) :
  Rabs x < 1e21 -> toFixed2 (Fin x) = Fin (toFixed2R x).
Proof.
  intros Hx. unfold toFixed2, toFixed2R, round2R, Rltb.
  rewrite Rleb_false by exact Hx.
  destruct (Rlt_dec x 0); reflexivity.
Qed.

Lemma toFixed2R_nonneg (x : R) : 0 <= x -> toFixed2R x = round2R x.
Proof. intros Hx. unfold toFixed2R. destruct (Rlt_dec x 0); [lra | reflexivity]. Qed.

Lemma round2R_zero : round2R 0 = 0.
Proof. replace 0 with (IZR 0 / 100) at 1 2 by lra. apply round2R_hundredths. Qed.

(** The rounding of a negative number is not positive, that of a
    non-negative number is not negative. *)
Lemma toFixed2R_sign (x : R) :
  (x < 0 -> toFixed2R x <= 0) /\ (0 <= x -> 0 <= toFixed2R x).
Proof.
  unfold toFixed2R. pose proof round2R_zero as H0. split; intros Hx.
  - destruct (Rlt_dec x 0); [| lra].
    pose proof (round2R_monotone 0 (- x) ltac:(lra)). lra.
  - destruct (Rlt_dec x 0); [lra |].
    pose proof (round2R_monotone 0 x Hx). lra.
Qed.

Lemma toFixed2R_monotone (x y : R) : x <= y -> toFixed2R x <= toFixed2R y.
Proof.
  intros Hxy.
  destruct (toFixed2R_sign x) as [Hxneg Hxpos].
  destruct (toFixed2R_sign y) as [Hyneg Hypos].
  destruct (Rlt_dec x 0) as [Hx | Hx], (Rlt_dec y 0) as [Hy | Hy].
  - unfold toFixed2R.
    destruct (Rlt_dec x 0); [| lra]. destruct (Rlt_dec y 0); [| lra].
    pose proof (round2R_monotone (- y) (- x) ltac:(lra)). lra.
  - specialize (Hxneg Hx). specialize (Hypos ltac:(lra)). lra.
  - lra.
  - rewrite !toFixed2R_nonneg by lra. now apply round2R_monotone.
Qed.

Lemma toFixed2R_near (x : R) : Rabs (toFixed2R x - x) <= 0.005.
Proof.
  unfold toFixed2R. destruct (Rlt_dec x 0).
  - pose proof (round2R_near (- x)) as H. revert H. unfold Rabs.
    destruct (Rcase_abs (round2R (- x) - - x)),
      (Rcase_abs (- round2R (- x) - x)); lra.
  - apply round2R_near.
Qed.

Lemma toFixed2R_hundredths (z : Z) : toFixed2R (IZR z / 100) = IZR z / 100.
Proof.
  unfold toFixed2R. destruct (Rlt_dec (IZR z / 100) 0).
  - replace (- (IZR z / 100)) with (IZR (- z) / 100) by (rewrite opp_IZR; lra).
    rewrite round2R_hundredths, opp_IZR. lra.
  - apply round2R_hundredths.
Qed.

Lemma toFixed2R_is_hundredths (x : R) : exists z : Z, toFixed2R x = IZR z / 100.
Proof.
  unfold toFixed2R. destruct (Rlt_dec x 0).
  - destruct (round2R_is_hundredths (- x)) as [z Hz]. exists (- z)%Z.
    rewrite Hz, opp_IZR. lra.
  - apply round2R_is_hundredths.
Qed.

(** The value of the library's [computeEMC] before the clamp. *)
Definition library_emc_branch (temperature humidity : R) : R :=
  if Rlt_dec humidity 10 then 0.03 + 0.2626 * humidity + 0.00104 * temperature
  else if Rle_dec humidity 50 then 2.22 + 0.160 * humidity + 0.0140 * temperature
  else 21.06 - 0.4944 * humidity + 0.005565 * humidity ^ 2 + 0.00063 * temperature.

Lemma library_computeEMC_in_range (temperature humidity : R) :
  0 <= humidity <= 100 ->
  computeEMC (VNum (Fin temperature)) (VNum (Fin humidity))
  = Return (Fin (round2R (Rmax 1 (Rmin 35 (library_emc_branch temperature humidity))))).
Proof.
  intros Hrh. unfold computeEMC, library_emc_branch. fin.
  rewrite (Rltb_false humidity 0), (Rltb_false 100 humidity) by lra. cbn [orb].
  assert (Hclamp : forall x, Rabs (Rmax 1 (Rmin 35 x)) < 1e21).
  { intros x. apply Rabs_def1.
    - assert (Rmax 1 (Rmin 35 x) <= 35) by (apply Rmax_lub; [lra | apply Rmin_l]). lra.
    - pose proof (Rmax_l 1 (Rmin 35 x)). lra. }
  unfold Rltb, Rleb.
  assert (Hpos : forall x, 0 <= Rmax 1 (Rmin 35 x)).
  { intros x. pose proof (Rmax_l 1 (Rmin 35 x)). lra. }
  destruct (Rlt_dec humidity 10); [| destruct (Rle_dec humidity 50)];
    rewrite ?pow_fin_two; fin;
    rewrite toFixed2_fin, toFixed2R_nonneg by first [apply Hclamp | apply Hpos];
    reflexivity.
Qed.

Lemma library_emc_bounds (x : R) :
  1 <= round2R (Rmax 1 (Rmin 35 x)) <= 35.
Proof.
  assert (H1 : round2R 1 = 1).
  { replace 1 with (IZR 100 / 100) at 1 2 by lra. apply round2R_hundredths. }
  assert (H35 : round2R 35 = 35).
  { replace 35 with (IZR 3500 / 100) at 1 2 by lra. apply round2R_hundredths. }
  pose proof (Rmax_l 1 (Rmin 35 x)) as Hlo.
  assert (Hhi : Rmax 1 (Rmin 35 x) <= 35) by (apply Rmax_lub; [lra | apply Rmin_l]).
  pose proof (round2R_monotone _ _ Hlo). pose proof (round2R_monotone _ _ Hhi).
  lra.
Qed.

(** X26.  The library's [computeEMC]: for a real temperature and a humidity
    in [0,100] it returns a whole number of hundredths between 1 and 35; for a
    humidity outside [0,100] it throws "Humidity must be between 0 and 100",
    a message that differs from the one of the integration module. *)
Theorem library_computeEMC_contract (temperature humidity : R) :
  (0 <= humidity <= 100 ->
   exists (emc : R) (hundredths : Z),
     computeEMC (VNum (Fin temperature)) (VNum (Fin humidity)) = Return (Fin emc)
     /\ 1 <= emc <= 35
     /\ emc = IZR hundredths / 100)
  /\ (humidity < 0 \/ 100 < humidity ->
      computeEMC (VNum (Fin temperature)) (VNum (Fin humidity))
      = Throw (Error "Humidity must be between 0 and 100")
      /\ FuelMoistureIntegration.computeEMC (VNum (Fin temperature))
           (VNum (Fin humidity))
         = Throw (Error "Relative humidity must be between 0 and 100")).
Proof.
  split.
  - intros Hrh. do 2 eexists.
    split; [apply library_computeEMC_in_range; exact Hrh |].
    split; [apply library_emc_bounds | reflexivity].
  - intros Hrange. split; [| now apply computeEMC_out_of_range].
    unfold computeEMC. fin.
    destruct Hrange.
    + now rewrite (Rltb_true humidity 0).
    + rewrite (Rltb_true 100 humidity) by assumption. now rewrite orb_true_r.
Qed.

Lemma library_computeEMC_contract_witness :
  (exists (emc : R) (hundredths : Z),
     computeEMC (VNum (Fin 85)) (VNum (Fin 25)) = Return (Fin emc)
     /\ 1 <= emc <= 35
     /\ emc = IZR hundredths / 100)
  /\ computeEMC (VNum (Fin 70)) (VNum (Fin 150))
     = Throw (Error "Humidity must be between 0 and 100").
Proof.
  split.
  - apply (proj1 (library_computeEMC_contract 85 25)). lra.
  - apply (proj2 (library_computeEMC_contract 70 150)). right. lra.
Defined.

(** The library's relaxation before rounding. *)
Definition library_relax (m emc h tau : R) : R :=
  emc + (m - emc) * Rtrigo_def.exp (- (1 / tau) * h).

Lemma library_stepMoisture_fin (m emc h tau : R) :
  0 < tau ->
  Rabs (library_relax m emc h tau) < 1e21 ->
  stepMoisture (VNum (Fin m)) (VNum (Fin emc)) (VNum (Fin h)) (VNum (Fin tau))
  = Return (Fin (toFixed2R (library_relax m emc h tau))).
Proof.
  intros Htau Hsmall. unfold stepMoisture. fin.
  rewrite Rleb_false by lra. fin.
  fold (library_relax m emc h tau). now rewrite toFixed2_fin.
Qed.




End LibraryLaws.

Section LibraryAggregates.
Import FuelMoistureCalc.
Local Open Scope string_scope.

(** X28.  [calculateMoisture] throws "Invalid input for calculateMoisture"
    unless both [temperature] and [humidity] of its argument are numbers (so
    also for undefined, null and every value that is not an object); for real
    ones it returns [humidity - temperature * 0.1] rounded to hundredths,
    within 0.005 of it. *)
Theorem calculateMoisture_contract (input : value) :
  (is_number (get input "temperature") && is_number (get input "humidity") = false ->
   calculateMoisture input = Throw (Error "Invalid input for calculateMoisture"))
  /\ (forall t h : R,
        get input "temperature" = VNum (Fin t) ->
        get input "humidity" = VNum (Fin h) ->
        Rabs (h - t * 0.1) < 1e21 ->
        exists (m : R) (hundredths : Z),
          calculateMoisture input = Return (Fin m)
          /\ m = IZR hundredths / 100
          /\ Rabs (m - (h - t * 0.1)) <= 0.005).
Proof.
  split.
  - intros Hnum. unfold calculateMoisture.
    destruct (truthy_value input); cbn [negb]; [| reflexivity].
    destruct (get input "temperature"), (get input "humidity");
      try reflexivity; discriminate Hnum.
  - intros t h Ht Hh Hsmall. unfold calculateMoisture.
    assert (Hobj : truthy_value input = true)
      by (destruct input; try discriminate Ht; reflexivity).
    rewrite Hobj, Ht, Hh. cbn [negb]. fin. rewrite toFixed2_fin by exact Hsmall.
    destruct (toFixed2R_is_hundredths (h - t * 0.1)) as [z Hz].
    do 2 eexists. split; [reflexivity |]. split; [exact Hz | apply toFixed2R_near].
Qed.

Lemma calculateMoisture_contract_witness :
  calculateMoisture VNull = Throw (Error "Invalid input for calculateMoisture")
  /\ exists (m : R) (hundredths : Z),
      calculateMoisture
        (VObj [("temperature", VNum (Fin 85)); ("humidity", VNum (Fin 50))])
      = Return (Fin m)
      /\ m = IZR hundredths / 100
      /\ Rabs (m - (50 - 85 * 0.1)) <= 0.005.
Proof.
  split.
  - apply (proj1 (calculateMoisture_contract VNull)). reflexivity.
  - apply (proj2 (calculateMoisture_contract
                    (VObj [("temperature", VNum (Fin 85)); ("humidity", VNum (Fin 50))]))
             85 50); try reflexivity.
    rewrite Rabs_right; lra.
Defined.

(** [x] lies between [a] and [b], in either order. *)
Definition between (a b x : R) : Prop := Rmin a b <= x <= Rmax a b.

Lemma library_relax_between (m emc h tau : R) :
  0 <= h -> 0 < tau -> between m emc (library_relax m emc h tau).
Proof.
  intros Hh Htau. unfold between, library_relax.
  assert (Hk : 0 < Rtrigo_def.exp (- (1 / tau) * h) <= 1).
  { split; [apply exp_pos |].
    destruct (Req_dec h 0) as [-> | Hne].
    - rewrite Rmult_0_r, exp_0. lra.
    - assert (0 < 1 / tau) by (apply Rdiv_lt_0_compat; lra).
      assert (0 < 1 / tau * h) by (apply Rmult_lt_0_compat; lra).
      assert (Hlt : Rtrigo_def.exp (- (1 / tau) * h) < Rtrigo_def.exp 0).
      { apply exp_increasing. rewrite <- Ropp_mult_distr_l. lra. }
      rewrite exp_0 in Hlt. lra. }
  set (k := Rtrigo_def.exp (- (1 / tau) * h)) in *.
  unfold Rmin, Rmax. destruct (Rle_dec m emc); split; nra.
Qed.

Lemma toFixed2R_between (za zb : Z) (x : R) :
  between (IZR za / 100) (IZR zb / 100) x ->
  between (IZR za / 100) (IZR zb / 100) (toFixed2R x).
Proof.
  unfold between. intros [Hlo Hhi].
  apply toFixed2R_monotone in Hlo. apply toFixed2R_monotone in Hhi.
  revert Hlo Hhi. unfold Rmin, Rmax.
  destruct (Rle_dec (IZR za / 100) (IZR zb / 100));
    rewrite !toFixed2R_hundredths; lra.
Qed.

Lemma between_small (a b x : R) :
  Rabs a < 1000 -> Rabs b < 1000 -> between a b x -> Rabs x < 1e21.
Proof.
  unfold between. intros Ha Hb [Hlo Hhi].
  apply Rabs_def2 in Ha. apply Rabs_def2 in Hb. apply Rabs_def1;
    revert Hlo Hhi; unfold Rmin, Rmax; destruct (Rle_dec a b); lra.
Qed.

(** One time-lag class of [calculateAllFuelMoistures]: from a start and an
    equilibrium that are whole hundredths, over 12 hours. *)
Lemma library_class (zi ze : Z) (tau : R) :
  0 < tau ->
  Rabs (IZR zi / 100) < 1000 -> Rabs (IZR ze / 100) < 1000 ->
  exists m : R,
    stepMoisture (VNum (Fin (IZR zi / 100))) (VNum (Fin (IZR ze / 100)))
                 (VNum (Fin 12)) (VNum (Fin tau)) = Return (Fin m)
    /\ between (IZR zi / 100) (IZR ze / 100) m.
Proof.
  intros Htau Hi He.
  pose proof (library_relax_between (IZR zi / 100) (IZR ze / 100) 12 tau
                ltac:(lra) Htau) as Hbetween.
  eexists. split.
  - apply library_stepMoisture_fin; [exact Htau |].
    now apply (between_small (IZR zi / 100) (IZR ze / 100)).
  - now apply toFixed2R_between.
Qed.

(** X29.  [calculateAllFuelMoistures] with real weather, a humidity in
    [0,100] and neither [hours] nor [initial] given: it takes 12 hours and the
    initial moistures 10, 12, 14 and 16, returns an EMC between 1 and 35, and
    the moisture of each time-lag class (1, 10, 100 and 1000 hours) lies
    between its initial value and the EMC.  Nothing is thrown. *)
Theorem calculateAllFuelMoistures_defaults (params : value) (t h : R) :
  get params "temperature" = VNum (Fin t) ->
  get params "humidity" = VNum (Fin h) ->
  get params "hours" = VUndefined ->
  get params "initial" = VUndefined ->
  0 <= h <= 100 ->
  exists emc oneHour tenHour hundredHour thousandHour : R,
    calculateAllFuelMoistures params
    = Return (VObj
        [("emc", VNum (Fin emc));
         ("oneHour", VNum (Fin oneHour));
         ("tenHour", VNum (Fin tenHour));
         ("hundredHour", VNum (Fin hundredHour));
         ("thousandHour", VNum (Fin thousandHour));
         ("conditions", VObj
            [("temperature", VNum (Fin t));
             ("humidity", VNum (Fin h));
             ("hours", VNum (Fin 12))])])
    /\ 1 <= emc <= 35
    /\ between 10 emc oneHour
    /\ between 12 emc tenHour
    /\ between 14 emc hundredHour
    /\ between 16 emc thousandHour.
Proof.
  intros Ht Hh Hhours Hinitial Hrange.
  pose proof (library_computeEMC_in_range t h Hrange) as Hemc.
  pose proof (library_emc_bounds (library_emc_branch t h)) as Hbounds.
  destruct (round2R_is_hundredths (Rmax 1 (Rmin 35 (library_emc_branch t h))))
    as [ze Hze].
  rewrite Hze in Hemc, Hbounds.
  assert (Hsmall : Rabs (IZR ze / 100) < 1000) by (apply Rabs_def1; lra).
  assert (Hinit : forall z : Z, (0 <= z <= 2000)%Z -> Rabs (IZR z / 100) < 1000).
  { intros z [Hz0 Hz1]. apply IZR_le in Hz0, Hz1. apply Rabs_def1; lra. }
  assert (Hi1 : Rabs (IZR 1000 / 100) < 1000) by (apply Hinit; lia).
  assert (Hi10 : Rabs (IZR 1200 / 100) < 1000) by (apply Hinit; lia).
  assert (Hi100 : Rabs (IZR 1400 / 100) < 1000) by (apply Hinit; lia).
  assert (Hi1000 : Rabs (IZR 1600 / 100) < 1000) by (apply Hinit; lia).
  assert (Ht1 : 0 < 1) by lra. assert (Ht10 : 0 < 10) by lra.
  assert (Ht100 : 0 < 100) by lra. assert (Ht1000 : 0 < 1000) by lra.
  destruct (library_class 1000 ze 1 Ht1 Hi1 Hsmall) as (m1 & Hm1 & Hb1).
  destruct (library_class 1200 ze 10 Ht10 Hi10 Hsmall) as (m10 & Hm10 & Hb10).
  destruct (library_class 1400 ze 100 Ht100 Hi100 Hsmall) as (m100 & Hm100 & Hb100).
  destruct (library_class 1600 ze 1000 Ht1000 Hi1000 Hsmall)
    as (m1000 & Hm1000 & Hb1000).
  clear Hi1 Hi10 Hi100 Hi1000 Hinit.
  replace (IZR 1000 / 100) with 10 in * by lra.
  replace (IZR 1200 / 100) with 12 in * by lra.
  replace (IZR 1400 / 100) with 14 in * by lra.
  replace (IZR 1600 / 100) with 16 in * by lra.
  exists (IZR ze / 100), m1, m10, m100, m1000.
  split;
    [| split; [exact Hbounds |];
       split; [exact Hb1 |]; split; [exact Hb10 |];
       split; [exact Hb100 | exact Hb1000]].
  unfold calculateAllFuelMoistures.
  assert (Hobj : exists props, params = VObj props)
    by (destruct params; try discriminate Ht; eexists; reflexivity).
  destruct Hobj as [props ->].
  rewrite Ht, Hh, Hhours, Hinitial, Hemc. cbn [or_default bind member].
  change (get (VObj _) "hr1") with (VNum (Fin 10)).
  change (get (VObj _) "hr10") with (VNum (Fin 12)).
  change (get (VObj _) "hr100") with (VNum (Fin 14)).
  change (get (VObj _) "hr1000") with (VNum (Fin 16)).
  rewrite Hm1. cbn [bind]. rewrite Hm10. cbn [bind].
  rewrite Hm100. cbn [bind]. rewrite Hm1000. reflexivity.
Qed.

Lemma calculateAllFuelMoistures_defaults_witness :
  exists emc oneHour tenHour hundredHour thousandHour : R,
    calculateAllFuelMoistures
      (VObj [("temperature", VNum (Fin 85)); ("humidity", VNum (Fin 25))])
    = Return (VObj
        [("emc", VNum (Fin emc));
         ("oneHour", VNum (Fin oneHour));
         ("tenHour", VNum (Fin tenHour));
         ("hundredHour", VNum (Fin hundredHour));
         ("thousandHour", VNum (Fin thousandHour));
         ("conditions", VObj
            [("temperature", VNum (Fin 85));
             ("humidity", VNum (Fin 25));
             ("hours", VNum (Fin 12))])])
    /\ 1 <= emc <= 35
    /\ between 10 emc oneHour
    /\ between 12 emc tenHour
    /\ between 14 emc hundredHour
    /\ between 16 emc thousandHour.
Proof.
  apply (calculateAllFuelMoistures_defaults
           (VObj [("temperature", VNum (Fin 85)); ("humidity", VNum (Fin 25))])
           85 25); try reflexivity.
  lra.
Defined.

(** X30.  The failures of [calculateAllFuelMoistures]: undefined or null
    [params] is a TypeError; a temperature or humidity that is missing or not
    a number throws "Invalid input: temperature and humidity must be
    numbers"; a real humidity outside [0,100] throws "Humidity must be between
    0 and 100"; and with valid weather, [initial: null] is a TypeError,
    because the default only replaces an undefined [initial]. *)
Theorem calculateAllFuelMoistures_errors :
  calculateAllFuelMoistures VUndefined = Throw TypeError
  /\ calculateAllFuelMoistures VNull = Throw TypeError
  /\ (forall params : value,
        truthy_value params = true ->
        is_number (get params "temperature") && is_number (get params "humidity")
        = false ->
        calculateAllFuelMoistures params
        = Throw (Error "Invalid input: temperature and humidity must be numbers"))
  /\ (forall (params : value) (t h : R),
        get params "temperature" = VNum (Fin t) ->
        get params "humidity" = VNum (Fin h) ->
        h < 0 \/ 100 < h ->
        calculateAllFuelMoistures params
        = Throw (Error "Humidity must be between 0 and 100"))
  /\ (forall (params : value) (t h : R),
        get params "temperature" = VNum (Fin t) ->
        get params "humidity" = VNum (Fin h) ->
        0 <= h <= 100 ->
        get params "initial" = VNull ->
        calculateAllFuelMoistures params = Throw TypeError).
Proof.
  split; [reflexivity |]. split; [reflexivity |]. split; [| split].
  - intros params Htruthy Hnum. unfold calculateAllFuelMoistures.
    destruct params; try discriminate Htruthy;
      destruct (get _ "temperature"), (get _ "humidity");
      try reflexivity; discriminate Hnum.
  - intros params t h Ht Hh Hrange. unfold calculateAllFuelMoistures.
    destruct params; try discriminate Ht.
    rewrite Ht, Hh. unfold computeEMC. fin.
    destruct Hrange.
    + now rewrite (Rltb_true h 0).
    + rewrite (Rltb_true 100 h) by assumption. now rewrite orb_true_r.
  - intros params t h Ht Hh Hrange Hinitial. unfold calculateAllFuelMoistures.
    destruct params; try discriminate Ht.
    rewrite Ht, Hh, Hinitial, (library_computeEMC_in_range t h Hrange).
    reflexivity.
Qed.

Lemma calculateAllFuelMoistures_errors_witness :
  calculateAllFuelMoistures
    (VObj [("temperature", VNum (Fin 85)); ("humidity", VNum (Fin 150))])
  = Throw (Error "Humidity must be between 0 and 100")
  /\ calculateAllFuelMoistures
       (VObj [("temperature", VNum (Fin 85)); ("humidity", VNum (Fin 25));
              ("initial", VNull)])
     = Throw TypeError.
Proof.
  split.
  - apply (proj1 (proj2 (proj2 (proj2 calculateAllFuelMoistures_errors)))
             _ 85 150); try reflexivity. right. lra.
  - apply (proj2 (proj2 (proj2 (proj2 calculateAllFuelMoistures_errors)))
             _ 85 25); try reflexivity. lra.
Defined.

End LibraryAggregates.
